(** * sdk-mx-data-nft: interaction encoding and Data Marshal access

    A shallow embedding of the TypeScript client of the Data NFT marketplace
    and minter contracts ([DataNftMarket], [DataNftMinter], [NftMinter],
    [SftMinter]) and of the [DataNft] class, with the properties of its
    transaction payloads, contract queries and Data Marshal flows.

    Conventions of the embedding
    - a JavaScript [number] that carries an amount, nonce, index or gas is a
      [Z], the integer the double stands for; NaN, the infinities and
      fractions are outside the model.  A [BigNumber] is its integer, and
      its conversion to a number, [toNumber], rounds to the nearest double;
    - a thrown exception is a value of [Exception]; a function that can
      throw returns [Exc A];
    - the typed values of the ABI library ([U64Value], [StringValue], ...)
      are data constructors: their range checks and their binary
      serialisation belong to the library;
    - an object used as a string-keyed dictionary is a [gmap string _];
    - what the sources import and do not define (configuration tables, the
      helpers of [./common], the network, the codec) is a [Variable] of the
      section that uses it. *)

From Stdlib Require Import ZArith Ascii String List Lia Bool.
From stdpp Require Import base option gmap strings list fin_maps pretty.

Local Open Scope Z_scope.
Local Open Scope string_scope.

(** ** JavaScript values, exceptions and the error monad *)

Module Js.

(** Errors of the language and of [./errors].  The classes of [./errors]
    keep their constructor arguments; the text they compose from them is
    not part of this development. *)
Inductive Exception : Type :=
| Error (message : string)
| TypeError (message : string)
| ErrNetworkConfig (message : option string)
| ErrContractQuery (method message : string)
| ErrAttributeNotSet (attribute : string)
| ErrDecodeAttributes (message : string)
| ErrArgumentNotSet (argument message : string)
| ErrBadType (name type : string) (value : option string) (context : string)
| ErrParamValidation (message : string)
| ErrFailedOperation (method message : string)
| ErrFetch (status : Z) (message : string).

Inductive Exc (A : Type) : Type :=
| Return (a : A)
| Throw (e : Exception).
Arguments Return {A} a.
Arguments Throw {A} e.

Definition bind {A B} (m : Exc A) (k : A -> Exc B) : Exc B :=
  match m with
  | Return a => k a
  | Throw e => Throw e
  end.

(** [try { m } catch (e) { h e }] *)
Definition try_catch {A} (m : Exc A) (h : Exception -> Exc A) : Exc A :=
  match m with
  | Return a => Return a
  | Throw e => h e
  end.

(** Truthiness of a string and of an optional string ([undefined] and
    the empty string are falsy). *)
Definition truthy (s : string) : bool := negb (String.eqb s "").

Definition truthy_opt (o : option string) : bool :=
  match o with
  | Some s => truthy s
  | None => false
  end.

(** The double nearest to a natural number, as an integer: a number of at
    most 53 bits is exact, a longer one keeps its 53 leading bits, rounded
    to nearest with ties to the even significand. *)
Definition roundToDouble (m : Z) : Z :=
  let bits := Z.log2 m + 1 in
  if (bits <=? 53)%Z then m
  else
    let shift := bits - 53 in
    let significand := Z.shiftr m shift in
    let rest := Z.land m (Z.ones shift) in
    let half := Z.shiftl 1 (shift - 1) in
    let roundsUp :=
      (half <? rest)%Z || ((rest =? half)%Z && Z.odd significand) in
    Z.shiftl (if roundsUp then significand + 1 else significand) shift.

(** [x.toNumber()] on a [BigNumber] that holds an integer; a magnitude
    that rounds to an infinity, from [2^1024 - 2^970] on, is outside the
    model. *)
Definition toNumber (n : Z) : Z := Z.sgn n * roundToDouble (Z.abs n).

End Js.

Export Js.

Global Instance Exc_ret : MRet Js.Exc := @Js.Return.
Global Instance Exc_bind : MBind Js.Exc := fun A B k m => Js.bind m k.

(** Method chaining, [b.f(x).g(y)] written [b .> f x .> g y]. *)
Notation "b .> f" := (f b) (at level 50, left associativity, only parsing).

(** ** The ABI library: addresses, typed values, payloads, transactions *)

Module SdkCore.

(** An address is known by its bech32 text. *)
Record Address : Type := mkAddress { bech32 : string }.

(** [BigNumber.Value]: a number or a decimal string. *)
Inductive BigNumberValue : Type :=
| BnNum (n : Z)
| BnStr (s : string).

Inductive TypedValue : Type :=
| TokenIdentifierValue (identifier : string)
| U8Value (n : Z)
| U64Value (n : Z)
| BigUIntValue (v : BigNumberValue)
| AddressValue (a : Address)
| StringValue (s : string)
| BooleanValue (b : bool).

Record ContractFunction : Type := mkContractFunction { name : string }.

(** The state of a [ContractCallPayloadBuilder]; [build] hands the
    function and the arguments to the serialiser, so the payload is kept
    as the pair it is built from. *)
Record TransactionPayload : Type := mkPayload {
  callFunction : option ContractFunction;
  callArgs : list TypedValue
}.

Definition ContractCallPayloadBuilder : TransactionPayload :=
  {| callFunction := None; callArgs := [] |}.

Definition setFunction (f : ContractFunction) (b : TransactionPayload)
  : TransactionPayload :=
  {| callFunction := Some f; callArgs := callArgs b |}.

Definition addArg (a : TypedValue) (b : TransactionPayload)
  : TransactionPayload :=
  {| callFunction := callFunction b; callArgs := (callArgs b ++ [a])%list |}.

Definition setArgs (l : list TypedValue) (b : TransactionPayload)
  : TransactionPayload :=
  {| callFunction := callFunction b; callArgs := l |}.

Definition build (b : TransactionPayload) : TransactionPayload := b.

(** The options a [Transaction] is constructed from; [value] is [None]
    where the source leaves it out. *)
Record Transaction : Type := mkTransaction {
  value : option BigNumberValue;
  data : TransactionPayload;
  receiver : Address;
  sender : Address;
  gasLimit : Z;
  chainID : string
}.

Record SmartContract : Type := mkSmartContract { getAddress : Address }.

(** A direct call [fn(args)]. *)
Definition call (fn : string) (args : list TypedValue) : TransactionPayload :=
  {| callFunction := Some (mkContractFunction fn); callArgs := args |}.

End SdkCore.

Export SdkCore.


(** ** Network calls: requests, responses and the log of requests made *)

Module Net.

(** Primitive values held by a loosely typed dictionary ([any]). *)
Inductive JsVal : Type :=
| JUndefined
| JNull
| JBool (b : bool)
| JNum (n : Z)
| JStr (s : string).

(** [obj[key]]: [undefined] for a key the object does not have. *)
Definition prop (obj : gmap string JsVal) (key : string) : JsVal :=
  default JUndefined (obj !! key).

Record FetchConfig : Type := mkFetchConfig {
  method : string;
  headers : option (gmap string JsVal)
}.

(** One call [fetch(url)] or [fetch(url, fetchConfig)]. *)
Record Request : Type := mkRequest {
  url : string;
  config : option FetchConfig
}.

Record Blob : Type := mkBlob { text : string }.

(** What the flows read of a response: the status line, the
    [content-type] header and the body. *)
Record Response : Type := mkResponse {
  status : Z;
  statusText : string;
  contentType : option string;
  blob : Blob
}.

(** Computations that may call the network: the requests issued so far are
    threaded through, and kept when the computation throws. *)
Definition IO (A : Type) : Type := list Request -> Exc A * list Request.

Definition io_ret {A} (a : A) : IO A := fun log => (Return a, log).

Definition io_bind {A B} (m : IO A) (k : A -> IO B) : IO B :=
  fun log =>
    match m log with
    | (Return a, log') => k a log'
    | (Throw e, log') => (Throw e, log')
    end.

Definition lift {A} (m : Exc A) : IO A := fun log => (m, log).

Definition throw {A} (e : Exception) : IO A := fun log => (Throw e, log).

(** [try { m } catch (e) { h e }] *)
Definition io_try {A} (m : IO A) (h : Exception -> IO A) : IO A :=
  fun log =>
    match m log with
    | (Return a, log') => (Return a, log')
    | (Throw e, log') => h e log'
    end.

(** [await fetch(url, config)] against the network [net]. *)
Definition fetch (net : Request -> Exc Response)
    (url : string) (config : option FetchConfig) : IO Response :=
  fun log =>
    let req := {| url := url; config := config |} in
    (net req, (log ++ [req])%list).

(** Run from an empty log. *)
Definition run {A} (m : IO A) : Exc A * list Request := m [].

End Net.

Export Net.

Global Instance IO_ret : MRet Net.IO := @Net.io_ret.
Global Instance IO_bind : MBind Net.IO := fun A B k m => Net.io_bind m k.

(** ** Strings: the text operations the flows use *)

Module Text.

(** White space removed by [trim], within ASCII. *)
Definition is_space (c : ascii) : bool :=
  let n := Ascii.nat_of_ascii c in
  ((9 <=? n)%nat && (n <=? 13)%nat) || (n =? 32)%nat.

Fixpoint trimStart (s : string) : string :=
  match s with
  | String c s' => if is_space c then trimStart s' else s
  | EmptyString => EmptyString
  end.

Definition trim (s : string) : string :=
  String.rev (trimStart (String.rev (trimStart s))).

(** [s.replaceAll(' ', '')] *)
Fixpoint removeSpaces (s : string) : string :=
  match s with
  | String c s' =>
      if Ascii.eqb c " "%char then removeSpaces s' else String c (removeSpaces s')
  | EmptyString => EmptyString
  end.

(** [l.join(',')] *)
Definition join (l : list string) : string := String.concat "," l.

(** [`${n}`] for an integer. *)
Definition ofNumber (n : Z) : string := pretty n.

End Text.

(** ** Contract queries: endpoints, parsed responses, domain records *)

Module Query.

(** What the callers read of a [ReturnCode]. *)
Record ReturnCode : Type := mkReturnCode {
  isSuccess : bool;
  rc_toString : string
}.

Record Query : Type := mkQuery {
  q_address : Address;
  q_func : string;
  q_args : list TypedValue
}.

(** [{ firstValue, returnCode }] of [parseQueryResponse]; [firstValue] is
    [None] when the response carries no value. *)
Record Parsed (T : Type) : Type := mkParsed {
  firstValue : option T;
  returnCode : ReturnCode
}.
Arguments mkParsed {T} _ _.
Arguments firstValue {T} _.
Arguments returnCode {T} _.

(** Decoded structs, as [viewOffers], [viewRequirements] and
    [viewMinterRequirements] read them.  A [BigNumber] is its integer. *)
Record EsdtToken : Type := mkEsdtToken {
  token_identifier : string;
  token_nonce : Z;
  amount : Z
}.

Record RawOffer : Type := mkRawOffer {
  owner : Address;
  offered_token : EsdtToken;
  wanted_token : EsdtToken;
  quantity : Z
}.

Record RawRequirements : Type := mkRawRequirements {
  accepted_tokens : list string;
  accepted_payments : list string;
  maximum_payment_fees : list Z;
  discount_fee_percentage_buyer : Z;
  discount_fee_percentage_seller : Z;
  percentage_cut_from_buyer : Z;
  percentage_cut_from_seller : Z
}.

Record UserDataOut : Type := mkUserDataOut {
  anti_spam_tax_value : Z;
  is_paused : bool;
  max_royalties : Z;
  min_royalties : Z;
  max_supply : Z;
  mint_time_limit : Z;
  last_mint_time : Z;
  is_whitelisted : bool;
  whitelist_enabled : bool;
  minted_per_user : Z;
  total_minted : Z;
  frozen : bool;
  frozen_nonces : list Z
}.

(** The interfaces of [interfaces.ts].  In an [Offer] the nonces and
    amounts hold what the decoder put there: a number, or a text. *)
Record Offer : Type := mkOffer {
  index : Z;
  o_owner : string;
  offeredTokenIdentifier : string;
  offeredTokenNonce : BigNumberValue;
  offeredTokenAmount : BigNumberValue;
  wantedTokenIdentifier : string;
  wantedTokenNonce : BigNumberValue;
  wantedTokenAmount : BigNumberValue;
  o_quantity : Z
}.

Record MarketplaceRequirements : Type := mkMarketplaceRequirements {
  acceptedTokens : list string;
  acceptedPayments : list string;
  maximumPaymentFees : list string;
  buyerTaxPercentageDiscount : Z;
  sellerTaxPercentageDiscount : Z;
  buyerTaxPercentage : Z;
  sellerTaxPercentage : Z
}.

Record MinterRequirements : Type := mkMinterRequirements {
  antiSpamTaxValue : Z;
  addressFrozen : bool;
  frozenNonces : list Z;
  contractPaused : bool;
  userWhitelistedForMint : bool;
  lastUserMintTime : Z;
  maxRoyalties : Z;
  maxSupply : Z;
  minRoyalties : Z;
  mintTimeLimit : Z;
  numberOfMintsForUser : Z;
  totalNumberOfMints : Z;
  contractWhitelistEnabled : bool
}.

(** [x.m(...)] on the first value of a response: a [TypeError] when the
    value is [undefined]. *)
Definition deref {T} (member : string) (returnValue : option T) : Exc T :=
  match returnValue with
  | Some v => Return v
  | None =>
      Throw (TypeError ("Cannot read properties of undefined (reading '"
                        +:+ member +:+ "')"))
  end.

(** The callback of [viewOffers]. *)
Definition toOffer (entry : Z * RawOffer) : Offer :=
  let '(index, o) := entry in
  {| index := toNumber index;
     o_owner := bech32 (owner o);
     offeredTokenIdentifier := token_identifier (offered_token o);
     offeredTokenNonce := BnStr (Text.ofNumber (token_nonce (offered_token o)));
     offeredTokenAmount := BnNum (amount (offered_token o));
     wantedTokenIdentifier := token_identifier (wanted_token o);
     wantedTokenNonce := BnStr (Text.ofNumber (token_nonce (wanted_token o)));
     wantedTokenAmount := BnNum (amount (wanted_token o));
     o_quantity := toNumber (quantity o) |}.

(** The object literal of [viewRequirements]. *)
Definition toMarketplaceRequirements (returnValue : RawRequirements)
  : MarketplaceRequirements :=
  {| acceptedTokens := accepted_tokens returnValue;
     acceptedPayments := accepted_payments returnValue;
     maximumPaymentFees :=
       map (fun v => Text.ofNumber v) (maximum_payment_fees returnValue);
     buyerTaxPercentageDiscount :=
       toNumber (discount_fee_percentage_buyer returnValue);
     sellerTaxPercentageDiscount :=
       toNumber (discount_fee_percentage_seller returnValue);
     buyerTaxPercentage := toNumber (percentage_cut_from_buyer returnValue);
     sellerTaxPercentage := toNumber (percentage_cut_from_seller returnValue) |}.

(** The object literal of [viewMinterRequirements]. *)
Definition toMinterRequirements (returnValue : UserDataOut)
  : MinterRequirements :=
  {| antiSpamTaxValue := toNumber (anti_spam_tax_value returnValue);
     contractPaused := is_paused returnValue;
     maxRoyalties := toNumber (max_royalties returnValue);
     minRoyalties := toNumber (min_royalties returnValue);
     maxSupply := toNumber (max_supply returnValue);
     mintTimeLimit := toNumber (mint_time_limit returnValue);
     lastUserMintTime := last_mint_time returnValue;
     userWhitelistedForMint := is_whitelisted returnValue;
     contractWhitelistEnabled := whitelist_enabled returnValue;
     numberOfMintsForUser := toNumber (minted_per_user returnValue);
     totalNumberOfMints := toNumber (total_minted returnValue);
     addressFrozen := frozen returnValue;
     frozenNonces := map (fun v => toNumber v) (frozen_nonces returnValue) |}.

(** The endpoints queried, indexed by the type of their first value;
    [RawOfferOut] is the offer struct handed to [parseOffer]. *)
Inductive Endpoint (RawOfferOut : Type) : Type -> Type :=
| ep_viewUserListedOffers : Endpoint RawOfferOut (list RawOfferOut)
| ep_viewUserPagedOffers : Endpoint RawOfferOut (list RawOfferOut)
| ep_viewUserTotalOffers : Endpoint RawOfferOut Z
| ep_viewCancelledOffers : Endpoint RawOfferOut (list RawOfferOut)
| ep_viewPagedOffers : Endpoint RawOfferOut (list RawOfferOut)
| ep_getOffers : Endpoint RawOfferOut (list (Z * RawOffer))
| ep_viewRequirements : Endpoint RawOfferOut RawRequirements
| ep_viewNumberOfOffers : Endpoint RawOfferOut Z
| ep_getLastValidOfferId : Endpoint RawOfferOut Z
| ep_getIsPaused : Endpoint RawOfferOut bool
| ep_getUserDataOut : Endpoint RawOfferOut UserDataOut.
Arguments ep_viewUserListedOffers {RawOfferOut}.
Arguments ep_viewUserPagedOffers {RawOfferOut}.
Arguments ep_viewUserTotalOffers {RawOfferOut}.
Arguments ep_viewCancelledOffers {RawOfferOut}.
Arguments ep_viewPagedOffers {RawOfferOut}.
Arguments ep_getOffers {RawOfferOut}.
Arguments ep_viewRequirements {RawOfferOut}.
Arguments ep_viewNumberOfOffers {RawOfferOut}.
Arguments ep_getLastValidOfferId {RawOfferOut}.
Arguments ep_getIsPaused {RawOfferOut}.
Arguments ep_getUserDataOut {RawOfferOut}.

Definition endpointName {R T} (ep : Endpoint R T) : string :=
  match ep with
  | ep_viewUserListedOffers => "viewUserListedOffers"
  | ep_viewUserPagedOffers => "viewUserPagedOffers"
  | ep_viewUserTotalOffers => "viewUserTotalOffers"
  | ep_viewCancelledOffers => "viewCancelledOffers"
  | ep_viewPagedOffers => "viewPagedOffers"
  | ep_getOffers => "getOffers"
  | ep_viewRequirements => "viewRequirements"
  | ep_viewNumberOfOffers => "viewNumberOfOffers"
  | ep_getLastValidOfferId => "getLastValidOfferId"
  | ep_getIsPaused => "getIsPaused"
  | ep_getUserDataOut => "getUserDataOut"
  end.

(** The round trip every view method makes: build the query of the
    interaction, send it, parse the response against the endpoint. *)
Definition roundTrip {R T QueryResponse}
    (queryContract : Query -> Exc QueryResponse)
    (parseQueryResponse :
       forall T, QueryResponse -> Endpoint R T -> Exc (Parsed T))
    (contract : SmartContract) (ep : Endpoint R T) (args : list TypedValue)
  : Exc (Parsed T) :=
  let query :=
    {| q_address := getAddress contract; q_func := endpointName ep;
       q_args := args |} in
  queryResponse ← queryContract query;
  parseQueryResponse T queryResponse ep.

End Query.

Export Query.

(** ** The marketplace client (market): transactions *)

Module DataNftMarket.

Record t : Type := mk {
  contract : SmartContract;
  chainID : string;
  env : string
}.

Definition getContractAddress (this : t) : Address :=
  getAddress (contract this).

Section Queries.

(** [parseOffer] of [./common/utils] and the offer struct it reads. *)
Variable RawOfferOut : Type.
Variable parseOffer : RawOfferOut -> Offer.
(** The network provider and the results parser. *)
Variable QueryResponse : Type.
Variable queryContract : Query -> Exc QueryResponse.
Variable parseQueryResponse :
  forall T, QueryResponse -> Endpoint RawOfferOut T -> Exc (Parsed T).
(** [new U8Value(undefined)] and [new U64Value(undefined)], read back. *)
Variable numericalValueOfUndefined : Exc Z.

Let query {T} := @roundTrip RawOfferOut T QueryResponse queryContract
                   parseQueryResponse.

Definition viewAddressListedOffers (this : t) (address : Address)
  : Exc (list Offer) :=
  '(mkParsed firstValue returnCode) ←
    query (contract this) ep_viewUserListedOffers [AddressValue address];
  if isSuccess returnCode then
    returnValue ← deref "map" firstValue;
    let offers := map (fun offer => parseOffer offer) returnValue in
    mret offers
  else
    Throw (ErrContractQuery "viewAddressListedOffers"
             (rc_toString returnCode)).

Definition viewAddressPagedOffers (this : t) (from to : Z)
    (address : Address) : Exc (list Offer) :=
  '(mkParsed firstValue returnCode) ←
    query (contract this) ep_viewUserPagedOffers
      [U64Value from; U64Value to; AddressValue address];
  if isSuccess returnCode then
    returnValue ← deref "map" firstValue;
    let offers := map (fun offer => parseOffer offer) returnValue in
    mret offers
  else
    Throw (ErrContractQuery "viewAddressPagedOffers"
             (rc_toString returnCode)).

Definition viewAddressTotalOffers (this : t) (address : Address) : Exc Z :=
  '(mkParsed firstValue returnCode) ←
    query (contract this) ep_viewUserTotalOffers [AddressValue address];
  if isSuccess returnCode then
    returnValue ← deref "toNumber" firstValue;
    mret (toNumber returnValue)
  else
    Throw (ErrContractQuery "viewAddressTotalOffers"
             (rc_toString returnCode)).

Definition viewAddressCancelledOffers (this : t) (address : Address)
  : Exc (list Offer) :=
  '(mkParsed firstValue returnCode) ←
    query (contract this) ep_viewCancelledOffers [AddressValue address];
  if isSuccess returnCode then
    returnValue ← deref "map" firstValue;
    let offers := map (fun offer => parseOffer offer) returnValue in
    mret offers
  else
    Throw (ErrContractQuery "viewAddressCancelledOffers"
             (rc_toString returnCode)).

Definition viewPagedOffers (this : t) (from to : Z) : Exc (list Offer) :=
  '(mkParsed firstValue returnCode) ←
    query (contract this) ep_viewPagedOffers [U64Value from; U64Value to];
  if isSuccess returnCode then
    returnValue ← deref "map" firstValue;
    let offers := map (fun offer => parseOffer offer) returnValue in
    mret offers
  else
    Throw (ErrContractQuery "viewPagedOffers" (rc_toString returnCode)).

Definition viewOffers (this : t) : Exc (list Offer) :=
  '(mkParsed firstValue returnCode) ←
    query (contract this) ep_getOffers [];
  if isSuccess returnCode then
    returnValue ← deref "map" firstValue;
    let offers := map toOffer returnValue in
    mret offers
  else
    Throw (ErrContractQuery "viewOffers" (rc_toString returnCode)).

Definition viewRequirements (this : t) : Exc MarketplaceRequirements :=
  '(mkParsed firstValue returnCode) ←
    query (contract this) ep_viewRequirements [];
  if isSuccess returnCode then
    returnValue ← deref "accepted_tokens" firstValue;
    let requirements := toMarketplaceRequirements returnValue in
    mret requirements
  else
    Throw (ErrContractQuery "viewRequirements" (rc_toString returnCode)).

Definition viewNumberOfOffers (this : t) : Exc Z :=
  '(mkParsed firstValue returnCode) ←
    query (contract this) ep_viewNumberOfOffers [];
  if isSuccess returnCode then
    match firstValue with
    | Some returnValue => mret (toNumber returnValue)
    | None => numericalValueOfUndefined
    end
  else
    Throw (ErrContractQuery "viewNumberOfOffers" (rc_toString returnCode)).

Definition viewLastValidOfferId (this : t) : Exc Z :=
  '(mkParsed firstValue returnCode) ←
    query (contract this) ep_getLastValidOfferId [];
  if isSuccess returnCode then
    match firstValue with
    | Some returnValue => mret (toNumber returnValue)
    | None => numericalValueOfUndefined
    end
  else
    Throw (ErrContractQuery "viewLastValidOfferId" (rc_toString returnCode)).

(** [new BooleanValue(returnValue).valueOf()] hands [returnValue] back,
    [undefined] included. *)
Definition viewContractPauseState (this : t) : Exc (option bool) :=
  '(mkParsed firstValue returnCode) ←
    query (contract this) ep_getIsPaused [];
  if isSuccess returnCode then
    let returnValue := firstValue in
    mret returnValue
  else
    Throw (ErrContractQuery "viewContractPauseState"
             (rc_toString returnCode)).

End Queries.

Definition addOffer (this : t) (senderAddress : Address)
    (dataNftIdentifier : string) (dataNftNonce dataNftAmount : Z)
    (paymentTokenIdentifier : string)
    (paymentTokenNonce paymentTokenAmount : Z)
    (minimumPaymentTokenAmount_opt : option Z) : Transaction :=
  let minimumPaymentTokenAmount := default 0 minimumPaymentTokenAmount_opt in
  let addOfferTx :=
    {| value := Some (BnNum 0);
       data :=
         ContractCallPayloadBuilder
           .> setFunction (mkContractFunction "ESDTNFTTransfer")
           .> addArg (TokenIdentifierValue dataNftIdentifier)
           .> addArg (U64Value dataNftNonce)
           .> addArg (BigUIntValue (BnNum dataNftAmount))
           .> addArg (AddressValue (getAddress (contract this)))
           .> addArg (StringValue "addOffer")
           .> addArg (TokenIdentifierValue paymentTokenIdentifier)
           .> addArg (U64Value paymentTokenNonce)
           .> addArg (U64Value paymentTokenAmount)
           .> addArg (U64Value minimumPaymentTokenAmount)
           .> addArg (BigUIntValue (BnNum dataNftAmount))
           .> build;
       receiver := senderAddress;
       sender := senderAddress;
       gasLimit := 12000000;
       SdkCore.chainID := chainID this |} in
  addOfferTx.

Definition acceptOfferWithESDT (itheumTokenIdentifier : string -> string)
    (this : t) (senderAddress : Address) (offerId amount : Z) (price : string)
    (paymentTokenIdentifier_opt : option string) : Transaction :=
  let paymentTokenIdentifier :=
    default (itheumTokenIdentifier (env this)) paymentTokenIdentifier_opt in
  let data :=
    ContractCallPayloadBuilder
      .> setFunction (mkContractFunction "ESDTTransfer")
      .> addArg (TokenIdentifierValue paymentTokenIdentifier)
      .> addArg (BigUIntValue (BnStr price))
      .> addArg (StringValue "acceptOffer")
      .> addArg (U64Value offerId)
      .> addArg (BigUIntValue (BnNum amount))
      .> build in
  let acceptTx :=
    {| value := Some (BnNum 0);
       data := data;
       receiver := getAddress (contract this);
       gasLimit := 12000000;
       sender := senderAddress;
       SdkCore.chainID := chainID this |} in
  acceptTx.

Definition acceptOfferWithEGLD (this : t) (senderAddress : Address)
    (offerId amount : Z) (price : string) : Transaction :=
  let data :=
    ContractCallPayloadBuilder
      .> setFunction (mkContractFunction "acceptOffer")
      .> addArg (U64Value offerId)
      .> addArg (BigUIntValue (BnNum amount))
      .> build in
  let acceptTx :=
    {| value := Some (BnStr price);
       data := data;
       receiver := getAddress (contract this);
       gasLimit := 12000000;
       sender := senderAddress;
       SdkCore.chainID := chainID this |} in
  acceptTx.

Definition acceptOfferWithNoPayment (this : t) (senderAddress : Address)
    (offerId amount : Z) : Transaction :=
  let data :=
    ContractCallPayloadBuilder
      .> setFunction (mkContractFunction "acceptOffer")
      .> addArg (U64Value offerId)
      .> addArg (BigUIntValue (BnNum amount))
      .> build in
  let acceptTx :=
    {| value := Some (BnNum 0);
       data := data;
       receiver := getAddress (contract this);
       gasLimit := 12000000;
       sender := senderAddress;
       SdkCore.chainID := chainID this |} in
  acceptTx.

Definition cancelOffer (this : t) (senderAddress : Address) (offerId : Z)
    (sendFundsBackToOwner_opt : option bool) : Transaction :=
  let sendFundsBackToOwner := default true sendFundsBackToOwner_opt in
  let cancelTx :=
    {| value := Some (BnNum 0);
       data :=
         ContractCallPayloadBuilder
           .> setFunction (mkContractFunction "cancelOffer")
           .> addArg (U64Value offerId)
           .> addArg (BooleanValue sendFundsBackToOwner)
           .> build;
       receiver := getAddress (contract this);
       gasLimit := 10000000;
       sender := senderAddress;
       SdkCore.chainID := chainID this |} in
  cancelTx.

Definition changeOfferPrice (this : t) (senderAddress : Address)
    (offerId newPrice : Z) (newMinimumPaymentTokenAmount_opt : option Z)
  : Transaction :=
  let newMinimumPaymentTokenAmount :=
    default 0 newMinimumPaymentTokenAmount_opt in
  let changePriceTx :=
    {| value := Some (BnNum 0);
       data :=
         ContractCallPayloadBuilder
           .> setFunction (mkContractFunction "changeOfferPrice")
           .> addArg (U64Value offerId)
           .> addArg (U64Value newPrice)
           .> addArg (U64Value newMinimumPaymentTokenAmount)
           .> build;
       receiver := getAddress (contract this);
       gasLimit := 10000000;
       sender := senderAddress;
       SdkCore.chainID := chainID this |} in
  changePriceTx.

Definition withdrawCancelledOffer (this : t) (senderAddress : Address)
    (offerId : Z) : Transaction :=
  let withdrawTx :=
    {| value := Some (BnNum 0);
       data :=
         ContractCallPayloadBuilder
           .> setFunction (mkContractFunction "withdrawCancelledOffer")
           .> addArg (U64Value offerId)
           .> build;
       receiver := getAddress (contract this);
       gasLimit := 12000000;
       sender := senderAddress;
       SdkCore.chainID := chainID this |} in
  withdrawTx.
End DataNftMarket.

(** ** The DataNft class: attribute decoding and Data Marshal access *)

Module DataNft.

Record Config : Type := mkConfig {
  chainID : string;
  networkProvider : string
}.

(** The static members, set together by [setNetworkConfig]. *)
Record Static : Type := mkStatic {
  networkConfiguration : option Config;
  apiConfiguration : option string;
  env : option string
}.

(** A [Date], by its time value in milliseconds. *)
Record Date : Type := mkDate { getTime : Z }.

Record t : Type := mk {
  tokenIdentifier : string;
  nftImgUrl : string;
  dataPreview : string;
  dataStream : string;
  dataMarshal : string;
  tokenName : string;
  creator : string;
  creationTime : Date;
  supply : Z;
  description : string;
  title : string;
  royalties : Z;
  nonce : Z;
  collection : string;
  balance : Z
}.

(** The [DataNftAttributes] struct of the minter ABI, as the codec returns
    it: the seven fields [decodeAttributes] reads. *)
Record DataNftAttributes : Type := mkDataNftAttributes {
  data_preview_url : string;
  data_stream_url : string;
  data_marshal_url : string;
  attr_creator : Address;
  creation_time : Z;
  attr_description : string;
  attr_title : string
}.

(** The object literal [decodeAttributes] returns. *)
Record DecodedAttributes : Type := mkDecodedAttributes {
  dec_dataPreview : string;
  dec_dataStream : string;
  dec_dataMarshal : string;
  dec_creator : string;
  dec_creationTime : Date;
  dec_description : string;
  dec_title : string
}.

(** [p.signableMessage.signature]: a [Buffer] (by its hex text), an object
    with a [hex()] method, or neither. *)
Inductive Signature : Type :=
| SigBuffer (hexText : string)
| SigHexable (hex : Exc string)
| SigOther.

Record SignableMessage : Type := mkSignableMessage {
  signature : option Signature;
  address : option Address
}.

Record SignResult : Type := mkSignResult {
  sr_signature : string;
  sr_addrInHex : string;
  sr_success : bool;
  sr_exception : string
}.

(** The argument of [viewData]. *)
Record ViewDataArgs : Type := mkViewDataArgs {
  signedMessage : option string;
  signableMessage : option SignableMessage;
  stream : option bool;
  fwdAllHeaders : option bool;
  fwdHeaderKeys : option string;
  fwdHeaderMapLookup : option (gmap string JsVal);
  nestedIdxToStream : option Z
}.

(** The argument of [viewDataViaMVXNativeAuth]. *)
Record NativeAuthArgs : Type := mkNativeAuthArgs {
  mvxNativeAuthOrigins : option (list string);
  mvxNativeAuthMaxExpirySeconds : option Z;
  na_fwdHeaderMapLookup : option (gmap string JsVal);
  na_fwdHeaderKeys : option string;
  na_fwdAllHeaders : option bool;
  na_stream : option bool;
  na_nestedIdxToStream : option Z
}.

(** The object handed to [validateSpecificParamsViewData]. *)
Record ValidationParams : Type := mkValidationParams {
  v_signedMessage : option string;
  v_signableMessage : option SignableMessage;
  v_stream : option bool;
  v_fwdAllHeaders : option bool;
  v_fwdHeaderKeys : option string;
  v_fwdHeaderMapLookup : option (gmap string JsVal);
  v_nestedIdxToStream : option Z;
  v_mvxNativeAuthOrigins : option (list string);
  v_mvxNativeAuthMaxExpirySeconds : option Z;
  _fwdHeaderMapLookupMustContainBearerAuthHeader : option bool;
  _mandatoryParamsList : list string
}.

Record ValidationResult : Type := mkValidationResult {
  allPassed : bool;
  validationMessages : string
}.

Record ViewDataReturnType : Type := mkViewDataReturnType {
  data : option Blob;
  vd_contentType : string;
  error : option string
}.

(** [`${x}`] for an optional value: [undefined] prints as its name. *)
Definition template {A} (show : A -> string) (x : option A) : string :=
  match x with
  | Some a => show a
  | None => "undefined"
  end.

(** The chain id as the three marshal URLs write it:
    [chainID == 'D' ? 'ED' : chainID]. *)
Definition marshalChainId (chainID : string) : string :=
  if String.eqb chainID "D" then "ED" else chainID.

(** [DataNft.networkConfiguration.chainID] *)
Definition configuredChainID (st : Static) : Exc string :=
  match networkConfiguration st with
  | Some c => Return (chainID c)
  | None =>
      Throw (TypeError "Cannot read properties of undefined (reading 'chainID')")
  end.

Definition ensureNetworkConfigSet (st : Static) : Exc unit :=
  if negb (truthy_opt (env st)) || negb (truthy_opt (apiConfiguration st))
  then Throw (ErrNetworkConfig None)
  else Return tt.

(** [Object.keys(lookup).forEach(k => headers[k] = lookup[k])] *)
Definition forwardAll (lookup : gmap string JsVal)
    (headers : gmap string JsVal) : gmap string JsVal :=
  map_fold (fun headerKey _ hs => <[headerKey := prop lookup headerKey]> hs)
           headers lookup.

(** The same loop, skipping the [authorization] key. *)
Definition forwardOthers (lookup : gmap string JsVal)
    (headers : gmap string JsVal) : gmap string JsVal :=
  map_fold (fun headerKey _ hs =>
              if negb (String.eqb headerKey "authorization")
              then <[headerKey := prop lookup headerKey]> hs
              else hs)
           headers lookup.

(** The optional query flags shared by the two flows. *)
Definition appendStream (stream : option bool) (url : string) : string :=
  match stream with
  | Some s => url +:+ (if s then "&streamInLine=1" else "")
  | None => url
  end.

Definition appendFwdAllHeaders (fwdAllHeaders : option bool) (url : string)
  : string :=
  match fwdAllHeaders with
  | Some f => url +:+ (if f then "&fwdAllHeaders=1" else "")
  | None => url
  end.

Definition appendNestedIdx (nestedIdxToStream : option Z) (url : string)
  : string :=
  match nestedIdxToStream with
  | Some n => url +:+ "&nestedIdxToStream=" +:+ Text.ofNumber n
  | None => url
  end.

Section Flows.

(** [message] and [toString()] of the classes of [./errors]. *)
Variable classMessage classToString : Exception -> string.
(** Collaborators of [./common/utils] and of the platform. *)
Variable validateSpecificParamsViewData : ValidationParams -> ValidationResult.
Variable checkStatus : Response -> Exc unit.
Variable numberToPaddedHex : Z -> string.
Variable addressHex : Address -> string.
Variable btoa : string -> Exc string.
Variable json : Response -> Exc (gmap string JsVal).
Variable decodeTopLevel : JsVal -> Exc DataNftAttributes.
Variable net : Request -> Exc Response.

Definition render (name msg : string) : string :=
  if String.eqb name "" then msg
  else if String.eqb msg "" then name
  else name +:+ ": " +:+ msg.

Definition message (e : Exception) : string :=
  match e with
  | Error m => m
  | TypeError m => m
  | _ => classMessage e
  end.

Definition toString (e : Exception) : string :=
  match e with
  | Error m => render "Error" m
  | TypeError m => render "TypeError" m
  | _ => classToString e
  end.

Definition decodeAttributes (attributes : JsVal) : Exc DecodedAttributes :=
  try_catch
    (decodedAttributes ← decodeTopLevel attributes;
     mret {| dec_dataPreview := data_preview_url decodedAttributes;
             dec_dataStream := data_stream_url decodedAttributes;
             dec_dataMarshal := data_marshal_url decodedAttributes;
             dec_creator := bech32 (attr_creator decodedAttributes);
             dec_creationTime :=
               mkDate (creation_time decodedAttributes * 1000);
             dec_description := attr_description decodedAttributes;
             dec_title := attr_title decodedAttributes |})
    (fun error => Throw (ErrDecodeAttributes (message error))).

Definition getMessageToSign (st : Static) (this : t) : IO JsVal :=
  _ ← lift (ensureNetworkConfigSet st);
  if negb (truthy (dataMarshal this))
  then throw (ErrAttributeNotSet "dataMarshal")
  else
    chain ← lift (configuredChainID st);
    res ← fetch net
            (dataMarshal this +:+ "/preaccess?chainId=" +:+ marshalChainId chain)
            None;
    _ ← lift (checkStatus res);
    data ← lift (json res);
    mret (prop data "nonce").

(** The first [try] of [viewData]: hex texts of signature and signer. *)
Definition extractSignature (signableMessage : option SignableMessage)
  : SignResult :=
  let signResult :=
    {| sr_signature := ""; sr_addrInHex := ""; sr_success := false;
       sr_exception := "" |} in
  match signableMessage with
  | Some {| signature := Some sig; address := Some addr |} =>
      let attempt : Exc string :=
        match sig with
        | SigBuffer hexText => Return hexText
        | SigHexable hex => hex
        | SigOther => Return (sr_signature signResult)
        end in
      match attempt with
      | Return s =>
          {| sr_signature := s; sr_addrInHex := addressHex addr;
             sr_success := true; sr_exception := sr_exception signResult |}
      | Throw e =>
          {| sr_signature := sr_signature signResult;
             sr_addrInHex := sr_addrInHex signResult;
             sr_success := false; sr_exception := toString e |}
      end
  | _ =>
      {| sr_signature := sr_signature signResult;
         sr_addrInHex := sr_addrInHex signResult;
         sr_success := sr_success signResult;
         sr_exception := "Some Error" |}
  end.

(** The tail shared by both flows: fetch, read the body, and turn a
    failing status into an [Error] that carries the body as text. *)
Definition access (url : string) (fetchConfig : FetchConfig)
  : IO ViewDataReturnType :=
  response ← fetch net url (Some fetchConfig);
  let contentType := contentType response in
  let data := blob response in
  _ ← io_try (lift (checkStatus response))
        (fun e =>
           let errorPayload := text data in
           throw (Error (toString e +:+ ". Detailed error trace follows : "
                         +:+ errorPayload)));
  mret {| data := Some data; vd_contentType := default "" contentType;
          error := None |}.

Definition failed (err : Exception) : IO ViewDataReturnType :=
  mret {| data := None; vd_contentType := ""; error := Some (message err) |}.

Definition viewData (st : Static) (this : t) (p : ViewDataArgs)
  : IO ViewDataReturnType :=
  _ ← lift (ensureNetworkConfigSet st);
  if negb (truthy (dataMarshal this))
  then throw (ErrAttributeNotSet "dataMarshal")
  else
    let v := validateSpecificParamsViewData
               {| v_signedMessage := signedMessage p;
                  v_signableMessage := signableMessage p;
                  v_stream := stream p;
                  v_fwdAllHeaders := fwdAllHeaders p;
                  v_fwdHeaderKeys := fwdHeaderKeys p;
                  v_fwdHeaderMapLookup := fwdHeaderMapLookup p;
                  v_nestedIdxToStream := nestedIdxToStream p;
                  v_mvxNativeAuthOrigins := None;
                  v_mvxNativeAuthMaxExpirySeconds := None;
                  _fwdHeaderMapLookupMustContainBearerAuthHeader := None;
                  _mandatoryParamsList := ["signedMessage"; "signableMessage"] |} in
    if negb (allPassed v)
    then throw (Error ("params have validation issues = "
                       +:+ validationMessages v))
    else
      let signResult := extractSignature (signableMessage p) in
      io_try
        (chain ← lift (configuredChainID st);
         let url :=
           dataMarshal this +:+ "/access?nonce="
           +:+ template id (signedMessage p)
           +:+ "&NFTId=" +:+ collection this +:+ "-"
           +:+ numberToPaddedHex (nonce this)
           +:+ "&signature=" +:+ sr_signature signResult
           +:+ "&chainId=" +:+ marshalChainId chain
           +:+ "&accessRequesterAddr=" +:+ sr_addrInHex signResult in
         let url := appendStream (stream p) url in
         let url := appendFwdAllHeaders (fwdAllHeaders p) url in
         let url := appendNestedIdx (nestedIdxToStream p) url in
         let '(url, headers) :=
           match fwdHeaderKeys p with
           | Some keys =>
               (url +:+ "&fwdHeaderKeys=" +:+ keys,
                match fwdHeaderMapLookup p with
                | Some lookup =>
                    if (0 <? size lookup)%nat
                    then Some (forwardAll lookup ∅)
                    else None
                | None => None
                end)
           | None => (url, None)
           end in
         access url {| method := "GET"; headers := headers |})
        failed.

Definition viewDataViaMVXNativeAuth (st : Static) (this : t)
    (p : NativeAuthArgs) : IO ViewDataReturnType :=
  io_try
    (let v := validateSpecificParamsViewData
                {| v_signedMessage := None;
                   v_signableMessage := None;
                   v_stream := na_stream p;
                   v_fwdAllHeaders := na_fwdAllHeaders p;
                   v_fwdHeaderKeys := na_fwdHeaderKeys p;
                   v_fwdHeaderMapLookup := na_fwdHeaderMapLookup p;
                   v_nestedIdxToStream := na_nestedIdxToStream p;
                   v_mvxNativeAuthOrigins := mvxNativeAuthOrigins p;
                   v_mvxNativeAuthMaxExpirySeconds :=
                     mvxNativeAuthMaxExpirySeconds p;
                   _fwdHeaderMapLookupMustContainBearerAuthHeader := Some true;
                   _mandatoryParamsList :=
                     ["mvxNativeAuthOrigins"; "mvxNativeAuthMaxExpirySeconds";
                      "fwdHeaderMapLookup"] |} in
     if negb (allPassed v)
     then throw (Error ("params have validation issues = "
                        +:+ validationMessages v))
     else
       origins ←
         lift (match mvxNativeAuthOrigins p with
               | Some l => Return l
               | None =>
                   Throw (TypeError
                     "Cannot read properties of undefined (reading 'join')")
               end);
       let mvxNativeAuthOriginsToBase64 := Text.join origins in
       let mvxNativeAuthOriginsToBase64 :=
         Text.removeSpaces (Text.trim mvxNativeAuthOriginsToBase64) in
       mvxNativeAuthOriginsToBase64 ← lift (btoa mvxNativeAuthOriginsToBase64);
       chain ← lift (configuredChainID st);
       let url :=
         dataMarshal this +:+ "/access?NFTId=" +:+ collection this +:+ "-"
         +:+ numberToPaddedHex (nonce this)
         +:+ "&chainId=" +:+ marshalChainId chain
         +:+ "&mvxNativeAuthEnable=1&mvxNativeAuthMaxExpirySeconds="
         +:+ template Text.ofNumber (mvxNativeAuthMaxExpirySeconds p)
         +:+ "&mvxNativeAuthOrigins=" +:+ mvxNativeAuthOriginsToBase64 in
       let url := appendStream (na_stream p) url in
       let url := appendFwdAllHeaders (na_fwdAllHeaders p) url in
       let url := appendNestedIdx (na_nestedIdxToStream p) url in
       let '(url, headers) :=
         match na_fwdHeaderMapLookup p with
         | Some lookup =>
             if (0 <? size lookup)%nat
             then
               let hs : gmap string JsVal :=
                 <["authorization" := prop lookup "authorization"]> ∅ in
               match na_fwdHeaderKeys p with
               | Some keys =>
                   (url +:+ "&fwdHeaderKeys=" +:+ keys,
                    Some (forwardOthers lookup hs))
               | None => (url, Some hs)
               end
             else (url, None)
         | None => (url, None)
         end in
       access url {| method := "GET"; headers := headers |})
    failed.

End Flows.

End DataNft.

(** ** The minter clients *)

Module Minter.

(** The members of the base class [Minter] that its subclasses read. *)
Record t : Type := mk {
  contract : SmartContract;
  chainID : string;
  env : string;
  imageServiceUrl : string
}.

(** The [options] bag of [mint]. *)
Record MintOptions : Type := mkMintOptions {
  imageUrl : option string;
  traitsUrl : option string;
  nftStorageToken : option string;
  antiSpamTokenIdentifier : option string
}.

(** [options ?? {}] *)
Definition orEmpty (options : option MintOptions) : MintOptions :=
  default {| imageUrl := None; traitsUrl := None; nftStorageToken := None;
             antiSpamTokenIdentifier := None |} options.

(** The object handed to [validateSpecificParamsMint]. *)
Record MintValidationParams : Type := mkMintValidationParams {
  v_senderAddress : Address;
  v_tokenName : string;
  v_royalties : Z;
  v_supply : Z;
  v_datasetTitle : string;
  v_datasetDescription : string;
  v_antiSpamTax : Z;
  _mandatoryParamsList : list string
}.

Record MintValidationResult : Type := mkMintValidationResult {
  allPassed : bool;
  validationMessages : string
}.

Record Advertised : Type := mkAdvertised {
  dataNftHash : string;
  dataNftStreamUrlEncrypted : string
}.

Record Stored : Type := mkStored {
  imageOnIpfsUrl : string;
  metadataOnIpfsUrl : string
}.

Definition mandatoryMintParams : list string :=
  ["senderAddress"; "tokenName"; "royalties"; "supply"; "datasetTitle";
   "datasetDescription"; "antiSpamTax"].

End Minter.

Module NftMinter.

Record InitOptions : Type := mkInitOptions {
  taxTokenIdentifier : string;
  taxTokenAmount : Z
}.

Definition initializeContract (this : Minter.t) (senderAddress : Address)
    (collectionName tokenTicker : string) (mintLimit : Z)
    (requireMintTax : bool) (options : option InitOptions) : Transaction :=
  let data :=
    match requireMintTax, options with
    | true, Some options =>
        ContractCallPayloadBuilder
          .> setFunction (mkContractFunction "initializeContract")
          .> addArg (StringValue collectionName)
          .> addArg (StringValue tokenTicker)
          .> addArg (BigUIntValue (BnNum mintLimit))
          .> addArg (BooleanValue requireMintTax)
          .> addArg (TokenIdentifierValue (taxTokenIdentifier options))
          .> addArg (BigUIntValue (BnNum (taxTokenAmount options)))
          .> build
    | _, _ =>
        ContractCallPayloadBuilder
          .> setFunction (mkContractFunction "initializeContract")
          .> addArg (StringValue collectionName)
          .> addArg (StringValue tokenTicker)
          .> addArg (BigUIntValue (BnNum mintLimit))
          .> addArg (BooleanValue requireMintTax)
          .> build
    end in
  let initializeContractTx :=
    {| value := Some (BnNum 50000000000000000);
       data := data;
       receiver := getAddress (Minter.contract this);
       gasLimit := 10000000;
       sender := senderAddress;
       SdkCore.chainID := Minter.chainID this |} in
  initializeContractTx.

Record Attributes : Type := mkAttributes {
  dataMarshalUrl : string;
  dataStreamUrl : string;
  dataPreviewUrl : string;
  creator : Address;
  title : string;
  description : string
}.

Definition updateAttributes (this : Minter.t) (senderAddress : Address)
    (tokenIdentiifer : string) (nonce : Z) (attributes : Attributes)
    (quantity_opt : option Z) : Transaction :=
  let quantity := default 1 quantity_opt in
  let updateAttributesTx :=
    {| value := Some (BnNum 0);
       data :=
         ContractCallPayloadBuilder
           .> setFunction (mkContractFunction "ESDTNFTTransfer")
           .> addArg (TokenIdentifierValue tokenIdentiifer)
           .> addArg (U64Value nonce)
           .> addArg (U64Value quantity)
           .> addArg (AddressValue (getAddress (Minter.contract this)))
           .> addArg (StringValue "updateAttributes")
           .> addArg (StringValue (dataMarshalUrl attributes))
           .> addArg (StringValue (dataStreamUrl attributes))
           .> addArg (StringValue (dataPreviewUrl attributes))
           .> addArg (AddressValue (creator attributes))
           .> addArg (StringValue (title attributes))
           .> addArg (StringValue (description attributes))
           .> build;
       receiver := senderAddress;
       gasLimit := 12000000;
       sender := senderAddress;
       SdkCore.chainID := Minter.chainID this |} in
  updateAttributesTx.

Definition setLocalRoles (this : Minter.t) (senderAddress : Address)
  : Transaction :=
  let setLocalRolesTx :=
    {| value := Some (BnNum 0);
       data :=
         ContractCallPayloadBuilder
           .> setFunction (mkContractFunction "setLocalRoles")
           .> build;
       receiver := getAddress (Minter.contract this);
       gasLimit := 10000000;
       sender := senderAddress;
       SdkCore.chainID := Minter.chainID this |} in
  setLocalRolesTx.

Definition setTransferRole (this : Minter.t) (senderAddress : Address) (address : Address)
  : Transaction :=
  let setTransferRoleTx :=
    {| value := Some (BnNum 0);
       data :=
         ContractCallPayloadBuilder
           .> setFunction (mkContractFunction "setTransferRole")
           .> addArg (AddressValue address)
           .> build;
       receiver := getAddress (Minter.contract this);
       gasLimit := 10000000;
       sender := senderAddress;
       SdkCore.chainID := Minter.chainID this |} in
  setTransferRoleTx.

Definition unsetTransferRole (this : Minter.t) (senderAddress : Address) (address : Address)
  : Transaction :=
  let unsetTransferRoleTx :=
    {| value := Some (BnNum 0);
       data :=
         ContractCallPayloadBuilder
           .> setFunction (mkContractFunction "unsetTransferRole")
           .> addArg (AddressValue address)
           .> build;
       receiver := getAddress (Minter.contract this);
       gasLimit := 10000000;
       sender := senderAddress;
       SdkCore.chainID := Minter.chainID this |} in
  unsetTransferRoleTx.

Definition pauseContract (this : Minter.t) (senderAddress : Address)
  : Transaction :=
  let pauseContractTx :=
    {| value := Some (BnNum 0);
       data :=
         ContractCallPayloadBuilder
           .> setFunction (mkContractFunction "setIsPaused")
           .> addArg (BooleanValue true)
           .> build;
       receiver := getAddress (Minter.contract this);
       gasLimit := 10000000;
       sender := senderAddress;
       SdkCore.chainID := Minter.chainID this |} in
  pauseContractTx.

Definition unpauseContract (this : Minter.t) (senderAddress : Address)
  : Transaction :=
  let unpauseContractTx :=
    {| value := Some (BnNum 0);
       data :=
         ContractCallPayloadBuilder
           .> setFunction (mkContractFunction "setIsPaused")
           .> addArg (BooleanValue false)
           .> build;
       receiver := getAddress (Minter.contract this);
       gasLimit := 10000000;
       sender := senderAddress;
       SdkCore.chainID := Minter.chainID this |} in
  unpauseContractTx.

Definition setMintTaxIsRequired (this : Minter.t) (senderAddress : Address) (is_required : bool)
  : Transaction :=
  let setMintTaxIsRequiredTx :=
    {| value := Some (BnNum 0);
       data :=
         ContractCallPayloadBuilder
           .> setFunction (mkContractFunction "setTaxIsRequired")
           .> addArg (BooleanValue is_required)
           .> build;
       receiver := getAddress (Minter.contract this);
       gasLimit := 10000000;
       sender := senderAddress;
       SdkCore.chainID := Minter.chainID this |} in
  setMintTaxIsRequiredTx.

Definition setMintTax (this : Minter.t) (senderAddress : Address) (tokenIdentifier : string) (tax : Z)
  : Transaction :=
  let setMintTaxTx :=
    {| value := Some (BnNum 0);
       data :=
         ContractCallPayloadBuilder
           .> setFunction (mkContractFunction "setAntiSpamTax")
           .> addArg (TokenIdentifierValue tokenIdentifier)
           .> addArg (BigUIntValue (BnNum tax))
           .> build;
       receiver := getAddress (Minter.contract this);
       gasLimit := 10000000;
       sender := senderAddress;
       SdkCore.chainID := Minter.chainID this |} in
  setMintTaxTx.

Definition setWhitelistIsEnabled (this : Minter.t) (senderAddress : Address) (is_enabled : bool)
  : Transaction :=
  let setWhitelistIsEnabledTx :=
    {| value := Some (BnNum 0);
       data :=
         ContractCallPayloadBuilder
           .> setFunction (mkContractFunction "setWhiteListEnabled")
           .> addArg (BooleanValue is_enabled)
           .> build;
       receiver := getAddress (Minter.contract this);
       gasLimit := 10000000;
       sender := senderAddress;
       SdkCore.chainID := Minter.chainID this |} in
  setWhitelistIsEnabledTx.

Definition setMintTimeLimit (this : Minter.t) (senderAddress : Address) (timeLimit : Z)
  : Transaction :=
  let setMintTimeLimitTx :=
    {| value := Some (BnNum 0);
       data :=
         ContractCallPayloadBuilder
           .> setFunction (mkContractFunction "setMintTimeLimit")
           .> addArg (BigUIntValue (BnNum timeLimit))
           .> build;
       receiver := getAddress (Minter.contract this);
       gasLimit := 10000000;
       sender := senderAddress;
       SdkCore.chainID := Minter.chainID this |} in
  setMintTimeLimitTx.

Definition setAdministrator (this : Minter.t) (senderAddress : Address) (newAdministrator : Address)
  : Transaction :=
  let setAdministratorTx :=
    {| value := Some (BnNum 0);
       data :=
         ContractCallPayloadBuilder
           .> setFunction (mkContractFunction "setAdministrator")
           .> addArg (AddressValue newAdministrator)
           .> build;
       receiver := getAddress (Minter.contract this);
       gasLimit := 10000000;
       sender := senderAddress;
       SdkCore.chainID := Minter.chainID this |} in
  setAdministratorTx.

Definition setClaimsAddress (this : Minter.t) (senderAddress : Address) (claimsAddress : Address)
  : Transaction :=
  let setClaimsAddressTx :=
    {| value := Some (BnNum 0);
       data :=
         ContractCallPayloadBuilder
           .> setFunction (mkContractFunction "setClaimsAddress")
           .> addArg (AddressValue claimsAddress)
           .> build;
       receiver := getAddress (Minter.contract this);
       gasLimit := 10000000;
       sender := senderAddress;
       SdkCore.chainID := Minter.chainID this |} in
  setClaimsAddressTx.

Definition pauseCollection (this : Minter.t) (senderAddress : Address)
  : Transaction :=
  let pauseCollectionTx :=
    {| value := Some (BnNum 0);
       data :=
         ContractCallPayloadBuilder
           .> setFunction (mkContractFunction "pause")
           .> build;
       receiver := getAddress (Minter.contract this);
       gasLimit := 10000000;
       sender := senderAddress;
       SdkCore.chainID := Minter.chainID this |} in
  pauseCollectionTx.

Definition unpauseCollection (this : Minter.t) (senderAddress : Address)
  : Transaction :=
  let unpauseCollectionTx :=
    {| value := Some (BnNum 0);
       data :=
         ContractCallPayloadBuilder
           .> setFunction (mkContractFunction "unpause")
           .> build;
       receiver := getAddress (Minter.contract this);
       gasLimit := 10000000;
       sender := senderAddress;
       SdkCore.chainID := Minter.chainID this |} in
  unpauseCollectionTx.

Definition freeze (this : Minter.t) (senderAddress : Address) (freezeAddress : Address)
  : Transaction :=
  let freezeTx :=
    {| value := Some (BnNum 0);
       data :=
         ContractCallPayloadBuilder
           .> setFunction (mkContractFunction "freeze")
           .> addArg (AddressValue freezeAddress)
           .> build;
       receiver := getAddress (Minter.contract this);
       gasLimit := 10000000;
       sender := senderAddress;
       SdkCore.chainID := Minter.chainID this |} in
  freezeTx.

Definition unfreeze (this : Minter.t) (senderAddress : Address) (unfreezeAddress : Address)
  : Transaction :=
  let unfreezeTx :=
    {| value := Some (BnNum 0);
       data :=
         ContractCallPayloadBuilder
           .> setFunction (mkContractFunction "unfreeze")
           .> addArg (AddressValue unfreezeAddress)
           .> build;
       receiver := getAddress (Minter.contract this);
       gasLimit := 10000000;
       sender := senderAddress;
       SdkCore.chainID := Minter.chainID this |} in
  unfreezeTx.

Definition freezeSingleNFT (this : Minter.t) (senderAddress : Address) (nonce : Z) (freezeAddress : Address)
  : Transaction :=
  let freezeSingleNFTTx :=
    {| value := Some (BnNum 0);
       data :=
         ContractCallPayloadBuilder
           .> setFunction (mkContractFunction "freezeSingleNFT")
           .> addArg (U64Value nonce)
           .> addArg (AddressValue freezeAddress)
           .> build;
       receiver := getAddress (Minter.contract this);
       gasLimit := 10000000;
       sender := senderAddress;
       SdkCore.chainID := Minter.chainID this |} in
  freezeSingleNFTTx.

Definition unFreezeSingleNFT (this : Minter.t) (senderAddress : Address) (nonce : Z) (unfreezeAddress : Address)
  : Transaction :=
  let unFreezeSingleNFTTx :=
    {| value := Some (BnNum 0);
       data :=
         ContractCallPayloadBuilder
           .> setFunction (mkContractFunction "unFreezeSingleNFT")
           .> addArg (U64Value nonce)
           .> addArg (AddressValue unfreezeAddress)
           .> build;
       receiver := getAddress (Minter.contract this);
       gasLimit := 10000000;
       sender := senderAddress;
       SdkCore.chainID := Minter.chainID this |} in
  unFreezeSingleNFTTx.

Definition wipeSingleNFT (this : Minter.t) (senderAddress : Address) (nonce : Z) (wipeAddress : Address)
  : Transaction :=
  let wipeSingleNFTTx :=
    {| value := Some (BnNum 0);
       data :=
         ContractCallPayloadBuilder
           .> setFunction (mkContractFunction "wipeSingleNFT")
           .> addArg (U64Value nonce)
           .> addArg (AddressValue wipeAddress)
           .> build;
       receiver := getAddress (Minter.contract this);
       gasLimit := 10000000;
       sender := senderAddress;
       SdkCore.chainID := Minter.chainID this |} in
  wipeSingleNFTTx.


(** [gasLimit = 0]: an optional amount of gas added to the base. *)
Definition whitelist (this : Minter.t) (senderAddress : Address)
    (addresses : list string) (gasLimit_opt : option Z) : Transaction :=
  let gasLimit := default 0 gasLimit_opt in
  let whitelistTx :=
    {| value := Some (BnNum 0);
       data :=
         ContractCallPayloadBuilder
           .> setFunction (mkContractFunction "setWhiteListSpots")
           .> setArgs
                (map (fun address => AddressValue (mkAddress address)) addresses)
           .> build;
       receiver := getAddress (Minter.contract this);
       SdkCore.gasLimit := 10000000 + gasLimit;
       sender := senderAddress;
       SdkCore.chainID := Minter.chainID this |} in
  whitelistTx.

(** [gasLimit: 0]: a required parameter, of the literal type [0]. *)
Definition delist (this : Minter.t) (senderAddress : Address)
    (addresses : list string) (gasLimit : Z) : Transaction :=
  let delistTx :=
    {| value := Some (BnNum 0);
       data :=
         ContractCallPayloadBuilder
           .> setFunction (mkContractFunction "delist")
           .> setArgs
                (map (fun address => AddressValue (mkAddress address)) addresses)
           .> build;
       receiver := getAddress (Minter.contract this);
       SdkCore.gasLimit := 10000000 + gasLimit;
       sender := senderAddress;
       SdkCore.chainID := Minter.chainID this |} in
  delistTx.

Definition claimRoyalties (this : Minter.t) (senderAddress : Address)
    (tokenIdentifier : string) (nonce_opt : option Z) : Transaction :=
  let nonce := default 0 nonce_opt in
  let claimRoyaltiesTx :=
    {| value := Some (BnNum 0);
       data :=
         ContractCallPayloadBuilder
           .> setFunction (mkContractFunction "claimRoyalties")
           .> addArg (TokenIdentifierValue tokenIdentifier)
           .> addArg (BigUIntValue (BnNum nonce))
           .> build;
       receiver := getAddress (Minter.contract this);
       gasLimit := 10000000;
       sender := senderAddress;
       SdkCore.chainID := Minter.chainID this |} in
  claimRoyaltiesTx.

End NftMinter.

Module SftMinter.

Import Minter.

Definition initializeContract (this : Minter.t) (senderAddress : Address) (collectionName : string) (tokenTicker : string) (antiSpamTaxTokenIdentifier : string) (antiSpamTaxTokenAmount : Z) (mintLimit : Z) (treasury_address : Address)
  : Transaction :=
  let initializeContractTx :=
    {| value := Some (BnNum 0);
       data :=
         ContractCallPayloadBuilder
           .> setFunction (mkContractFunction "initializeContract")
           .> addArg (StringValue collectionName)
           .> addArg (StringValue tokenTicker)
           .> addArg (TokenIdentifierValue antiSpamTaxTokenIdentifier)
           .> addArg (BigUIntValue (BnNum antiSpamTaxTokenAmount))
           .> addArg (U64Value mintLimit)
           .> addArg (AddressValue treasury_address)
           .> build;
       receiver := getAddress (Minter.contract this);
       gasLimit := 10000000;
       sender := senderAddress;
       SdkCore.chainID := Minter.chainID this |} in
  initializeContractTx.

Definition setTreasuryAddress (this : Minter.t) (senderAddress : Address) (treasuryAddress : Address)
  : Transaction :=
  let setTreasuryAddressTx :=
    {| value := Some (BnNum 0);
       data :=
         ContractCallPayloadBuilder
           .> setFunction (mkContractFunction "setTreasuryAddress")
           .> addArg (AddressValue treasuryAddress)
           .> build;
       receiver := getAddress (Minter.contract this);
       gasLimit := 10000000;
       sender := senderAddress;
       SdkCore.chainID := Minter.chainID this |} in
  setTreasuryAddressTx.

Definition setMaxSupply (this : Minter.t) (senderAddress : Address) (maxSupply : Z)
  : Transaction :=
  let setMaxSupplyTx :=
    {| value := Some (BnNum 0);
       data :=
         ContractCallPayloadBuilder
           .> setFunction (mkContractFunction "setMaxSupply")
           .> addArg (BigUIntValue (BnNum maxSupply))
           .> build;
       receiver := getAddress (Minter.contract this);
       gasLimit := 10000000;
       sender := senderAddress;
       SdkCore.chainID := Minter.chainID this |} in
  setMaxSupplyTx.

Section Mint.

(** The token table of [./config], by environment. *)
Variable itheumTokenIdentifier : string -> string.
(** Collaborators of [./common/utils] and [./common/mint-utils]. *)
Variable validateSpecificParamsMint : MintValidationParams -> MintValidationResult.
Variable checkUrlIsUp : string -> list Z -> Exc unit.
Variable checkTraitsUrl : string -> Exc unit.
Variable File : Type.
Variable dataNFTDataStreamAdvertise : string -> string -> string -> Exc Advertised.
Variable createFileFromUrl :
  string -> string -> string -> string -> string -> Exc (File * File).
Variable storeToIpfs : string -> File -> File -> Exc Stored.

(** [mint], up to the URLs of image and metadata and the encrypted stream:
    validation, URL checks, advertising the stream, storing or checking the
    media. *)
Definition mintAssets (this : Minter.t) (senderAddress : Address)
    (tokenName dataMarshalUrl dataStreamUrl dataPreviewUrl : string)
    (royalties supply : Z) (datasetTitle datasetDescription : string)
    (antiSpamTax : Z) (options : option MintOptions)
  : Exc (string * string * string) :=
  let o := orEmpty options in
  let v := validateSpecificParamsMint
             {| v_senderAddress := senderAddress;
                v_tokenName := tokenName;
                v_royalties := royalties;
                v_supply := supply;
                v_datasetTitle := datasetTitle;
                v_datasetDescription := datasetDescription;
                v_antiSpamTax := antiSpamTax;
                _mandatoryParamsList := mandatoryMintParams |} in
  if negb (allPassed v)
  then Throw (Error ("Params have validation issues = " +:+ validationMessages v))
  else
    _ ← checkUrlIsUp dataStreamUrl [200; 403];
    _ ← checkUrlIsUp dataPreviewUrl [200];
    _ ← checkUrlIsUp (dataMarshalUrl +:+ "/health-check") [200];
    adv ← dataNFTDataStreamAdvertise dataStreamUrl dataMarshalUrl (bech32 senderAddress);
    '(imageOnIpfsUrl, metadataOnIpfsUrl) ←
      (if negb (truthy_opt (imageUrl o))
       then
         if negb (truthy_opt (nftStorageToken o))
         then Throw (ErrArgumentNotSet "nftStorageToken"
                   "NFT Storage token is required when not using custom image and traits")
         else
           '(image, traits) ←
             createFileFromUrl
               (imageServiceUrl this +:+ "/v1/generateNFTArt?hash="
                +:+ dataNftHash adv)
               datasetTitle datasetDescription dataPreviewUrl
               (bech32 senderAddress);
           stored ← storeToIpfs (default "" (nftStorageToken o)) traits image;
           mret (Minter.imageOnIpfsUrl stored, Minter.metadataOnIpfsUrl stored)
       else
         if negb (truthy_opt (traitsUrl o))
         then Throw (ErrArgumentNotSet "traitsUrl"
                   "Traits URL is required when using custom image")
         else
           _ ← checkTraitsUrl (default "" (traitsUrl o));
           mret (default "" (imageUrl o), default "" (traitsUrl o)));
    mret (imageOnIpfsUrl, metadataOnIpfsUrl, dataNftStreamUrlEncrypted adv).

Definition mint (this : Minter.t) (senderAddress : Address)
    (tokenName dataMarshalUrl dataStreamUrl dataPreviewUrl : string)
    (royalties supply : Z) (datasetTitle datasetDescription : string)
    (antiSpamTax : Z) (options : option MintOptions) : Exc Transaction :=
  let antiSpamTokenIdentifier :=
    default (itheumTokenIdentifier (Minter.env this))
            (antiSpamTokenIdentifier (orEmpty options)) in
  '(imageOnIpfsUrl, metadataOnIpfsUrl, dataNftStreamUrlEncrypted) ←
    mintAssets this senderAddress tokenName dataMarshalUrl dataStreamUrl
      dataPreviewUrl royalties supply datasetTitle datasetDescription
      antiSpamTax options;
  let data :=
    if (0 <? antiSpamTax)%Z then
      ContractCallPayloadBuilder
        .> setFunction (mkContractFunction "ESDTTransfer")
        .> addArg (TokenIdentifierValue antiSpamTokenIdentifier)
        .> addArg (BigUIntValue (BnNum antiSpamTax))
        .> addArg (StringValue "mint")
        .> addArg (StringValue tokenName)
        .> addArg (StringValue imageOnIpfsUrl)
        .> addArg (StringValue metadataOnIpfsUrl)
        .> addArg (StringValue dataMarshalUrl)
        .> addArg (StringValue dataNftStreamUrlEncrypted)
        .> addArg (StringValue dataPreviewUrl)
        .> addArg (U64Value royalties)
        .> addArg (U64Value supply)
        .> addArg (StringValue datasetTitle)
        .> addArg (StringValue datasetDescription)
        .> build
    else
      ContractCallPayloadBuilder
        .> setFunction (mkContractFunction "mint")
        .> addArg (StringValue tokenName)
        .> addArg (StringValue imageOnIpfsUrl)
        .> addArg (StringValue metadataOnIpfsUrl)
        .> addArg (StringValue dataMarshalUrl)
        .> addArg (StringValue dataNftStreamUrlEncrypted)
        .> addArg (StringValue dataPreviewUrl)
        .> addArg (U64Value royalties)
        .> addArg (U64Value supply)
        .> addArg (StringValue datasetTitle)
        .> addArg (StringValue datasetDescription)
        .> build in
  let mintTx :=
    {| value := None;
       data := data;
       sender := senderAddress;
       receiver := getAddress (Minter.contract this);
       gasLimit := 60000000;
       SdkCore.chainID := Minter.chainID this |} in
  mret mintTx.

End Mint.

End SftMinter.

Module DataNftMinter.

Import Minter.

Section Queries.

Variable itheumTokenIdentifier : string -> string.
Variable RawOfferOut : Type.
Variable QueryResponse : Type.
Variable queryContract : Query -> Exc QueryResponse.
Variable parseQueryResponse :
  forall T, QueryResponse -> Endpoint RawOfferOut T -> Exc (Parsed T).

Let query {T} := @roundTrip RawOfferOut T QueryResponse queryContract
                   parseQueryResponse.

Definition viewMinterRequirements (this : Minter.t) (address : Address)
    (taxToken_opt : option string) : Exc MinterRequirements :=
  let taxToken := default (itheumTokenIdentifier (Minter.env this)) taxToken_opt in
  '(mkParsed firstValue returnCode) ←
    query (Minter.contract this) ep_getUserDataOut
      [AddressValue address; TokenIdentifierValue taxToken];
  if isSuccess returnCode then
    returnValue ← deref "anti_spam_tax_value" firstValue;
    let requirements := toMinterRequirements returnValue in
    mret requirements
  else
    Throw (ErrContractQuery "viewMinterRequirements" (rc_toString returnCode)).

Definition viewContractPauseState (this : Minter.t) : Exc (option bool) :=
  '(mkParsed firstValue returnCode) ←
    query (Minter.contract this) ep_getIsPaused [];
  if isSuccess returnCode then
    let returnValue := firstValue in
    mret returnValue
  else
    Throw (ErrContractQuery "viewContractPauseState" (rc_toString returnCode)).

End Queries.

Definition burn (dataNftTokenIdentifier : string -> string) (this : Minter.t)
    (senderAddress : Address) (dataNftNonce quantityToBurn : Z)
    (dataNftIdentifier_opt : option string) : Transaction :=
  let dataNftIdentifier :=
    default (dataNftTokenIdentifier (Minter.env this)) dataNftIdentifier_opt in
  let burnTx :=
    {| value := Some (BnNum 0);
       data :=
         ContractCallPayloadBuilder
           .> setFunction (mkContractFunction "ESDTNFTTransfer")
           .> addArg (TokenIdentifierValue dataNftIdentifier)
           .> addArg (U64Value dataNftNonce)
           .> addArg (BigUIntValue (BnNum quantityToBurn))
           .> addArg (AddressValue (getAddress (Minter.contract this)))
           .> addArg (StringValue "burn")
           .> build;
       receiver := senderAddress;
       sender := senderAddress;
       gasLimit := 12000000;
       SdkCore.chainID := Minter.chainID this |} in
  burnTx.

Section Mint.

Variable itheumTokenIdentifier : string -> string.
Variable validateSpecificParamsMint : MintValidationParams -> MintValidationResult.
Variable checkUrlIsUp : string -> list Z -> Exc unit.
Variable checkTraitsUrl : string -> Exc unit.
(** The private methods that talk to the marshal, the image service and
    the storage service. *)
Variable File : Type.
Variable dataNFTDataStreamAdvertise : string -> string -> Exc Advertised.
Variable createFileFromUrl :
  string -> string -> string -> string -> string -> Exc (File * File).
Variable storeToIpfs : string -> File -> File -> Exc Stored.

(** [mint], up to the URLs of image and metadata and the encrypted stream:
    validation, URL checks, advertising the stream, storing or checking the
    media. *)
Definition mintAssets (this : Minter.t) (senderAddress : Address)
    (tokenName dataMarshalUrl dataStreamUrl dataPreviewUrl : string)
    (royalties supply : Z) (datasetTitle datasetDescription : string)
    (antiSpamTax : Z) (options : option MintOptions)
  : Exc (string * string * string) :=
  let o := orEmpty options in
  let v := validateSpecificParamsMint
             {| v_senderAddress := senderAddress;
                v_tokenName := tokenName;
                v_royalties := royalties;
                v_supply := supply;
                v_datasetTitle := datasetTitle;
                v_datasetDescription := datasetDescription;
                v_antiSpamTax := antiSpamTax;
                _mandatoryParamsList := mandatoryMintParams |} in
  if negb (allPassed v)
  then Throw (ErrParamValidation (validationMessages v))
  else
    _ ← checkUrlIsUp dataStreamUrl [200; 403];
    _ ← checkUrlIsUp dataPreviewUrl [200];
    _ ← checkUrlIsUp (dataMarshalUrl +:+ "/health-check") [200];
    adv ← dataNFTDataStreamAdvertise dataStreamUrl dataMarshalUrl;
    '(imageOnIpfsUrl, metadataOnIpfsUrl) ←
      (if negb (truthy_opt (imageUrl o))
       then
         if negb (truthy_opt (nftStorageToken o))
         then Throw (ErrBadType "nftStorageToken" "string" (nftStorageToken o)
                   "NFT Storage token is required when not using custom image and traits")
         else
           '(image, traits) ←
             createFileFromUrl
               (imageServiceUrl this +:+ "/v1/generateNFTArt?hash="
                +:+ dataNftHash adv)
               datasetTitle datasetDescription dataPreviewUrl
               (bech32 senderAddress);
           stored ← storeToIpfs (default "" (nftStorageToken o)) traits image;
           mret (Minter.imageOnIpfsUrl stored, Minter.metadataOnIpfsUrl stored)
       else
         if negb (truthy_opt (traitsUrl o))
         then Throw (ErrBadType "traitsUrl" "string" (traitsUrl o)
                   "Traits URL is required when using custom image")
         else
           _ ← checkTraitsUrl (default "" (traitsUrl o));
           mret (default "" (imageUrl o), default "" (traitsUrl o)));
    mret (imageOnIpfsUrl, metadataOnIpfsUrl, dataNftStreamUrlEncrypted adv).

Definition mint (this : Minter.t) (senderAddress : Address)
    (tokenName dataMarshalUrl dataStreamUrl dataPreviewUrl : string)
    (royalties supply : Z) (datasetTitle datasetDescription : string)
    (antiSpamTax : Z) (options : option MintOptions) : Exc Transaction :=
  let antiSpamTokenIdentifier :=
    default (itheumTokenIdentifier (Minter.env this))
            (antiSpamTokenIdentifier (orEmpty options)) in
  '(imageOnIpfsUrl, metadataOnIpfsUrl, dataNftStreamUrlEncrypted) ←
    mintAssets this senderAddress tokenName dataMarshalUrl dataStreamUrl
      dataPreviewUrl royalties supply datasetTitle datasetDescription
      antiSpamTax options;
  let data :=
    if (0 <? antiSpamTax)%Z then
      ContractCallPayloadBuilder
        .> setFunction (mkContractFunction "ESDTTransfer")
        .> addArg (TokenIdentifierValue antiSpamTokenIdentifier)
        .> addArg (BigUIntValue (BnNum antiSpamTax))
        .> addArg (StringValue "mint")
        .> addArg (StringValue tokenName)
        .> addArg (StringValue imageOnIpfsUrl)
        .> addArg (StringValue metadataOnIpfsUrl)
        .> addArg (StringValue dataMarshalUrl)
        .> addArg (StringValue dataNftStreamUrlEncrypted)
        .> addArg (StringValue dataPreviewUrl)
        .> addArg (U64Value royalties)
        .> addArg (U64Value supply)
        .> addArg (StringValue datasetTitle)
        .> addArg (StringValue datasetDescription)
        .> build
    else
      ContractCallPayloadBuilder
        .> setFunction (mkContractFunction "mint")
        .> addArg (StringValue tokenName)
        .> addArg (StringValue imageOnIpfsUrl)
        .> addArg (StringValue metadataOnIpfsUrl)
        .> addArg (StringValue dataMarshalUrl)
        .> addArg (StringValue dataNftStreamUrlEncrypted)
        .> addArg (StringValue dataPreviewUrl)
        .> addArg (U64Value royalties)
        .> addArg (U64Value supply)
        .> addArg (StringValue datasetTitle)
        .> addArg (StringValue datasetDescription)
        .> build in
  let mintTx :=
    {| value := None;
       data := data;
       sender := senderAddress;
       receiver := getAddress (Minter.contract this);
       gasLimit := 60000000;
       SdkCore.chainID := Minter.chainID this |} in
  mret mintTx.

End Mint.

End DataNftMinter.

(** ** Object literals: own properties and what every object inherits *)

Module JsObject.

(** The property names of [Object.prototype]. *)
Definition objectPrototype : list string :=
  ["constructor"; "__defineGetter__"; "__defineSetter__"; "hasOwnProperty";
   "__lookupGetter__"; "__lookupSetter__"; "isPrototypeOf";
   "propertyIsEnumerable"; "toString"; "valueOf"; "__proto__";
   "toLocaleString"].

Definition inherited (key : string) : bool :=
  existsb (String.eqb key) objectPrototype.

(** [key in object] for an object literal, known by its own properties:
    true of an own property and of what the object inherits. *)
Definition has {A} (object : gmap string A) (key : string) : bool :=
  match object !! key with
  | Some _ => true
  | None => inherited key
  end.

(** What [object[key]] is: the own property, a member of
    [Object.prototype] (a function, or the prototype itself), or
    [undefined]. *)
Inductive Property (A : Type) : Type :=
| Own (a : A)
| Inherited (name : string)
| Undefined.
Arguments Own {A} a.
Arguments Inherited {A} name.
Arguments Undefined {A}.

Definition get {A} (object : gmap string A) (key : string) : Property A :=
  match object !! key with
  | Some a => Own a
  | None => if inherited key then Inherited key else Undefined
  end.

End JsObject.

(** ** The DataNft class: configuration and the factory methods *)

Module DataNftFactory.

Import DataNft.

(** The outcome of a factory method's own work: the objects built, or the
    [ErrDataNftCreate] it throws, by its message.  The errors of its
    collaborators are those of [Exc]. *)
Inductive Creation (A : Type) : Type :=
| Built (a : A)
| ErrDataNftCreate (message : string).
Arguments Built {A} a.
Arguments ErrDataNftCreate {A} message.

(** [a || b] on an optional text. *)
Definition orElse (a : option string) (b : string) : string :=
  match a with
  | Some s => if truthy s then s else b
  | None => b
  end.

(** [{ nonce, tokenIdentifier? }] *)
Record TokenRef : Type := mkTokenRef {
  ref_nonce : Z;
  ref_tokenIdentifier : option string
}.

(** The three static fields as [setNetworkConfig] writes them. *)
Record Written : Type := mkWritten {
  w_env : string;
  w_networkConfiguration : JsObject.Property Config;
  w_apiConfiguration : JsObject.Property string
}.

Section Configuration.

(** The enum and the tables of [./config], object literals keyed by
    environment. *)
Variable EnvironmentsEnum : gmap string string.
Variable networkConfiguration : gmap string Config.
Variable apiConfiguration : gmap string string.

Definition setNetworkConfig (env : string) : Exc Written :=
  if negb (JsObject.has EnvironmentsEnum env)
  then Throw (ErrNetworkConfig
                (Some ("Invalid environment: " +:+ env
                       +:+ ", Expected: 'devnet' | 'mainnet' | 'testnet'")))
  else
    Return {| w_env := env;
              w_networkConfiguration := JsObject.get networkConfiguration env;
              w_apiConfiguration := JsObject.get apiConfiguration env |}.

End Configuration.

Section Factory.

(** The token table of [./config], by environment. *)
Variable dataNftTokenIdentifier : string -> string.
(** Collaborators of [./common/utils], [./errors] and the platform. *)
Variable classMessage : Exception -> string.
Variable checkStatus : Response -> Exc unit.
Variable createNftIdentifier : string -> Z -> string.
Variable NftType : Type.
Variable parseDataNft : NftType -> Exc DataNft.t.
Variable jsonNft : Response -> Exc NftType.
Variable jsonNfts : Response -> Exc (list NftType).
Variable net : Request -> Exc Response.

(** [NftType | NftType[]] *)
Inductive Payload : Type :=
| One (nft : NftType)
| Many (nfts : list NftType).

Variable jsonPayload : Response -> Exc Payload.

(** [dataNftTokenIdentifier[this.env as EnvironmentsEnum]]: an unset
    environment reads the key of its name. *)
Definition defaultTokenIdentifier (st : Static) : string :=
  dataNftTokenIdentifier (template id (DataNft.env st)).

(** [xs.map(parse)] and [xs.forEach(parse)]: the first throw wins. *)
Fixpoint parseEach (nfts : list NftType) : Exc (list DataNft.t) :=
  match nfts with
  | [] => Return []
  | nft :: rest =>
      dataNft ← parseDataNft nft;
      dataNfts ← parseEach rest;
      mret (dataNft :: dataNfts)
  end.

Definition createFromApi (st : Static) (token : TokenRef)
  : IO (Creation DataNft.t) :=
  _ ← lift (ensureNetworkConfigSet st);
  let identifier :=
    createNftIdentifier
      (orElse (ref_tokenIdentifier token) (defaultTokenIdentifier st))
      (ref_nonce token) in
  response ← fetch net
               (template id (DataNft.apiConfiguration st) +:+ "/nfts/"
                +:+ identifier)
               None;
  _ ← lift (checkStatus response);
  data ← lift (jsonNft response);
  match parseDataNft data with
  | Return dataNft => mret (Built dataNft)
  | Throw _ => mret (ErrDataNftCreate "Response could not be parsed")
  end.

Definition createManyFromApi (st : Static) (tokens : list TokenRef)
  : IO (Creation (list DataNft.t)) :=
  _ ← lift (ensureNetworkConfigSet st);
  let identifiers :=
    map (fun token =>
           createNftIdentifier
             (orElse (ref_tokenIdentifier token) (defaultTokenIdentifier st))
             (ref_nonce token))
        tokens in
  response ← fetch net
               (template id (DataNft.apiConfiguration st)
                +:+ "/nfts?identifiers=" +:+ Text.join identifiers
                +:+ "&withSupply=true")
               None;
  _ ← lift (checkStatus response);
  data ← lift (jsonNfts response);
  match parseEach data with
  | Return dataNfts => mret (Built dataNfts)
  | Throw _ => mret (ErrDataNftCreate "Response could not be parsed")
  end.

Definition createFromApiResponseOrBulk (payload : Payload)
  : Creation (list DataNft.t) :=
  let parsed :=
    match payload with
    | Many nfts => parseEach nfts
    | One nft => parseEach [nft]
    end in
  match parsed with
  | Return dataNfts => Built dataNfts
  | Throw error =>
      ErrDataNftCreate ("Payload could not be parsed: "
                        +:+ message classMessage error)
  end.

Definition ownedByAddress (st : Static) (address : string)
    (identifier_opt : option string) : IO (Creation (list DataNft.t)) :=
  let identifier := default (defaultTokenIdentifier st) identifier_opt in
  _ ← lift (ensureNetworkConfigSet st);
  res ← fetch net
          (template id (DataNft.apiConfiguration st) +:+ "/accounts/"
           +:+ address +:+ "/nfts?size=10000&collections=" +:+ identifier
           +:+ "&withSupply=true")
          None;
  _ ← lift (checkStatus res);
  data ← lift (jsonPayload res);
  mret (createFromApiResponseOrBulk data).

End Factory.

End DataNftFactory.

(** ** The first minter class: its private methods *)

Module MinterPrivate.

Import Minter.

(** [{ method, headers, body }] of the call to the marshal's [/generate];
    the headers in the order they are appended, the body as the object
    that is serialised. *)
Record GenerateBody : Type := mkGenerateBody { dataNFTStreamUrl : string }.

Record PostRequest : Type := mkPostRequest {
  post_url : string;
  post_method : string;
  post_headers : list (string * string);
  post_body : GenerateBody
}.

(** The JSON answer of [/generate], by the two fields read: each a text,
    or absent; [None] for an answer that is no object. *)
Record Generated : Type := mkGenerated {
  encryptedMessage : option string;
  messageHash : option string
}.

(** What [createFileFromUrl] reads of the image service's response. *)
Record ArtResponse : Type := mkArtResponse {
  nftTraits : option string;
  art_blob : Blob
}.

Record Trait : Type := mkTrait {
  trait_type : string;
  trait_value : string
}.

Record Metadata : Type := mkMetadata {
  md_description : string;
  md_attributes : list Trait
}.

(** A [File]: its one part, its name and its type. *)
Inductive FileContent : Type :=
| OfBlob (data : Blob)
| OfJson (traits : Metadata).

Record File : Type := mkFile {
  file_content : FileContent;
  file_name : string;
  file_type : string
}.

(** [s.split(sep)] for a separator of one character. *)
Fixpoint split (sep : ascii) (s : string) : list string :=
  match s with
  | EmptyString => [EmptyString]
  | String c s' =>
      if Ascii.eqb c sep then EmptyString :: split sep s'
      else match split sep s' with
           | piece :: pieces => String c piece :: pieces
           | [] => [String c EmptyString]
           end
  end.

Section Private.

(** Collaborators of [./common/utils], [./errors] and the platform. *)
Variable classMessage : Exception -> string.
Variable checkStatus : Response -> Exc unit.
Variable trim : string -> string.
Variable post : PostRequest -> Exc Response.
Variable jsonGenerated : Response -> Exc (option Generated).
Variable fetchArt : string -> Exc ArtResponse.
(** [new NFTStorage({ token }).storeDirectory(dir)], by the content
    address it returns. *)
Variable storeDirectory : string -> list File -> Exc string.

Definition dataNFTDataStreamAdvertise (dataNFTStreamUrl dataMarshalUrl : string)
  : Exc Advertised :=
  let myHeaders :=
    [("cache-control", "no-cache"); ("Content-Type", "application/json")] in
  let requestOptions :=
    {| post_url := dataMarshalUrl +:+ "/generate";
       post_method := "POST";
       post_headers := myHeaders;
       post_body := {| dataNFTStreamUrl := dataNFTStreamUrl |} |} in
  res ← post requestOptions;
  data ← jsonGenerated res;
  _ ← checkStatus res;
  match data with
  | Some {| encryptedMessage := Some encrypted; messageHash := Some hash |} =>
      if truthy encrypted && truthy hash
      then Return {| dataNftHash := hash;
                     dataNftStreamUrlEncrypted := encrypted |}
      else Throw (ErrFailedOperation "dataNFTDataStreamAdvertise"
                    "Invalid response from Data Marshal")
  | _ =>
      Throw (ErrFailedOperation "dataNFTDataStreamAdvertise"
               "Invalid response from Data Marshal")
  end.

Definition storeToIpfs (storageToken : string) (traits image : File)
  : Exc Stored :=
  let dir := [image; traits] in
  res ← try_catch (storeDirectory storageToken dir)
          (fun error =>
             Throw (ErrFailedOperation "storeToIpfs"
                      (DataNft.message classMessage error)));
  mret {| imageOnIpfsUrl := "https://ipfs.io/ipfs/" +:+ res +:+ "/image.png";
          metadataOnIpfsUrl :=
            "https://ipfs.io/ipfs/" +:+ res +:+ "/metadata.json" |}.

(** The body of the loop of [createIpfsMetadata]:
    [[key, value] = attribute.split(':')], both trimmed. *)
Definition toTrait (attribute : string) : Exc Trait :=
  match split ":" attribute with
  | key :: value :: _ =>
      Return {| trait_type := trim key; trait_value := trim value |}
  | _ =>
      Throw (TypeError "Cannot read properties of undefined (reading 'trim')")
  end.

Fixpoint toTraits (attributes : list string) : Exc (list Trait) :=
  match attributes with
  | [] => Return []
  | attribute :: rest =>
      trait ← toTrait attribute;
      traits ← toTraits rest;
      mret (trait :: traits)
  end.

Definition createIpfsMetadata (traits datasetTitle datasetDescription
                               dataNFTStreamPreviewUrl address : string)
  : Exc Metadata :=
  let attributes :=
    List.filter (fun element => negb (String.eqb (trim element) ""))
                (split "," traits) in
  metadataAttributes ← toTraits attributes;
  let metadataAttributes :=
    (metadataAttributes
     ++ [{| trait_type := "Data Preview URL";
            trait_value := dataNFTStreamPreviewUrl |}]
     ++ [{| trait_type := "Creator"; trait_value := address |}])%list in
  mret {| md_description := datasetTitle +:+ " : " +:+ datasetDescription;
          md_attributes := metadataAttributes |}.

Definition createFileFromUrl (url datasetTitle datasetDescription
                              dataNFTStreamPreviewUrl address : string)
  : Exc (File * File) :=
  if truthy url then
    res ← fetchArt url;
    let data := art_blob res in
    let _imageFile :=
      {| file_content := OfBlob data; file_name := "image.png";
         file_type := "image/png" |} in
    traits ← createIpfsMetadata
               (DataNftFactory.orElse (nftTraits res) "")
               datasetTitle datasetDescription dataNFTStreamPreviewUrl address;
    let _traitsFile :=
      {| file_content := OfJson traits; file_name := "metadata.json";
         file_type := "application/json" |} in
    mret (_imageFile, _traitsFile)
  else
    Throw (TypeError "Cannot read properties of undefined (reading 'get')").

(** [mint] of the class, with these private methods in place. *)
Definition mint (itheumTokenIdentifier : string -> string)
    (validateSpecificParamsMint : MintValidationParams -> MintValidationResult)
    (checkUrlIsUp : string -> list Z -> Exc unit)
    (checkTraitsUrl : string -> Exc unit) :=
  DataNftMinter.mint itheumTokenIdentifier validateSpecificParamsMint
    checkUrlIsUp checkTraitsUrl File dataNFTDataStreamAdvertise
    createFileFromUrl storeToIpfs.

End Private.

End MinterPrivate.

(** ** The constructors of the marketplace and minter clients *)

Module Construction.

(** [new ApiNetworkProvider(url, { timeout })]; the URL is [undefined]
    when the network configuration has none. *)
Record ApiNetworkProvider : Type := mkApiNetworkProvider {
  provider_url : option string;
  provider_timeout : Z
}.

(** The fields the constructors write. *)
Record MarketFields : Type := mkMarketFields {
  market_env : string;
  market_chainID : option string;
  market_networkProvider : ApiNetworkProvider;
  market_contract : SmartContract
}.

Record MinterFields : Type := mkMinterFields {
  minter_env : string;
  minter_imageServiceUrl : JsObject.Property string;
  minter_chainID : option string;
  minter_networkProvider : ApiNetworkProvider;
  minter_contract : SmartContract
}.

(** [networkConfig.chainID] and [networkConfig.networkProvider]: a member
    of [Object.prototype] has neither property, and [undefined] has no
    properties to read. *)
Definition member {A} (read : DataNft.Config -> A) (name : string)
    (networkConfig : JsObject.Property DataNft.Config) : Exc (option A) :=
  match networkConfig with
  | JsObject.Own c => Return (Some (read c))
  | JsObject.Inherited _ => Return None
  | JsObject.Undefined =>
      Throw (TypeError ("Cannot read properties of undefined (reading '"
                        +:+ name +:+ "')"))
  end.

Section Construction.

(** The enum and the tables of [./config], object literals keyed by
    environment. *)
Variable EnvironmentsEnum : gmap string string.
Variable networkConfiguration : gmap string DataNft.Config.
Variable marketPlaceContractAddress : gmap string string.
Variable minterContractAddress : gmap string string.
Variable imageService : gmap string string.
(** [new Address(value)] of the ABI library, on what a table gives. *)
Variable newAddress : JsObject.Property string -> Exc Address.

Definition newDataNftMarket (env : string) (timeout : option Z)
  : Exc MarketFields :=
  let timeout := default 10000 timeout in
  if negb (JsObject.has EnvironmentsEnum env)
  then Throw (ErrNetworkConfig
                (Some ("Invalid environment: " +:+ env
                       +:+ ", Expected: 'devnet' | 'mainnet' | 'testnet'")))
  else
    let networkConfig := JsObject.get networkConfiguration env in
    chainID ← member DataNft.chainID "chainID" networkConfig;
    url ← member DataNft.networkProvider "networkProvider" networkConfig;
    let networkProvider :=
      {| provider_url := url; provider_timeout := timeout |} in
    let contractAddress := JsObject.get marketPlaceContractAddress env in
    address ← newAddress contractAddress;
    Return {| market_env := env;
              market_chainID := chainID;
              market_networkProvider := networkProvider;
              market_contract := mkSmartContract address |}.

Definition newDataNftMinter (env : string) (timeout : option Z)
  : Exc MinterFields :=
  let timeout := default 10000 timeout in
  if negb (JsObject.has EnvironmentsEnum env)
  then Throw (ErrNetworkConfig
                (Some ("Invalid environment: " +:+ env
                       +:+ ", Expected: 'devnet' | 'mainnet' | 'testnet'")))
  else
    let networkConfig := JsObject.get networkConfiguration env in
    let imageServiceUrl := JsObject.get imageService env in
    chainID ← member DataNft.chainID "chainID" networkConfig;
    url ← member DataNft.networkProvider "networkProvider" networkConfig;
    let networkProvider :=
      {| provider_url := url; provider_timeout := timeout |} in
    let contractAddress := JsObject.get minterContractAddress env in
    address ← newAddress contractAddress;
    Return {| minter_env := env;
              minter_imageServiceUrl := imageServiceUrl;
              minter_chainID := chainID;
              minter_networkProvider := networkProvider;
              minter_contract := mkSmartContract address |}.

End Construction.

End Construction.

(** ** The validation gate of the Data Marshal flows *)

Module Validation.

Import DataNft.

Definition defined {A} (o : option A) : bool :=
  match o with
  | Some _ => true
  | None => false
  end.

(** Whether the parameter object holds the named field. *)
Definition isPresent (params : ValidationParams) (field : string) : bool :=
  if String.eqb field "signedMessage" then defined (v_signedMessage params)
  else if String.eqb field "signableMessage" then defined (v_signableMessage params)
  else if String.eqb field "stream" then defined (v_stream params)
  else if String.eqb field "fwdAllHeaders" then defined (v_fwdAllHeaders params)
  else if String.eqb field "fwdHeaderKeys" then defined (v_fwdHeaderKeys params)
  else if String.eqb field "fwdHeaderMapLookup"
       then defined (v_fwdHeaderMapLookup params)
  else if String.eqb field "nestedIdxToStream"
       then defined (v_nestedIdxToStream params)
  else if String.eqb field "mvxNativeAuthOrigins"
       then defined (v_mvxNativeAuthOrigins params)
  else if String.eqb field "mvxNativeAuthMaxExpirySeconds"
       then defined (v_mvxNativeAuthMaxExpirySeconds params)
  else false.

(** A bearer entry: the key [authorization] with a text that starts with
    the word Bearer and a space. *)
Definition hasBearerAuthorization (lookup : gmap string JsVal) : bool :=
  match lookup !! "authorization" with
  | Some (JStr s) => String.prefix "Bearer " s
  | _ => false
  end.

Definition lacksBearer (params : ValidationParams) : bool :=
  match _fwdHeaderMapLookupMustContainBearerAuthHeader params with
  | Some true =>
      match v_fwdHeaderMapLookup params with
      | Some lookup => negb (hasBearerAuthorization lookup)
      | None => true
      end
  | _ => false
  end.

(** Modelled from the spec: [validateSpecificParamsViewData] of
    [./common/utils], which is not among the sources.  Every field of the
    declared mandatory list must be present; when the caller asks for it,
    the header lookup map must contain a bearer entry.  The violations are
    collected into messages, and the gate returns
    [{allPassed, validationMessages}] instead of raising. *)
Definition validateSpecificParamsViewData (params : ValidationParams)
  : ValidationResult :=
  let missing :=
    List.filter (fun field => negb (isPresent params field))
                (_mandatoryParamsList params) in
  let messages :=
    (map (fun field => field +:+ " is mandatory") missing
     ++ (if lacksBearer params
         then ["fwdHeaderMapLookup must hold an authorization bearer entry"]
         else []))%list in
  {| allPassed := match messages with [] => true | _ => false end;
     validationMessages := Text.join messages |}.

End Validation.

(** ** The logical arguments of [mint] *)

Module MintSpec.

(** The ten arguments of the contract's [mint], in order. *)
Definition mintArguments
    (tokenName imageUrl metadataUrl dataMarshalUrl encryptedStreamUrl
     dataPreviewUrl : string) (royalties supply : Z)
    (datasetTitle datasetDescription : string) : list TypedValue :=
  [StringValue tokenName; StringValue imageUrl; StringValue metadataUrl;
   StringValue dataMarshalUrl; StringValue encryptedStreamUrl;
   StringValue dataPreviewUrl; U64Value royalties; U64Value supply;
   StringValue datasetTitle; StringValue datasetDescription].

(** The token the anti-spam tax is paid in. *)
Definition taxToken (itheumTokenIdentifier : string -> string)
    (this : Minter.t) (options : option Minter.MintOptions) : string :=
  match options with
  | Some {| Minter.antiSpamTokenIdentifier := Some token |} => token
  | _ => itheumTokenIdentifier (Minter.env this)
  end.

(** The transfer fields put in front of a wrapped [mint]. *)
Definition transferFields (token : string) (tax : Z) : list TypedValue :=
  [TokenIdentifierValue token; BigUIntValue (BnNum tax); StringValue "mint"].

(** The transaction of a valid [mint]: addressed to the contract, with the
    bare call when there is no tax and the wrapped call when there is. *)
Definition expectedTransaction (itheumTokenIdentifier : string -> string)
    (this : Minter.t) (senderAddress : Address) (antiSpamTax : Z)
    (options : option Minter.MintOptions) (arguments : list TypedValue)
  : Transaction :=
  {| value := None;
     data :=
       if (0 <? antiSpamTax)%Z
       then call "ESDTTransfer"
              (transferFields (taxToken itheumTokenIdentifier this options)
                 antiSpamTax ++ arguments)
       else call "mint" arguments;
     sender := senderAddress;
     receiver := getAddress (Minter.contract this);
     gasLimit := 60000000;
     chainID := Minter.chainID this |}.

End MintSpec.

(** ** Concrete clients and collaborators, for the examples *)

Module Examples.

Definition minter : Minter.t :=
  {| Minter.contract := mkSmartContract (mkAddress "erd1qqqqqqqqqqqqqpgqminter");
     Minter.chainID := "D";
     Minter.env := "devnet";
     Minter.imageServiceUrl := "https://image.example" |}.

Definition market : DataNftMarket.t :=
  {| DataNftMarket.contract :=
       mkSmartContract (mkAddress "erd1qqqqqqqqqqqqqpgqmarket");
     DataNftMarket.chainID := "D";
     DataNftMarket.env := "devnet" |}.

Definition alice : Address := mkAddress "erd1alice".

Definition itheumTokenIdentifier (env : string) : string := "ITHEUM-a61317".

Definition validMint (_ : Minter.MintValidationParams)
  : Minter.MintValidationResult :=
  {| Minter.allPassed := true; Minter.validationMessages := "" |}.

Definition urlIsUp (_ : string) (_ : list Z) : Exc unit := Return tt.

Definition traitsOk (_ : string) : Exc unit := Return tt.

Definition advertise3 (_ _ _ : string) : Exc Minter.Advertised :=
  Return {| Minter.dataNftHash := "hash";
            Minter.dataNftStreamUrlEncrypted := "encrypted" |}.

Definition advertise2 (_ _ : string) : Exc Minter.Advertised :=
  Return {| Minter.dataNftHash := "hash";
            Minter.dataNftStreamUrlEncrypted := "encrypted" |}.

Definition fileFromUrl (_ _ _ _ _ : string) : Exc (unit * unit) :=
  Return (tt, tt).

Definition store (_ : string) (_ _ : unit) : Exc Minter.Stored :=
  Return {| Minter.imageOnIpfsUrl := "https://ipfs.io/ipfs/cid/image.png";
            Minter.metadataOnIpfsUrl := "https://ipfs.io/ipfs/cid/metadata.json" |}.

Definition customImage : option Minter.MintOptions :=
  Some {| Minter.imageUrl := Some "https://img.example/a.png";
          Minter.traitsUrl := Some "https://img.example/a.json";
          Minter.nftStorageToken := None;
          Minter.antiSpamTokenIdentifier := None |}.

(** [mint] of the SFT minter with a tax of 5 and with no tax. *)
Definition sftMint (antiSpamTax : Z) : Exc Transaction :=
  SftMinter.mint itheumTokenIdentifier validMint urlIsUp traitsOk unit
    advertise3 fileFromUrl store minter alice "TOKEN" "https://marshal.example"
    "https://stream.example" "https://preview.example" 10 5 "A data set"
    "Its description" antiSpamTax customImage.

(** [mint] of the first minter class, same input. *)
Definition dataNftMint (antiSpamTax : Z) : Exc Transaction :=
  DataNftMinter.mint itheumTokenIdentifier validMint urlIsUp traitsOk unit
    advertise2 fileFromUrl store minter alice "TOKEN" "https://marshal.example"
    "https://stream.example" "https://preview.example" 10 5 "A data set"
    "Its description" antiSpamTax customImage.

(** The Data Marshal flows: a configured devnet, a token, a marshal that
    answers and one that refuses. *)
Definition devnet : DataNft.Static :=
  {| DataNft.networkConfiguration :=
       Some {| DataNft.chainID := "D";
               DataNft.networkProvider := "https://devnet-api.example" |};
     DataNft.apiConfiguration := Some "https://devnet-api.example";
     DataNft.env := Some "devnet" |}.

Definition nft : DataNft.t :=
  {| DataNft.tokenIdentifier := "DATANFTFT-e0b917-05";
     DataNft.nftImgUrl := "";
     DataNft.dataPreview := "";
     DataNft.dataStream := "";
     DataNft.dataMarshal := "https://marshal.example/v1";
     DataNft.tokenName := "";
     DataNft.creator := "";
     DataNft.creationTime := DataNft.mkDate 0;
     DataNft.supply := 0;
     DataNft.description := "";
     DataNft.title := "";
     DataNft.royalties := 0;
     DataNft.nonce := 5;
     DataNft.collection := "DATANFTFT-e0b917";
     DataNft.balance := 0 |}.

Definition classMessage (e : Exception) : string :=
  match e with
  | ErrFetch _ message => message
  | _ => ""
  end.

Definition classToString (e : Exception) : string :=
  match e with
  | ErrFetch status message =>
      "Error: Fetch error with status code: " +:+ Text.ofNumber status
  | _ => "Error"
  end.

Definition checkStatus (response : Response) : Exc unit :=
  if (200 <=? status response)%Z && (status response <=? 299)%Z
  then Return tt
  else Throw (ErrFetch (status response) (statusText response)).

Definition numberToPaddedHex (n : Z) : string := "05".

Definition addressHex (a : Address) : string := "a1b2".

Definition btoa (s : string) : Exc string := Return "b64".

Definition json (_ : Response) : Exc (gmap string JsVal) :=
  Return {[ "nonce" := JStr "nonce-1" ]}.

Definition marshalUp (_ : Request) : Exc Response :=
  Return {| status := 200; statusText := "OK";
            contentType := Some "application/json";
            blob := mkBlob "payload" |}.

Definition marshalDenies (_ : Request) : Exc Response :=
  Return {| status := 403; statusText := "Forbidden";
            contentType := Some "application/json";
            blob := mkBlob "access denied" |}.

Definition acceptAll (_ : DataNft.ValidationParams) : DataNft.ValidationResult :=
  {| DataNft.allPassed := true; DataNft.validationMessages := "" |}.

Definition lookup : gmap string JsVal :=
  {[ "authorization" := JStr "Bearer token"; "cookie" := JStr "xyz" ]}.

Definition viewDataArgs : DataNft.ViewDataArgs :=
  {| DataNft.signedMessage := Some "nonce-1";
     DataNft.signableMessage :=
       Some {| DataNft.signature := Some (DataNft.SigBuffer "c0ffee");
               DataNft.address := Some alice |};
     DataNft.stream := Some true;
     DataNft.fwdAllHeaders := Some true;
     DataNft.fwdHeaderKeys := Some "cookie,authorization";
     DataNft.fwdHeaderMapLookup := Some lookup;
     DataNft.nestedIdxToStream := None |}.

(** The same call with no signed message. *)
Definition unsignedArgs : DataNft.ViewDataArgs :=
  {| DataNft.signedMessage := None;
     DataNft.signableMessage := None;
     DataNft.stream := None;
     DataNft.fwdAllHeaders := None;
     DataNft.fwdHeaderKeys := None;
     DataNft.fwdHeaderMapLookup := None;
     DataNft.nestedIdxToStream := None |}.

Definition nativeAuthArgs : DataNft.NativeAuthArgs :=
  {| DataNft.mvxNativeAuthOrigins := Some ["http://localhost:3000"];
     DataNft.mvxNativeAuthMaxExpirySeconds := Some 300;
     DataNft.na_fwdHeaderMapLookup := Some lookup;
     DataNft.na_fwdHeaderKeys := Some "cookie";
     DataNft.na_fwdAllHeaders := None;
     DataNft.na_stream := None;
     DataNft.na_nestedIdxToStream := None |}.

(** The same call with a header map that holds a cookie only. *)
Definition cookieOnlyArgs : DataNft.NativeAuthArgs :=
  {| DataNft.mvxNativeAuthOrigins := Some ["http://localhost:3000"];
     DataNft.mvxNativeAuthMaxExpirySeconds := Some 300;
     DataNft.na_fwdHeaderMapLookup := Some {[ "cookie" := JStr "xyz" ]};
     DataNft.na_fwdHeaderKeys := Some "cookie";
     DataNft.na_fwdAllHeaders := None;
     DataNft.na_stream := None;
     DataNft.na_nestedIdxToStream := None |}.

Definition getMessageToSign (net : Request -> Exc Response) : IO JsVal :=
  DataNft.getMessageToSign checkStatus json net devnet nft.

Definition viewData (validate : DataNft.ValidationParams -> DataNft.ValidationResult)
    (net : Request -> Exc Response) (p : DataNft.ViewDataArgs)
  : IO DataNft.ViewDataReturnType :=
  DataNft.viewData classMessage classToString validate checkStatus
    numberToPaddedHex addressHex net devnet nft p.

Definition viewDataViaMVXNativeAuth
    (validate : DataNft.ValidationParams -> DataNft.ValidationResult)
    (net : Request -> Exc Response) (p : DataNft.NativeAuthArgs)
  : IO DataNft.ViewDataReturnType :=
  DataNft.viewDataViaMVXNativeAuth classMessage classToString validate
    checkStatus numberToPaddedHex btoa net devnet nft p.

(** The requests these calls make. *)
Definition preaccessRequest : Request :=
  {| url := "https://marshal.example/v1/preaccess?chainId=ED";
     config := None |}.

Definition viewDataRequest : Request :=
  {| url := "https://marshal.example/v1/access?nonce=nonce-1"
            +:+ "&NFTId=DATANFTFT-e0b917-05&signature=c0ffee&chainId=ED"
            +:+ "&accessRequesterAddr=a1b2&streamInLine=1&fwdAllHeaders=1"
            +:+ "&fwdHeaderKeys=cookie,authorization";
     config := Some {| method := "GET"; headers := Some lookup |} |}.

Definition nativeAuthRequest : Request :=
  {| url := "https://marshal.example/v1/access?NFTId=DATANFTFT-e0b917-05"
            +:+ "&chainId=ED&mvxNativeAuthEnable=1"
            +:+ "&mvxNativeAuthMaxExpirySeconds=300"
            +:+ "&mvxNativeAuthOrigins=b64&fwdHeaderKeys=cookie";
     config := Some {| method := "GET"; headers := Some lookup |} |}.

Definition forbidden : Response :=
  {| status := 403; statusText := "Forbidden";
     contentType := Some "application/json";
     blob := mkBlob "access denied" |}.

Definition mintArguments : list TypedValue :=
  MintSpec.mintArguments "TOKEN" "https://img.example/a.png"
    "https://img.example/a.json" "https://marshal.example" "encrypted"
    "https://preview.example" 10 5 "A data set" "Its description".

End Examples.

(** ** The chain id the marshal is to receive *)

Module MarshalSpec.

(** The devnet code ["D"] is sent as ["ED"]; any other code as it is. *)
Inductive marshalParameter (configured : string) : string -> Prop :=
| devnet_extended : configured = "D" -> marshalParameter configured "ED"
| passed_through : configured <> "D" -> marshalParameter configured configured.

(** The objects the two flows hand to the validation gate. *)
Definition viewDataParams (p : DataNft.ViewDataArgs) : DataNft.ValidationParams :=
  {| DataNft.v_signedMessage := DataNft.signedMessage p;
     DataNft.v_signableMessage := DataNft.signableMessage p;
     DataNft.v_stream := DataNft.stream p;
     DataNft.v_fwdAllHeaders := DataNft.fwdAllHeaders p;
     DataNft.v_fwdHeaderKeys := DataNft.fwdHeaderKeys p;
     DataNft.v_fwdHeaderMapLookup := DataNft.fwdHeaderMapLookup p;
     DataNft.v_nestedIdxToStream := DataNft.nestedIdxToStream p;
     DataNft.v_mvxNativeAuthOrigins := None;
     DataNft.v_mvxNativeAuthMaxExpirySeconds := None;
     DataNft._fwdHeaderMapLookupMustContainBearerAuthHeader := None;
     DataNft._mandatoryParamsList := ["signedMessage"; "signableMessage"] |}.

Definition nativeAuthParams (p : DataNft.NativeAuthArgs)
  : DataNft.ValidationParams :=
  {| DataNft.v_signedMessage := None;
     DataNft.v_signableMessage := None;
     DataNft.v_stream := DataNft.na_stream p;
     DataNft.v_fwdAllHeaders := DataNft.na_fwdAllHeaders p;
     DataNft.v_fwdHeaderKeys := DataNft.na_fwdHeaderKeys p;
     DataNft.v_fwdHeaderMapLookup := DataNft.na_fwdHeaderMapLookup p;
     DataNft.v_nestedIdxToStream := DataNft.na_nestedIdxToStream p;
     DataNft.v_mvxNativeAuthOrigins := DataNft.mvxNativeAuthOrigins p;
     DataNft.v_mvxNativeAuthMaxExpirySeconds :=
       DataNft.mvxNativeAuthMaxExpirySeconds p;
     DataNft._fwdHeaderMapLookupMustContainBearerAuthHeader := Some true;
     DataNft._mandatoryParamsList :=
       ["mvxNativeAuthOrigins"; "mvxNativeAuthMaxExpirySeconds";
        "fwdHeaderMapLookup"] |}.

(** The outcome record of a failed access. *)
Definition failure (message : string) : DataNft.ViewDataReturnType :=
  {| DataNft.data := None; DataNft.vd_contentType := "";
     DataNft.error := Some message |}.

(** The text of a marshal error: the status failure and the body. *)
Definition marshalError (statusFailure body : string) : string :=
  statusFailure +:+ ". Detailed error trace follows : " +:+ body.

Definition validationError (messages : string) : string :=
  "params have validation issues = " +:+ messages.

(** An outcome record is a success, with the body and no error, or a
    failure. *)
Definition isOutcome (o : DataNft.ViewDataReturnType) : Prop :=
  (exists body ct,
      o = {| DataNft.data := Some body; DataNft.vd_contentType := ct;
             DataNft.error := None |})
  \/ (exists msg, o = failure msg).

End MarshalSpec.

(** ** The direct calls, as one family *)

Module DirectCalls.

Record Clients : Type := mkClients {
  market : DataNftMarket.t;
  nftMinter : Minter.t;
  sftMinter : Minter.t
}.

(** A direct call: the method and its arguments after the sender. *)
Inductive DirectCall : Type :=
| CancelOffer (offerId : Z) (sendFundsBackToOwner : option bool)
| ChangeOfferPrice (offerId newPrice : Z)
    (newMinimumPaymentTokenAmount : option Z)
| WithdrawCancelledOffer (offerId : Z)
| SetLocalRoles
| SetTransferRole (address : Address)
| UnsetTransferRole (address : Address)
| PauseContract
| UnpauseContract
| SetMintTaxIsRequired (is_required : bool)
| SetMintTax (tokenIdentifier : string) (tax : Z)
| SetWhitelistIsEnabled (is_enabled : bool)
| Whitelist (addresses : list string) (gasLimit : option Z)
| Delist (addresses : list string) (gasLimit : Z)
| SetMintTimeLimit (timeLimit : Z)
| SetAdministrator (newAdministrator : Address)
| SetClaimsAddress (claimsAddress : Address)
| ClaimRoyalties (tokenIdentifier : string) (nonce : option Z)
| PauseCollection
| UnpauseCollection
| Freeze (freezeAddress : Address)
| Unfreeze (unfreezeAddress : Address)
| FreezeSingleNFT (nonce : Z) (freezeAddress : Address)
| UnFreezeSingleNFT (nonce : Z) (unfreezeAddress : Address)
| WipeSingleNFT (nonce : Z) (wipeAddress : Address)
| SftInitializeContract (collectionName tokenTicker : string)
    (antiSpamTaxTokenIdentifier : string) (antiSpamTaxTokenAmount : Z)
    (mintLimit : Z) (treasury_address : Address)
| SetTreasuryAddress (treasuryAddress : Address)
| SetMaxSupply (maxSupply : Z).

(** The transaction the client builds for a call. *)
Definition transaction (c : Clients) (senderAddress : Address)
    (call : DirectCall) : Transaction :=
  match call with
  | CancelOffer offerId send =>
      DataNftMarket.cancelOffer (market c) senderAddress offerId send
  | ChangeOfferPrice offerId newPrice newMin =>
      DataNftMarket.changeOfferPrice (market c) senderAddress offerId newPrice
        newMin
  | WithdrawCancelledOffer offerId =>
      DataNftMarket.withdrawCancelledOffer (market c) senderAddress offerId
  | SetLocalRoles => NftMinter.setLocalRoles (nftMinter c) senderAddress
  | SetTransferRole a => NftMinter.setTransferRole (nftMinter c) senderAddress a
  | UnsetTransferRole a =>
      NftMinter.unsetTransferRole (nftMinter c) senderAddress a
  | PauseContract => NftMinter.pauseContract (nftMinter c) senderAddress
  | UnpauseContract => NftMinter.unpauseContract (nftMinter c) senderAddress
  | SetMintTaxIsRequired b =>
      NftMinter.setMintTaxIsRequired (nftMinter c) senderAddress b
  | SetMintTax token tax =>
      NftMinter.setMintTax (nftMinter c) senderAddress token tax
  | SetWhitelistIsEnabled b =>
      NftMinter.setWhitelistIsEnabled (nftMinter c) senderAddress b
  | Whitelist addresses gas =>
      NftMinter.whitelist (nftMinter c) senderAddress addresses gas
  | Delist addresses gas =>
      NftMinter.delist (nftMinter c) senderAddress addresses gas
  | SetMintTimeLimit limit =>
      NftMinter.setMintTimeLimit (nftMinter c) senderAddress limit
  | SetAdministrator a =>
      NftMinter.setAdministrator (nftMinter c) senderAddress a
  | SetClaimsAddress a =>
      NftMinter.setClaimsAddress (nftMinter c) senderAddress a
  | ClaimRoyalties token nonce =>
      NftMinter.claimRoyalties (nftMinter c) senderAddress token nonce
  | PauseCollection => NftMinter.pauseCollection (nftMinter c) senderAddress
  | UnpauseCollection => NftMinter.unpauseCollection (nftMinter c) senderAddress
  | Freeze a => NftMinter.freeze (nftMinter c) senderAddress a
  | Unfreeze a => NftMinter.unfreeze (nftMinter c) senderAddress a
  | FreezeSingleNFT nonce a =>
      NftMinter.freezeSingleNFT (nftMinter c) senderAddress nonce a
  | UnFreezeSingleNFT nonce a =>
      NftMinter.unFreezeSingleNFT (nftMinter c) senderAddress nonce a
  | WipeSingleNFT nonce a =>
      NftMinter.wipeSingleNFT (nftMinter c) senderAddress nonce a
  | SftInitializeContract name ticker token amount limit treasury =>
      SftMinter.initializeContract (sftMinter c) senderAddress name ticker
        token amount limit treasury
  | SetTreasuryAddress a =>
      SftMinter.setTreasuryAddress (sftMinter c) senderAddress a
  | SetMaxSupply supply => SftMinter.setMaxSupply (sftMinter c) senderAddress supply
  end.

(** The contract of the client the call belongs to. *)
Definition contractAddress (c : Clients) (call : DirectCall) : Address :=
  match call with
  | CancelOffer _ _ | ChangeOfferPrice _ _ _ | WithdrawCancelledOffer _ =>
      getAddress (DataNftMarket.contract (market c))
  | SftInitializeContract _ _ _ _ _ _ | SetTreasuryAddress _ | SetMaxSupply _ =>
      getAddress (Minter.contract (sftMinter c))
  | _ => getAddress (Minter.contract (nftMinter c))
  end.

(** The method called. *)
Definition operation (call : DirectCall) : string :=
  match call with
  | CancelOffer _ _ => "cancelOffer"
  | ChangeOfferPrice _ _ _ => "changeOfferPrice"
  | WithdrawCancelledOffer _ => "withdrawCancelledOffer"
  | SetLocalRoles => "setLocalRoles"
  | SetTransferRole _ => "setTransferRole"
  | UnsetTransferRole _ => "unsetTransferRole"
  | PauseContract => "pauseContract"
  | UnpauseContract => "unpauseContract"
  | SetMintTaxIsRequired _ => "setMintTaxIsRequired"
  | SetMintTax _ _ => "setMintTax"
  | SetWhitelistIsEnabled _ => "setWhitelistIsEnabled"
  | Whitelist _ _ => "whitelist"
  | Delist _ _ => "delist"
  | SetMintTimeLimit _ => "setMintTimeLimit"
  | SetAdministrator _ => "setAdministrator"
  | SetClaimsAddress _ => "setClaimsAddress"
  | ClaimRoyalties _ _ => "claimRoyalties"
  | PauseCollection => "pauseCollection"
  | UnpauseCollection => "unpauseCollection"
  | Freeze _ => "freeze"
  | Unfreeze _ => "unfreeze"
  | FreezeSingleNFT _ _ => "freezeSingleNFT"
  | UnFreezeSingleNFT _ _ => "unFreezeSingleNFT"
  | WipeSingleNFT _ _ => "wipeSingleNFT"
  | SftInitializeContract _ _ _ _ _ _ => "initializeContract"
  | SetTreasuryAddress _ => "setTreasuryAddress"
  | SetMaxSupply _ => "setMaxSupply"
  end.

(** The constant gas of a method. *)
Definition baseGas (method : string) : Z :=
  if String.eqb method "withdrawCancelledOffer" then 12000000 else 10000000.

(** The gas the caller adds: the [gasLimit] argument of [whitelist] and
    [delist]. *)
Definition addedGas (call : DirectCall) : Z :=
  match call with
  | Whitelist _ gas => default 0 gas
  | Delist _ gas => gas
  | _ => 0
  end.

End DirectCalls.

(** ** The contract queries, as one family *)

Module Views.

(** The view methods of the marketplace client and of the minter client. *)
Inductive Method : Type :=
| viewAddressListedOffers
| viewAddressPagedOffers
| viewAddressTotalOffers
| viewAddressCancelledOffers
| viewPagedOffers
| viewOffers
| viewRequirements
| viewNumberOfOffers
| viewLastValidOfferId
| viewContractPauseState
| viewMinterRequirements
| minterViewContractPauseState.

(** The name a method reports in its contract-query error. *)
Definition methodName (m : Method) : string :=
  match m with
  | viewAddressListedOffers => "viewAddressListedOffers"
  | viewAddressPagedOffers => "viewAddressPagedOffers"
  | viewAddressTotalOffers => "viewAddressTotalOffers"
  | viewAddressCancelledOffers => "viewAddressCancelledOffers"
  | viewPagedOffers => "viewPagedOffers"
  | viewOffers => "viewOffers"
  | viewRequirements => "viewRequirements"
  | viewNumberOfOffers => "viewNumberOfOffers"
  | viewLastValidOfferId => "viewLastValidOfferId"
  | viewContractPauseState => "viewContractPauseState"
  | viewMinterRequirements => "viewMinterRequirements"
  | minterViewContractPauseState => "viewContractPauseState"
  end.

(** The arguments of a method. *)
Definition Args (m : Method) : Type :=
  match m with
  | viewAddressListedOffers | viewAddressTotalOffers
  | viewAddressCancelledOffers => Address
  | viewAddressPagedOffers => (Z * Z * Address)%type
  | viewPagedOffers => (Z * Z)%type
  | viewMinterRequirements => (Address * option string)%type
  | _ => unit
  end.

(** The type of the first value of its response. *)
Definition First (RawOfferOut : Type) (m : Method) : Type :=
  match m with
  | viewAddressListedOffers | viewAddressPagedOffers
  | viewAddressCancelledOffers | viewPagedOffers => list RawOfferOut
  | viewOffers => list (Z * RawOffer)
  | viewAddressTotalOffers | viewNumberOfOffers | viewLastValidOfferId => Z
  | viewRequirements => RawRequirements
  | viewContractPauseState | minterViewContractPauseState => bool
  | viewMinterRequirements => UserDataOut
  end.

(** The domain object it returns. *)
Definition Result (m : Method) : Type :=
  match m with
  | viewAddressListedOffers | viewAddressPagedOffers
  | viewAddressCancelledOffers | viewPagedOffers | viewOffers => list Offer
  | viewAddressTotalOffers | viewNumberOfOffers | viewLastValidOfferId => Z
  | viewRequirements => MarketplaceRequirements
  | viewContractPauseState | minterViewContractPauseState => option bool
  | viewMinterRequirements => MinterRequirements
  end.

(** The endpoint it queries. *)
Definition endpoint {RawOfferOut : Type} (m : Method)
  : Endpoint RawOfferOut (First RawOfferOut m) :=
  match m with
  | viewAddressListedOffers => ep_viewUserListedOffers
  | viewAddressPagedOffers => ep_viewUserPagedOffers
  | viewAddressTotalOffers => ep_viewUserTotalOffers
  | viewAddressCancelledOffers => ep_viewCancelledOffers
  | viewPagedOffers => ep_viewPagedOffers
  | viewOffers => ep_getOffers
  | viewRequirements => ep_viewRequirements
  | viewNumberOfOffers => ep_viewNumberOfOffers
  | viewLastValidOfferId => ep_getLastValidOfferId
  | viewContractPauseState => ep_getIsPaused
  | viewMinterRequirements => ep_getUserDataOut
  | minterViewContractPauseState => ep_getIsPaused
  end.

Section Family.

Variable itheumTokenIdentifier : string -> string.
Variable RawOfferOut : Type.
Variable parseOffer : RawOfferOut -> Offer.
Variable QueryResponse : Type.
Variable queryContract : Query -> Exc QueryResponse.
Variable parseQueryResponse :
  forall T, QueryResponse -> Endpoint RawOfferOut T -> Exc (Parsed T).
Variable numericalValueOfUndefined : Exc Z.
Variable market : DataNftMarket.t.
Variable minter : Minter.t.

(** The contract a method queries. *)
Definition contract (m : Method) : SmartContract :=
  match m with
  | viewMinterRequirements | minterViewContractPauseState =>
      Minter.contract minter
  | _ => DataNftMarket.contract market
  end.

(** The arguments of its query. *)
Definition queryArgs (m : Method) : Args m -> list TypedValue :=
  match m with
  | viewAddressListedOffers => fun address => [AddressValue address]
  | viewAddressPagedOffers =>
      fun '(from, to, address) =>
        [U64Value from; U64Value to; AddressValue address]
  | viewAddressTotalOffers => fun address => [AddressValue address]
  | viewAddressCancelledOffers => fun address => [AddressValue address]
  | viewPagedOffers => fun '(from, to) => [U64Value from; U64Value to]
  | viewMinterRequirements =>
      fun '(address, taxToken) =>
        [AddressValue address;
         TokenIdentifierValue
           (default (itheumTokenIdentifier (Minter.env minter)) taxToken)]
  | _ => fun _ => []
  end.

(** The query a method sends. *)
Definition query (m : Method) (a : Args m) : Query :=
  {| q_address := getAddress (contract m);
     q_func := endpointName (endpoint (RawOfferOut := RawOfferOut) m);
     q_args := queryArgs m a |}.

(** The method of the client, called. *)
Definition invoke (m : Method) : Args m -> Exc (Result m) :=
  match m with
  | viewAddressListedOffers =>
      DataNftMarket.viewAddressListedOffers RawOfferOut parseOffer
        QueryResponse queryContract parseQueryResponse market
  | viewAddressPagedOffers =>
      fun '(from, to, address) =>
        DataNftMarket.viewAddressPagedOffers RawOfferOut parseOffer
          QueryResponse queryContract parseQueryResponse market from to address
  | viewAddressTotalOffers =>
      DataNftMarket.viewAddressTotalOffers RawOfferOut QueryResponse
        queryContract parseQueryResponse market
  | viewAddressCancelledOffers =>
      DataNftMarket.viewAddressCancelledOffers RawOfferOut parseOffer
        QueryResponse queryContract parseQueryResponse market
  | viewPagedOffers =>
      fun '(from, to) =>
        DataNftMarket.viewPagedOffers RawOfferOut parseOffer QueryResponse
          queryContract parseQueryResponse market from to
  | viewOffers =>
      fun _ =>
        DataNftMarket.viewOffers RawOfferOut QueryResponse queryContract
          parseQueryResponse market
  | viewRequirements =>
      fun _ =>
        DataNftMarket.viewRequirements RawOfferOut QueryResponse queryContract
          parseQueryResponse market
  | viewNumberOfOffers =>
      fun _ =>
        DataNftMarket.viewNumberOfOffers RawOfferOut QueryResponse
          queryContract parseQueryResponse numericalValueOfUndefined market
  | viewLastValidOfferId =>
      fun _ =>
        DataNftMarket.viewLastValidOfferId RawOfferOut QueryResponse
          queryContract parseQueryResponse numericalValueOfUndefined market
  | viewContractPauseState =>
      fun _ =>
        DataNftMarket.viewContractPauseState RawOfferOut QueryResponse
          queryContract parseQueryResponse market
  | viewMinterRequirements =>
      fun '(address, taxToken) =>
        DataNftMinter.viewMinterRequirements itheumTokenIdentifier RawOfferOut
          QueryResponse queryContract parseQueryResponse minter address taxToken
  | minterViewContractPauseState =>
      fun _ =>
        DataNftMinter.viewContractPauseState RawOfferOut QueryResponse
          queryContract parseQueryResponse minter
  end.

(** The [Offer] an index-keyed tuple of [getOffers] stands for: the index
    and the quantity as numbers, the owner as text, the two token structs
    flattened into the prefixed fields, their nonces as decimal text and
    their amounts as decoded. *)
Definition offerOfTuple (index : Z) (offer : RawOffer) : Offer :=
  {| index := toNumber index;
     o_owner := bech32 (owner offer);
     offeredTokenIdentifier := token_identifier (offered_token offer);
     offeredTokenNonce :=
       BnStr (Text.ofNumber (token_nonce (offered_token offer)));
     offeredTokenAmount := BnNum (amount (offered_token offer));
     wantedTokenIdentifier := token_identifier (wanted_token offer);
     wantedTokenNonce :=
       BnStr (Text.ofNumber (token_nonce (wanted_token offer)));
     wantedTokenAmount := BnNum (amount (wanted_token offer));
     o_quantity := toNumber (quantity offer) |}.

(** The requirements a struct of [viewRequirements] stands for: the two
    lists as they are, the fee caps as decimal text, the four percentages
    as numbers. *)
Definition marketplaceRequirementsOf (struct : RawRequirements)
  : MarketplaceRequirements :=
  {| acceptedTokens := accepted_tokens struct;
     acceptedPayments := accepted_payments struct;
     maximumPaymentFees := map Text.ofNumber (maximum_payment_fees struct);
     buyerTaxPercentageDiscount :=
       toNumber (discount_fee_percentage_buyer struct);
     sellerTaxPercentageDiscount :=
       toNumber (discount_fee_percentage_seller struct);
     buyerTaxPercentage := toNumber (percentage_cut_from_buyer struct);
     sellerTaxPercentage := toNumber (percentage_cut_from_seller struct) |}.

(** The requirements a struct of [getUserDataOut] stands for: the flags as
    they are, the counters as numbers, the time of the last mint as
    decoded, the frozen nonces as numbers. *)
Definition minterRequirementsOf (struct : UserDataOut) : MinterRequirements :=
  {| antiSpamTaxValue := toNumber (anti_spam_tax_value struct);
     addressFrozen := frozen struct;
     frozenNonces := map toNumber (frozen_nonces struct);
     contractPaused := is_paused struct;
     userWhitelistedForMint := is_whitelisted struct;
     lastUserMintTime := last_mint_time struct;
     maxRoyalties := toNumber (max_royalties struct);
     maxSupply := toNumber (max_supply struct);
     minRoyalties := toNumber (min_royalties struct);
     mintTimeLimit := toNumber (mint_time_limit struct);
     numberOfMintsForUser := toNumber (minted_per_user struct);
     totalNumberOfMints := toNumber (total_minted struct);
     contractWhitelistEnabled := whitelist_enabled struct |}.

(** The domain object a method is to return for the first value of a
    response, written out by the fields of the interfaces. *)
Definition domainObject (m : Method) : First RawOfferOut m -> Result m :=
  match m with
  | viewAddressListedOffers | viewAddressPagedOffers
  | viewAddressCancelledOffers | viewPagedOffers =>
      fun offers => map parseOffer offers
  | viewOffers =>
      fun tuples => map (fun tuple => offerOfTuple (fst tuple) (snd tuple)) tuples
  | viewAddressTotalOffers | viewNumberOfOffers | viewLastValidOfferId =>
      fun count => toNumber count
  | viewRequirements => marketplaceRequirementsOf
  | viewContractPauseState | minterViewContractPauseState =>
      fun paused => Some paused
  | viewMinterRequirements => minterRequirementsOf
  end.

(** What a method does with a response that signals success and carries no
    first value: the two counters do what the numerical value of
    [undefined] does, the pause flags hand [undefined] back, and the other
    methods, which read a list, a struct or a count off the value, throw
    a [TypeError]. *)
Definition withoutValue (m : Method) : Exc (Result m) -> Prop :=
  match m return Exc (Result m) -> Prop with
  | viewNumberOfOffers | viewLastValidOfferId =>
      fun result => result = numericalValueOfUndefined
  | viewContractPauseState | minterViewContractPauseState =>
      fun result => result = Return None
  | _ => fun result => exists message, result = Throw (TypeError message)
  end.

End Family.

End Views.

(** ** A chain that answers every query with one return code *)

Module QueryExamples.

Definition ok : ReturnCode := {| isSuccess := true; rc_toString := "ok" |}.

Definition userError : ReturnCode :=
  {| isSuccess := false; rc_toString := "user error" |}.

(** The response is reduced to its return code. *)
Definition chain (code : ReturnCode) (_ : Query) : Exc ReturnCode := Return code.

(** An offer of two Data NFTs for 1000 ITHEUM each, as the contract lists
    it under the index 3. *)
Definition listed : Z * RawOffer :=
  (3, {| owner := Examples.alice;
         offered_token := {| token_identifier := "DATANFTFT-e0b917";
                             token_nonce := 5; amount := 1 |};
         wanted_token := {| token_identifier := "ITHEUM-a61317";
                            token_nonce := 0; amount := 1000 |};
         quantity := 2 |}).

(** The parser finds a pause flag, a count, an offer id of 54 bits and
    one listed offer, and no value otherwise. *)
Definition parse (T : Type) (response : ReturnCode) (ep : Endpoint unit T)
  : Exc (Parsed T) :=
  Return {| firstValue :=
              match ep in Endpoint _ T return option T with
              | ep_getIsPaused => Some true
              | ep_viewNumberOfOffers => Some 7
              | ep_getLastValidOfferId => Some 9007199254740993
              | ep_getOffers => Some [listed]
              | _ => None
              end;
            returnCode := response |}.

(** A parser that finds no value in any response. *)
Definition parseNothing (T : Type) (response : ReturnCode)
    (ep : Endpoint unit T) : Exc (Parsed T) :=
  Return {| firstValue := None; returnCode := response |}.

Definition parseOffer (_ : unit) : Offer :=
  {| index := 0; o_owner := ""; offeredTokenIdentifier := "";
     offeredTokenNonce := BnNum 0; offeredTokenAmount := BnStr "0";
     wantedTokenIdentifier := ""; wantedTokenNonce := BnNum 0;
     wantedTokenAmount := BnStr "0"; o_quantity := 0 |}.

Definition invoke (code : ReturnCode) (m : Views.Method)
  : Views.Args m -> Exc (Views.Result m) :=
  Views.invoke Examples.itheumTokenIdentifier unit parseOffer ReturnCode
    (chain code) parse (Throw (TypeError "not a number")) Examples.market
    Examples.minter m.

Definition invokeWithoutValue (code : ReturnCode) (m : Views.Method)
  : Views.Args m -> Exc (Views.Result m) :=
  Views.invoke Examples.itheumTokenIdentifier unit parseOffer ReturnCode
    (chain code) parseNothing (Throw (TypeError "not a number"))
    Examples.market Examples.minter m.

End QueryExamples.

(** ** The calls wrapped in a transfer of a Data NFT, as one family *)

Module WrappedCalls.

(** A call delivered with a transfer of a semi-fungible token: the method
    and its arguments after the sender. *)
Inductive WrappedCall : Type :=
| AddOffer (dataNftIdentifier : string) (dataNftNonce dataNftAmount : Z)
    (paymentTokenIdentifier : string)
    (paymentTokenNonce paymentTokenAmount : Z)
    (minimumPaymentTokenAmount : option Z)
| Burn (dataNftNonce quantityToBurn : Z) (dataNftIdentifier : option string)
| UpdateAttributes (tokenIdentifier : string) (nonce : Z)
    (attributes : NftMinter.Attributes) (quantity : option Z).

Section Family.

Variable dataNftTokenIdentifier : string -> string.
Variable market : DataNftMarket.t.
Variable dataNftMinter : Minter.t.
Variable nftMinter : Minter.t.

Definition transaction (senderAddress : Address) (call : WrappedCall)
  : Transaction :=
  match call with
  | AddOffer token nonce amount payToken payNonce payAmount minAmount =>
      DataNftMarket.addOffer market senderAddress token nonce amount payToken
        payNonce payAmount minAmount
  | Burn nonce quantity token =>
      DataNftMinter.burn dataNftTokenIdentifier dataNftMinter senderAddress
        nonce quantity token
  | UpdateAttributes token nonce attributes quantity =>
      NftMinter.updateAttributes nftMinter senderAddress token nonce
        attributes quantity
  end.

(** The contract the call is meant for. *)
Definition target (call : WrappedCall) : Address :=
  match call with
  | AddOffer _ _ _ _ _ _ _ => getAddress (DataNftMarket.contract market)
  | Burn _ _ _ => getAddress (Minter.contract dataNftMinter)
  | UpdateAttributes _ _ _ _ => getAddress (Minter.contract nftMinter)
  end.

(** The endpoint of that contract. *)
Definition endpointName (call : WrappedCall) : string :=
  match call with
  | AddOffer _ _ _ _ _ _ _ => "addOffer"
  | Burn _ _ _ => "burn"
  | UpdateAttributes _ _ _ _ => "updateAttributes"
  end.

(** The token transferred and its nonce. *)
Definition token (call : WrappedCall) : string :=
  match call with
  | AddOffer token _ _ _ _ _ _ => token
  | Burn _ _ token =>
      default (dataNftTokenIdentifier (Minter.env dataNftMinter)) token
  | UpdateAttributes token _ _ _ => token
  end.

Definition tokenNonce (call : WrappedCall) : Z :=
  match call with
  | AddOffer _ nonce _ _ _ _ _ => nonce
  | Burn nonce _ _ => nonce
  | UpdateAttributes _ nonce _ _ => nonce
  end.

End Family.

End WrappedCalls.

(** ** What [mint] hands to its collaborators *)

Module MintChecks.

Import Minter.

(** The object [mint] hands to [validateSpecificParamsMint]. *)
Definition validationParams (senderAddress : Address) (tokenName : string)
    (royalties supply : Z) (datasetTitle datasetDescription : string)
    (antiSpamTax : Z) : MintValidationParams :=
  {| v_senderAddress := senderAddress;
     v_tokenName := tokenName;
     v_royalties := royalties;
     v_supply := supply;
     v_datasetTitle := datasetTitle;
     v_datasetDescription := datasetDescription;
     v_antiSpamTax := antiSpamTax;
     _mandatoryParamsList := mandatoryMintParams |}.

(** The three URL checks of [mint] pass. *)
Definition urlsUp (checkUrlIsUp : string -> list Z -> Exc unit)
    (dataStreamUrl dataPreviewUrl dataMarshalUrl : string) : Prop :=
  checkUrlIsUp dataStreamUrl [200; 403] = Return tt
  /\ checkUrlIsUp dataPreviewUrl [200] = Return tt
  /\ checkUrlIsUp (dataMarshalUrl +:+ "/health-check") [200] = Return tt.

(** The media arguments of [mint] that are missing, if any: no image and
    no storage token, or an image and no traits. *)
Definition noStorageToken (o : MintOptions) : Prop :=
  truthy_opt (imageUrl o) = false /\ truthy_opt (nftStorageToken o) = false.

Definition noTraits (o : MintOptions) : Prop :=
  truthy_opt (imageUrl o) = true /\ truthy_opt (traitsUrl o) = false.

(** Validation and the three URL checks pass. *)
Definition passed
    (validateSpecificParamsMint : MintValidationParams -> MintValidationResult)
    (checkUrlIsUp : string -> list Z -> Exc unit)
    (senderAddress : Address) (tokenName : string) (royalties supply : Z)
    (datasetTitle datasetDescription : string) (antiSpamTax : Z)
    (dataStreamUrl dataPreviewUrl dataMarshalUrl : string) : Prop :=
  allPassed
    (validateSpecificParamsMint
       (validationParams senderAddress tokenName royalties supply datasetTitle
          datasetDescription antiSpamTax)) = true
  /\ urlsUp checkUrlIsUp dataStreamUrl dataPreviewUrl dataMarshalUrl.

(** A gate that accepts royalties up to 50 only. *)
Definition royaltiesGate (p : MintValidationParams) : MintValidationResult :=
  if (v_royalties p <=? 50)%Z
  then {| allPassed := true; validationMessages := "" |}
  else {| allPassed := false; validationMessages := "royalties above 50" |}.

(** Options with nothing set but a storage token. *)
Definition storageOnly (token : string) : option MintOptions :=
  Some {| imageUrl := None; traitsUrl := None; nftStorageToken := Some token;
          antiSpamTokenIdentifier := None |}.

(** Options with an image and no traits. *)
Definition imageOnly : option MintOptions :=
  Some {| imageUrl := Some "https://img.example/a.png"; traitsUrl := None;
          nftStorageToken := None; antiSpamTokenIdentifier := None |}.

End MintChecks.

(** ** The access URLs of the Data Marshal flows *)

Module AccessSpec.

(** The optional flags, in the order they are appended: a flag set to
    [false] adds nothing. *)
Definition flags (stream fwdAllHeaders : option bool)
    (nestedIdxToStream : option Z) : string :=
  (match stream with Some true => "&streamInLine=1" | _ => "" end)
  +:+ (match fwdAllHeaders with Some true => "&fwdAllHeaders=1" | _ => "" end)
  +:+ (match nestedIdxToStream with
       | Some n => "&nestedIdxToStream=" +:+ Text.ofNumber n
       | None => ""
       end).

Definition keysFlag (fwdHeaderKeys : option string) : string :=
  match fwdHeaderKeys with
  | Some keys => "&fwdHeaderKeys=" +:+ keys
  | None => ""
  end.

(** The URL of the signature flow. *)
Definition viewDataUrl (dataMarshal signedMessage collection paddedNonce
                        signature chainId requester : string)
    (p : DataNft.ViewDataArgs) : string :=
  dataMarshal +:+ "/access?nonce=" +:+ signedMessage
  +:+ "&NFTId=" +:+ collection +:+ "-" +:+ paddedNonce
  +:+ "&signature=" +:+ signature
  +:+ "&chainId=" +:+ chainId
  +:+ "&accessRequesterAddr=" +:+ requester
  +:+ flags (DataNft.stream p) (DataNft.fwdAllHeaders p)
        (DataNft.nestedIdxToStream p)
  +:+ keysFlag (DataNft.fwdHeaderKeys p).

(** A signable message whose signature cannot be used: none, one without
    signature or address, or one whose [hex()] throws. *)
Definition unsigned (m : option DataNft.SignableMessage) : Prop :=
  match m with
  | None => True
  | Some {| DataNft.signature := None |} => True
  | Some {| DataNft.address := None |} => True
  | Some {| DataNft.signature := Some (DataNft.SigHexable (Throw _)) |} => True
  | _ => False
  end.

(** The network configuration is set. *)
Definition configured (st : DataNft.Static) : Prop :=
  truthy_opt (DataNft.env st) = true
  /\ truthy_opt (DataNft.apiConfiguration st) = true.

End AccessSpec.

(** ** Example inputs of the Data Marshal flows *)

Module AccessExamples.

(** A token whose attributes name no marshal. *)
Definition noMarshal : DataNft.t :=
  {| DataNft.tokenIdentifier := "DATANFTFT-e0b917-05";
     DataNft.nftImgUrl := "";
     DataNft.dataPreview := "";
     DataNft.dataStream := "";
     DataNft.dataMarshal := "";
     DataNft.tokenName := "";
     DataNft.creator := "";
     DataNft.creationTime := DataNft.mkDate 0;
     DataNft.supply := 0;
     DataNft.description := "";
     DataNft.title := "";
     DataNft.royalties := 0;
     DataNft.nonce := 5;
     DataNft.collection := "DATANFTFT-e0b917";
     DataNft.balance := 0 |}.

(** The class before [setNetworkConfig]. *)
Definition unset : DataNft.Static :=
  {| DataNft.networkConfiguration := None;
     DataNft.apiConfiguration := None;
     DataNft.env := None |}.

(** A call whose signable message has an address and no signature, with
    [stream] switched off and a nested index. *)
Definition noSignatureArgs : DataNft.ViewDataArgs :=
  {| DataNft.signedMessage := Some "nonce-1";
     DataNft.signableMessage :=
       Some {| DataNft.signature := None;
               DataNft.address := Some Examples.alice |};
     DataNft.stream := Some false;
     DataNft.fwdAllHeaders := None;
     DataNft.fwdHeaderKeys := None;
     DataNft.fwdHeaderMapLookup := None;
     DataNft.nestedIdxToStream := Some 2 |}.

Definition devnetConfig : DataNft.Config :=
  {| DataNft.chainID := "D";
     DataNft.networkProvider := "https://devnet-api.example" |}.

Definition up : Response :=
  {| status := 200; statusText := "OK";
     contentType := Some "application/json";
     blob := mkBlob "payload" |}.

End AccessExamples.

(** ** The traits text of the image service *)

Module TraitsSpec.

Import MinterPrivate.

(** The text has no occurrence of the character. *)
Fixpoint lacks (c : ascii) (s : string) : bool :=
  match s with
  | EmptyString => true
  | String x s' => negb (Ascii.eqb x c) && lacks c s'
  end.

(** The text of one trait, [key:value]. *)
Definition segment (kv : string * string) : string :=
  fst kv +:+ ":" +:+ snd kv.

(** The text trims to nothing. *)
Definition blank (trim : string -> string) (s : string) : bool :=
  String.eqb (trim s) "".

(** Keys and values hold no colon and no comma, and no trait is blank. *)
Definition wellFormed (trim : string -> string)
    (pairs : list (string * string)) : bool :=
  forallb (fun kv =>
             lacks ":" (fst kv) && lacks "," (fst kv)
             && lacks ":" (snd kv) && lacks "," (snd kv)
             && negb (blank trim (segment kv)))
          pairs.

Definition traitOf (trim : string -> string) (kv : string * string) : Trait :=
  {| trait_type := trim (fst kv); trait_value := trim (snd kv) |}.

(** The two attributes every metadata object ends with. *)
Definition fixedTraits (dataNFTStreamPreviewUrl address : string)
  : list Trait :=
  [{| trait_type := "Data Preview URL";
      trait_value := dataNFTStreamPreviewUrl |};
   {| trait_type := "Creator"; trait_value := address |}].

Definition metadata (datasetTitle datasetDescription : string)
    (traits : list Trait) (dataNFTStreamPreviewUrl address : string)
  : Metadata :=
  {| md_description := datasetTitle +:+ " : " +:+ datasetDescription;
     md_attributes := traits ++ fixedTraits dataNFTStreamPreviewUrl address |}.

(** The request [dataNFTDataStreamAdvertise] posts. *)
Definition generateRequest (dataNFTStreamUrl dataMarshalUrl : string)
  : PostRequest :=
  {| post_url := dataMarshalUrl +:+ "/generate";
     post_method := "POST";
     post_headers :=
       [("cache-control", "no-cache"); ("Content-Type", "application/json")];
     post_body := {| dataNFTStreamUrl := dataNFTStreamUrl |} |}.

(** An answer of [/generate] with both fields, neither empty. *)
Definition usable (data : option Generated) (encrypted hash : string) : Prop :=
  data = Some {| encryptedMessage := Some encrypted;
                 messageHash := Some hash |}
  /\ truthy encrypted = true /\ truthy hash = true.

(** An answer that is no object, or lacks a field, or has an empty one. *)
Definition unusable (data : option Generated) : Prop :=
  match data with
  | Some {| encryptedMessage := Some encrypted; messageHash := Some hash |} =>
      truthy encrypted = false \/ truthy hash = false
  | _ => True
  end.

(** The two files of the directory stored, image first. *)
Definition directory (image : Blob) (traits : Metadata) : list File :=
  [{| file_content := OfBlob image; file_name := "image.png";
      file_type := "image/png" |};
   {| file_content := OfJson traits; file_name := "metadata.json";
      file_type := "application/json" |}].

Definition ipfsUrl (cid file : string) : string :=
  "https://ipfs.io/ipfs/" +:+ cid +:+ "/" +:+ file.

End TraitsSpec.

(** ** Example collaborators of the private methods *)

Module MintExamples.

Import MinterPrivate.

Definition generated : Response :=
  {| status := 200; statusText := "OK";
     contentType := Some "application/json";
     blob := mkBlob "{}" |}.

Definition post (_ : PostRequest) : Exc Response := Return generated.

Definition jsonGenerated (_ : Response) : Exc (option Generated) :=
  Return (Some {| encryptedMessage := Some "encrypted";
                  messageHash := Some "hash" |}).

Definition art : ArtResponse :=
  {| nftTraits := Some "Background:Blue, Shape : Circle";
     art_blob := mkBlob "png" |}.

Definition fetchArt (_ : string) : Exc ArtResponse := Return art.

Definition storeDirectory (_ : string) (_ : list File) : Exc string :=
  Return "bafy123".

Definition pairs : list (string * string) :=
  [("Background", "Blue"); (" Shape ", " Circle")].

Definition traits : Metadata :=
  {| md_description := "A data set : Its description";
     md_attributes :=
       [{| trait_type := "Background"; trait_value := "Blue" |};
        {| trait_type := "Shape"; trait_value := "Circle" |};
        {| trait_type := "Data Preview URL";
           trait_value := "https://preview.example" |};
        {| trait_type := "Creator"; trait_value := "erd1alice" |}] |}.

Definition mint (antiSpamTax : Z) : Exc Transaction :=
  MinterPrivate.mint Examples.classMessage Examples.checkStatus Text.trim post
    jsonGenerated fetchArt storeDirectory Examples.itheumTokenIdentifier
    Examples.validMint Examples.urlIsUp Examples.traitsOk Examples.minter
    Examples.alice "TOKEN" "https://marshal.example" "https://stream.example"
    "https://preview.example" 10 5 "A data set" "Its description" antiSpamTax
    (MintChecks.storageOnly "storage-token").

End MintExamples.

(** ** The factory methods of the DataNft class *)

Module FactorySpec.

Import DataNftFactory.

(** The token identifier a reference stands for: its own, or the
    environment's when it has none or an empty one. *)
Definition tokenOf (fallback : string) (token : TokenRef) : string :=
  match ref_tokenIdentifier token with
  | Some EmptyString => fallback
  | Some identifier => identifier
  | None => fallback
  end.

Section Parsing.

Variable NftType : Type.
Variable parseDataNft : NftType -> Exc DataNft.t.

(** Every record parses, to the objects in the same order. *)
Definition parsedAll (data : list NftType) (dataNfts : list DataNft.t) : Prop :=
  Forall2 (fun nft dataNft => parseDataNft nft = Return dataNft) data dataNfts.

(** The first record that does not parse fails with [e]. *)
Definition firstFailure (data : list NftType) (e : Exception) : Prop :=
  exists good parsed nft rest,
    data = (good ++ nft :: rest)%list
    /\ parsedAll good parsed
    /\ parseDataNft nft = Throw e.

End Parsing.

(** The URLs of the three API calls. *)
Definition nftUrl (api identifier : string) : string :=
  api +:+ "/nfts/" +:+ identifier.

Definition nftsUrl (api : string) (identifiers : list string) : string :=
  api +:+ "/nfts?identifiers=" +:+ Text.join identifiers +:+ "&withSupply=true".

Definition ownedUrl (api address collection : string) : string :=
  api +:+ "/accounts/" +:+ address +:+ "/nfts?size=10000&collections="
  +:+ collection +:+ "&withSupply=true".

Definition get (url : string) : Request := {| url := url; config := None |}.

End FactorySpec.

(** ** The state and the clients the written fields stand for *)

Module Typed.

(** A property where a typed field can hold it: [undefined] is [None], and
    a member of [Object.prototype] is no value of the type. *)
Definition typed {A} (p : JsObject.Property A) : option (option A) :=
  match p with
  | JsObject.Own a => Some (Some a)
  | JsObject.Undefined => Some None
  | JsObject.Inherited _ => None
  end.

(** The static fields of [DataNft] as its methods read them; there is none
    when a table gave a member of [Object.prototype]. *)
Definition statics (w : DataNftFactory.Written) : option DataNft.Static :=
  network ← typed (DataNftFactory.w_networkConfiguration w);
  api ← typed (DataNftFactory.w_apiConfiguration w);
  Some {| DataNft.env := Some (DataNftFactory.w_env w);
          DataNft.networkConfiguration := network;
          DataNft.apiConfiguration := api |}.

(** The clients as their methods read them; there is none when the chain
    id or the image service URL is no text. *)
Definition market (fields : Construction.MarketFields)
  : option DataNftMarket.t :=
  chainID ← Construction.market_chainID fields;
  Some {| DataNftMarket.contract := Construction.market_contract fields;
          DataNftMarket.chainID := chainID;
          DataNftMarket.env := Construction.market_env fields |}.

Definition minter (fields : Construction.MinterFields) : option Minter.t :=
  chainID ← Construction.minter_chainID fields;
  match Construction.minter_imageServiceUrl fields with
  | JsObject.Own imageServiceUrl =>
      Some {| Minter.contract := Construction.minter_contract fields;
              Minter.chainID := chainID;
              Minter.env := Construction.minter_env fields;
              Minter.imageServiceUrl := imageServiceUrl |}
  | _ => None
  end.

End Typed.

(** ** Example collaborators of the factory methods *)

Module FactoryExamples.

Import DataNftFactory.

(** The enum and the tables, object literals of three environments. *)
Definition EnvironmentsEnum : gmap string string :=
  {[ "devnet" := "devnet"; "mainnet" := "mainnet"; "testnet" := "testnet" ]}.

Definition networkConfiguration : gmap string DataNft.Config :=
  {[ "devnet" := {| DataNft.chainID := "D";
                    DataNft.networkProvider := "https://devnet-api.example" |};
     "mainnet" := {| DataNft.chainID := "1";
                     DataNft.networkProvider := "https://api.example" |};
     "testnet" := {| DataNft.chainID := "T";
                     DataNft.networkProvider := "https://testnet-api.example" |} ]}.

Definition apiConfiguration : gmap string string :=
  {[ "devnet" := "https://devnet-api.example";
     "mainnet" := "https://api.example";
     "testnet" := "https://testnet-api.example" ]}.

Definition marketPlaceContractAddress : gmap string string :=
  {[ "devnet" := "erd1qqqqqqqqqqqqqpgqmarket";
     "mainnet" := "erd1qqqqqqqqqqqqqpgqmarket1";
     "testnet" := "erd1qqqqqqqqqqqqqpgqmarkett" ]}.

Definition minterContractAddress : gmap string string :=
  {[ "devnet" := "erd1qqqqqqqqqqqqqpgqminter";
     "mainnet" := "erd1qqqqqqqqqqqqqpgqminter1";
     "testnet" := "erd1qqqqqqqqqqqqqpgqmintert" ]}.

Definition imageService : gmap string string :=
  {[ "devnet" := "https://image.example";
     "mainnet" := "https://image1.example";
     "testnet" := "https://imaget.example" ]}.

(** An address library that takes any text and nothing else. *)
Definition newAddress (value : JsObject.Property string) : Exc Address :=
  match value with
  | JsObject.Own text => Return (mkAddress text)
  | JsObject.Inherited _ => Throw (Error "ErrAddressCannotCreate")
  | JsObject.Undefined => Return (mkAddress "")
  end.

Definition dataNftTokenIdentifier (env : string) : string :=
  if String.eqb env "devnet" then "DATANFTFT-e0b917" else "DATANFTFT-e936d4".

Definition createNftIdentifier (collection : string) (nonce : Z) : string :=
  collection +:+ "-" +:+ Text.ofNumber nonce.

(** API records by their identifier; the record ["broken"] does not
    parse. *)
Definition named (identifier : string) : DataNft.t :=
  {| DataNft.tokenIdentifier := identifier;
     DataNft.nftImgUrl := "";
     DataNft.dataPreview := "";
     DataNft.dataStream := "";
     DataNft.dataMarshal := "https://marshal.example/v1";
     DataNft.tokenName := "";
     DataNft.creator := "";
     DataNft.creationTime := DataNft.mkDate 0;
     DataNft.supply := 0;
     DataNft.description := "";
     DataNft.title := "";
     DataNft.royalties := 0;
     DataNft.nonce := 0;
     DataNft.collection := "";
     DataNft.balance := 0 |}.

Definition parseDataNft (nft : string) : Exc DataNft.t :=
  if String.eqb nft "broken"
  then Throw (ErrAttributeNotSet "attributes")
  else Return (named nft).

Definition classMessage (e : Exception) : string :=
  match e with
  | ErrAttributeNotSet name => "Attribute " +:+ name +:+ " is not set"
  | _ => ""
  end.

Definition jsonNft (_ : Response) : Exc string := Return "DATANFTFT-e0b917-05".

(** The API answers any bulk request with three records. *)
Definition jsonNfts (_ : Response) : Exc (list string) :=
  Return ["a"; "b"; "c"].

Definition jsonPayload (_ : Response) : Exc (Payload string) :=
  Return (Many string ["a"; "broken"; "c"]).

Definition tokens : list TokenRef :=
  [{| ref_nonce := 5; ref_tokenIdentifier := None |};
   {| ref_nonce := 7; ref_tokenIdentifier := Some "" |};
   {| ref_nonce := 9; ref_tokenIdentifier := Some "OTHER-123456" |}].

End FactoryExamples.

(** ** The access URL of the native-auth flow *)

Module NativeAuthSpec.

(** The header keys the native-auth flow names in its URL: those given,
    when the lookup map has an entry. *)
Definition sentKeys (p : DataNft.NativeAuthArgs) : option string :=
  match DataNft.na_fwdHeaderMapLookup p with
  | Some lookup => if decide (lookup = ∅) then None else DataNft.na_fwdHeaderKeys p
  | None => None
  end.

Definition nativeAuthUrl (dataMarshal collection paddedNonce chainId
                          origins : string) (p : DataNft.NativeAuthArgs)
  : string :=
  dataMarshal +:+ "/access?NFTId=" +:+ collection +:+ "-" +:+ paddedNonce
  +:+ "&chainId=" +:+ chainId
  +:+ "&mvxNativeAuthEnable=1&mvxNativeAuthMaxExpirySeconds="
  +:+ DataNft.template Text.ofNumber (DataNft.mvxNativeAuthMaxExpirySeconds p)
  +:+ "&mvxNativeAuthOrigins=" +:+ origins
  +:+ AccessSpec.flags (DataNft.na_stream p) (DataNft.na_fwdAllHeaders p)
        (DataNft.na_nestedIdxToStream p)
  +:+ AccessSpec.keysFlag (sentKeys p).

(** The text that is encoded: the origins joined by commas, trimmed, with
    every space taken out. *)
Definition originsText (origins : list string) : string :=
  Text.removeSpaces (Text.trim (Text.join origins)).

End NativeAuthSpec.

(** ** The JavaScript number of a decoded integer *)

Module NumberSpec.

(** An integer a double holds exactly: a significand of at most 53 bits
    times a power of two (the largest exponent apart). *)
Definition representable (d : Z) : Prop :=
  exists significand exponent : Z,
    (0 <= exponent)%Z /\ (Z.abs significand <= 2 ^ 53)%Z
    /\ d = (significand * 2 ^ exponent)%Z.

(** [d] is a double nearest to [n]. *)
Definition nearest (n d : Z) : Prop :=
  representable d
  /\ forall d', representable d' -> (Z.abs (n - d) <= Z.abs (n - d'))%Z.

End NumberSpec.

(** * Properties *)

(** ** Payloads *)

(** C2. [addOffer(sender, "DATA-X", 0, 1, "USDC-1", 0, 100, 50)] is a
    transaction of value 0 from the sender to the sender, whose payload is
    the [ESDTNFTTransfer] call with the ten arguments token, nonce, amount,
    marketplace address, ["addOffer"], payment token, payment nonce, payment
    amount, minimum amount and quantity, the quantity being the Data NFT
    amount; and an [addOffer] whose minimum payment amount is left out is
    the [addOffer] with minimum 0, in every call. *)
Theorem addOffer_wrapped_call :
  (forall (this : DataNftMarket.t) (senderAddress : Address),
      DataNftMarket.addOffer this senderAddress "DATA-X" 0 1 "USDC-1" 0 100 (Some 50)
      = {| value := Some (BnNum 0);
           data :=
             call "ESDTNFTTransfer"
               [TokenIdentifierValue "DATA-X"; U64Value 0; BigUIntValue (BnNum 1);
                AddressValue (DataNftMarket.getContractAddress this);
                StringValue "addOffer"; TokenIdentifierValue "USDC-1";
                U64Value 0; U64Value 100; U64Value 50; BigUIntValue (BnNum 1)];
           receiver := senderAddress;
           sender := senderAddress;
           gasLimit := 12000000;
           chainID := DataNftMarket.chainID this |})
  /\ (forall this senderAddress token nonce amount payToken payNonce payAmount,
         DataNftMarket.addOffer this senderAddress token nonce amount
           payToken payNonce payAmount None
         = DataNftMarket.addOffer this senderAddress token nonce amount
             payToken payNonce payAmount (Some 0)
         /\ callArgs (data (DataNftMarket.addOffer this senderAddress token
                              nonce amount payToken payNonce payAmount None))
              !! 8%nat = Some (U64Value 0))
  /\ (forall this senderAddress token nonce amount payToken payNonce payAmount
             minAmount,
         callArgs (data (DataNftMarket.addOffer this senderAddress token nonce
                           amount payToken payNonce payAmount minAmount))
           !! 9%nat = Some (BigUIntValue (BnNum amount))).
Proof.
  split; [|split]; intros; try split; reflexivity.
Qed.

Section MintPayload.

Variable itheumTokenIdentifier : string -> string.
Variable validateSpecificParamsMint :
  Minter.MintValidationParams -> Minter.MintValidationResult.
Variable checkUrlIsUp : string -> list Z -> Exc unit.
Variable checkTraitsUrl : string -> Exc unit.
Variable File : Type.
Variable advertiseSft : string -> string -> string -> Exc Minter.Advertised.
Variable advertiseDataNft : string -> string -> Exc Minter.Advertised.
Variable createFileFromUrl :
  string -> string -> string -> string -> string -> Exc (File * File).
Variable storeToIpfs : string -> File -> File -> Exc Minter.Stored.

Let sftAssets :=
  SftMinter.mintAssets validateSpecificParamsMint checkUrlIsUp checkTraitsUrl
    File advertiseSft createFileFromUrl storeToIpfs.
Let sftMint :=
  SftMinter.mint itheumTokenIdentifier validateSpecificParamsMint checkUrlIsUp
    checkTraitsUrl File advertiseSft createFileFromUrl storeToIpfs.
Let dataNftAssets :=
  DataNftMinter.mintAssets validateSpecificParamsMint checkUrlIsUp
    checkTraitsUrl File advertiseDataNft createFileFromUrl storeToIpfs.
Let dataNftMint :=
  DataNftMinter.mint itheumTokenIdentifier validateSpecificParamsMint
    checkUrlIsUp checkTraitsUrl File advertiseDataNft createFileFromUrl
    storeToIpfs.

Let expected := MintSpec.expectedTransaction itheumTokenIdentifier.

(** C1 (amended). For every valid mint input, of either minter class, the
    transaction is addressed to the minter contract.  With a tax of 0 its
    payload is the bare [mint] call with the ten logical arguments; with a
    tax above 0 it is the [ESDTTransfer] call with the tax token, the tax
    and ["mint"] in front of the same ten arguments. *)
Theorem mint_payload_by_tax :
  forall this senderAddress tokenName dataMarshalUrl dataStreamUrl
         dataPreviewUrl royalties supply datasetTitle datasetDescription
         antiSpamTax options imageUrl metadataUrl encrypted,
    let arguments :=
      MintSpec.mintArguments tokenName imageUrl metadataUrl dataMarshalUrl
        encrypted dataPreviewUrl royalties supply datasetTitle
        datasetDescription in
    (sftAssets this senderAddress tokenName dataMarshalUrl dataStreamUrl
       dataPreviewUrl royalties supply datasetTitle datasetDescription
       antiSpamTax options = Return (imageUrl, metadataUrl, encrypted) ->
     sftMint this senderAddress tokenName dataMarshalUrl dataStreamUrl
       dataPreviewUrl royalties supply datasetTitle datasetDescription
       antiSpamTax options
     = Return (expected this senderAddress antiSpamTax options arguments))
    /\ (dataNftAssets this senderAddress tokenName dataMarshalUrl dataStreamUrl
          dataPreviewUrl royalties supply datasetTitle datasetDescription
          antiSpamTax options = Return (imageUrl, metadataUrl, encrypted) ->
        dataNftMint this senderAddress tokenName dataMarshalUrl dataStreamUrl
          dataPreviewUrl royalties supply datasetTitle datasetDescription
          antiSpamTax options
        = Return (expected this senderAddress antiSpamTax options arguments)).
Proof.
  intros this senderAddress tokenName dataMarshalUrl dataStreamUrl
    dataPreviewUrl royalties supply datasetTitle datasetDescription
    antiSpamTax options imageUrl metadataUrl encrypted arguments.
  assert (Htok : default (itheumTokenIdentifier (Minter.env this))
                   (Minter.antiSpamTokenIdentifier (Minter.orEmpty options))
                 = MintSpec.taxToken itheumTokenIdentifier this options).
  { destruct options as [[? ? ? [tok|]]|]; reflexivity. }
  split; intros Hassets.
  - unfold sftMint, SftMinter.mint. fold sftAssets. rewrite Hassets. cbn.
    rewrite Htok. unfold expected, MintSpec.expectedTransaction.
    destruct (0 <? antiSpamTax)%Z; reflexivity.
  - unfold dataNftMint, DataNftMinter.mint. fold dataNftAssets.
    rewrite Hassets. cbn. rewrite Htok.
    unfold expected, MintSpec.expectedTransaction.
    destruct (0 <? antiSpamTax)%Z; reflexivity.
Qed.

End MintPayload.

(** With a tax of 5 the SFT minter wraps the call and sends it to the
    contract; with no tax the first minter class calls [mint] directly. *)
Lemma mint_payload_by_tax_witness :
  Examples.sftMint 5
  = Return {| value := None;
              data := call "ESDTTransfer"
                        (MintSpec.transferFields "ITHEUM-a61317" 5
                         ++ Examples.mintArguments);
              sender := Examples.alice;
              receiver := getAddress (Minter.contract Examples.minter);
              gasLimit := 60000000;
              chainID := "D" |}
  /\ Examples.dataNftMint 0
     = Return {| value := None;
                 data := call "mint" Examples.mintArguments;
                 sender := Examples.alice;
                 receiver := getAddress (Minter.contract Examples.minter);
                 gasLimit := 60000000;
                 chainID := "D" |}.
Proof.
  split.
  - apply (proj1 (mint_payload_by_tax Examples.itheumTokenIdentifier
                    Examples.validMint Examples.urlIsUp Examples.traitsOk unit
                    Examples.advertise3 Examples.advertise2
                    Examples.fileFromUrl Examples.store Examples.minter
                    Examples.alice "TOKEN" "https://marshal.example"
                    "https://stream.example" "https://preview.example" 10 5
                    "A data set" "Its description" 5 Examples.customImage
                    "https://img.example/a.png" "https://img.example/a.json"
                    "encrypted")).
    reflexivity.
  - apply (proj2 (mint_payload_by_tax Examples.itheumTokenIdentifier
                    Examples.validMint Examples.urlIsUp Examples.traitsOk unit
                    Examples.advertise3 Examples.advertise2
                    Examples.fileFromUrl Examples.store Examples.minter
                    Examples.alice "TOKEN" "https://marshal.example"
                    "https://stream.example" "https://preview.example" 10 5
                    "A data set" "Its description" 0 Examples.customImage
                    "https://img.example/a.png" "https://img.example/a.json"
                    "encrypted")).
    reflexivity.
Defined.

(** C1 as stated fails: a mint with a tax of 5 succeeds, and its receiver is
    the minter contract, not the tax token. *)
Lemma mint_receiver_is_not_the_tax_token :
  match Examples.sftMint 5 with
  | Return tx =>
      receiver tx = getAddress (Minter.contract Examples.minter)
      /\ receiver tx <> mkAddress (Examples.itheumTokenIdentifier "devnet")
  | Throw _ => False
  end.
Proof. vm_compute. split; [reflexivity | discriminate]. Qed.

(** ** Attributes *)

(** C9. [decodeAttributes] either returns the record of the seven fields
    dataPreview, dataStream, dataMarshal, creator, creationTime, description
    and title, taken from the decoded struct, with [creationTime] the date
    at [creation_time * 1000] milliseconds; or, when the decoding fails,
    it raises the attribute-decode error that carries the message of the
    cause.  There is no third outcome. *)
Theorem decodeAttributes_all_or_error :
  forall (classMessage : Exception -> string)
         (decodeTopLevel : JsVal -> Exc DataNft.DataNftAttributes)
         (attributes : JsVal),
    (exists a,
        decodeTopLevel attributes = Return a
        /\ DataNft.decodeAttributes classMessage decodeTopLevel attributes
           = Return {| DataNft.dec_dataPreview := DataNft.data_preview_url a;
                       DataNft.dec_dataStream := DataNft.data_stream_url a;
                       DataNft.dec_dataMarshal := DataNft.data_marshal_url a;
                       DataNft.dec_creator := bech32 (DataNft.attr_creator a);
                       DataNft.dec_creationTime :=
                         DataNft.mkDate (DataNft.creation_time a * 1000);
                       DataNft.dec_description := DataNft.attr_description a;
                       DataNft.dec_title := DataNft.attr_title a |})
    \/ (exists cause,
           decodeTopLevel attributes = Throw cause
           /\ DataNft.decodeAttributes classMessage decodeTopLevel attributes
              = Throw (ErrDecodeAttributes
                         (DataNft.message classMessage cause))).
Proof.
  intros classMessage decodeTopLevel attributes.
  unfold DataNft.decodeAttributes.
  destruct (decodeTopLevel attributes) as [a|cause] eqn:Hdecode.
  - left. exists a. split; reflexivity.
  - right. exists cause. split; reflexivity.
Qed.

(** ** Data Marshal flows *)

Lemma append_assoc (a b c : string) : (a +:+ b) +:+ c = a +:+ b +:+ c.
Proof.
  induction a as [|x a IH]; [reflexivity|].
  change (String x ((a +:+ b) +:+ c) = String x (a +:+ b +:+ c)).
  now rewrite IH.
Qed.

Lemma marshalChainId_spec (configured : string) :
  MarshalSpec.marshalParameter configured (DataNft.marshalChainId configured).
Proof.
  unfold DataNft.marshalChainId.
  destruct (String.eqb configured "D") eqn:E.
  - apply String.eqb_eq in E. now constructor.
  - apply String.eqb_neq in E. now constructor.
Qed.

Ltac io_unfold :=
  unfold run, mbind, mret, IO_bind, IO_ret, io_bind, io_ret, io_try, lift,
    throw, fetch, DataNft.failed in *.

Lemma prop_lookup (m : gmap string JsVal) k v : m !! k = Some v -> prop m k = v.
Proof. unfold prop. now intros ->. Qed.

(** Copying every entry of the lookup map gives the lookup map. *)
Lemma forwardAll_empty (lookup : gmap string JsVal) :
  DataNft.forwardAll lookup ∅ = lookup.
Proof.
  unfold DataNft.forwardAll.
  enough (H : forall m : gmap string JsVal,
             forall k, map_fold (fun headerKey (_ : JsVal) hs =>
                                   <[headerKey := prop lookup headerKey]> hs)
                                (∅ : gmap string JsVal) m !! k
                       = (m !! k) ≫= (fun _ => Some (prop lookup k))).
  { apply map_eq. intros k. rewrite H.
    destruct (lookup !! k) as [v|] eqn:E; [|reflexivity].
    cbn. now rewrite (prop_lookup _ _ _ E). }
  intros m.
  apply (map_fold_weak_ind
           (fun (r : gmap string JsVal) (m : gmap string JsVal) =>
              forall k, r !! k = (m !! k) ≫= (fun _ => Some (prop lookup k)))).
  - intros k. now rewrite !lookup_empty.
  - intros i x m' r Hnone IH k.
    destruct (decide (i = k)) as [->|Hne].
    + now rewrite !lookup_insert_eq.
    + rewrite !lookup_insert_ne by assumption. apply IH.
Qed.

(** Copying every entry but [authorization] on top of the [authorization]
    header gives the lookup map with that header set. *)
Lemma forwardOthers_authorization (lookup : gmap string JsVal) :
  DataNft.forwardOthers lookup
    (<["authorization" := prop lookup "authorization"]> ∅)
  = <["authorization" := prop lookup "authorization"]> lookup.
Proof.
  unfold DataNft.forwardOthers.
  set (auth := prop lookup "authorization").
  enough (H : forall m : gmap string JsVal,
             forall k,
               map_fold (fun headerKey (_ : JsVal) hs =>
                           if negb (String.eqb headerKey "authorization")
                           then <[headerKey := prop lookup headerKey]> hs
                           else hs)
                        (<["authorization" := auth]> (∅ : gmap string JsVal)) m
               !! k
               = if decide (k = "authorization") then Some auth
                 else (m !! k) ≫= (fun _ => Some (prop lookup k))).
  { apply map_eq. intros k. rewrite H.
    destruct (decide (k = "authorization")) as [->|Hne].
    - now rewrite lookup_insert_eq.
    - rewrite lookup_insert_ne by congruence.
      destruct (lookup !! k) as [v|] eqn:E; [|reflexivity].
      cbn. now rewrite (prop_lookup _ _ _ E). }
  intros m.
  apply (map_fold_weak_ind
           (fun (r : gmap string JsVal) (m : gmap string JsVal) =>
              forall k, r !! k
                        = if decide (k = "authorization") then Some auth
                          else (m !! k) ≫= (fun _ => Some (prop lookup k)))).
  - intros k. destruct (decide (k = "authorization")) as [->|Hne].
    + now rewrite lookup_insert_eq.
    + rewrite lookup_insert_ne by congruence. now rewrite !lookup_empty.
  - intros i x m' r Hnone IH k.
    destruct (String.eqb i "authorization") eqn:E; cbn.
    + apply String.eqb_eq in E. subst i. rewrite IH.
      destruct (decide (k = "authorization")) as [->|Hne]; [reflexivity|].
      now rewrite lookup_insert_ne by congruence.
    + apply String.eqb_neq in E.
      destruct (decide (i = k)) as [->|Hne].
      * rewrite !lookup_insert_eq. now destruct (decide (k = "authorization")).
      * rewrite !lookup_insert_ne by assumption. apply IH.
Qed.

Lemma size_positive (m : gmap string JsVal) :
  (0 <? size m)%nat = true <-> m <> ∅.
Proof.
  rewrite Nat.ltb_lt. split.
  - intros H ->. rewrite map_size_empty in H. lia.
  - intros H. destruct (size m) eqn:E; [|lia].
    now apply map_size_empty_iff in E.
Qed.

Section MarshalFlows.

Variable classMessage classToString : Exception -> string.
Variable validate : DataNft.ValidationParams -> DataNft.ValidationResult.
Variable checkStatus : Response -> Exc unit.
Variable numberToPaddedHex : Z -> string.
Variable addressHex : Address -> string.
Variable btoa : string -> Exc string.
Variable json : Response -> Exc (gmap string JsVal).
Variable net : Request -> Exc Response.

Let getMessageToSign := DataNft.getMessageToSign checkStatus json net.
Let viewData :=
  DataNft.viewData classMessage classToString validate checkStatus
    numberToPaddedHex addressHex net.
Let viewDataViaMVXNativeAuth :=
  DataNft.viewDataViaMVXNativeAuth classMessage classToString validate
    checkStatus numberToPaddedHex btoa net.

Lemma appendStream_prefix o a b :
  DataNft.appendStream o (a +:+ b) = a +:+ DataNft.appendStream o b.
Proof. destruct o; cbn; [apply append_assoc | reflexivity]. Qed.

Lemma appendFwdAllHeaders_prefix o a b :
  DataNft.appendFwdAllHeaders o (a +:+ b)
  = a +:+ DataNft.appendFwdAllHeaders o b.
Proof. destruct o; cbn; [apply append_assoc | reflexivity]. Qed.

Lemma appendNestedIdx_prefix o a b :
  DataNft.appendNestedIdx o (a +:+ b) = a +:+ DataNft.appendNestedIdx o b.
Proof. destruct o; cbn; [apply append_assoc | reflexivity]. Qed.

Lemma access_run url cfg log :
  exists r, DataNft.access classToString checkStatus net url cfg log
            = (r, (log ++ [mkRequest url (Some cfg)])%list).
Proof.
  unfold DataNft.access. io_unfold.
  destruct (net _) as [resp|e]; [|eauto].
  destruct (checkStatus resp); eauto.
Qed.

Lemma getMessageToSign_requests st this req :
  In req (snd (run (getMessageToSign st this))) ->
  exists c v,
    DataNft.networkConfiguration st = Some c
    /\ MarshalSpec.marshalParameter (DataNft.chainID c) v
    /\ url req = DataNft.dataMarshal this +:+ "/preaccess?chainId=" +:+ v.
Proof.
  unfold getMessageToSign, DataNft.getMessageToSign. io_unfold.
  destruct (DataNft.ensureNetworkConfigSet st); [|intros []].
  destruct (negb (truthy (DataNft.dataMarshal this))); [intros []|].
  unfold DataNft.configuredChainID.
  destruct (DataNft.networkConfiguration st) as [c|]; [|intros []].
  exists c, (DataNft.marshalChainId (DataNft.chainID c)).
  split; [reflexivity|]. split; [apply marshalChainId_spec|].
  destruct (net _) as [resp|e]; [destruct (checkStatus resp); [destruct (json resp)|]|];
    cbn in H; destruct H as [<-|[]]; reflexivity.
Qed.

Lemma viewData_requests st this p req :
  In req (snd (run (viewData st this p))) ->
  exists c v rest,
    DataNft.networkConfiguration st = Some c
    /\ MarshalSpec.marshalParameter (DataNft.chainID c) v
    /\ url req =
         DataNft.dataMarshal this +:+ "/access?nonce="
         +:+ DataNft.template id (DataNft.signedMessage p)
         +:+ "&NFTId=" +:+ DataNft.collection this +:+ "-"
         +:+ numberToPaddedHex (DataNft.nonce this)
         +:+ "&signature="
         +:+ DataNft.sr_signature
               (DataNft.extractSignature classToString addressHex
                  (DataNft.signableMessage p))
         +:+ "&chainId=" +:+ v +:+ "&accessRequesterAddr=" +:+ rest.
Proof.
  unfold viewData, DataNft.viewData. io_unfold.
  destruct (DataNft.ensureNetworkConfigSet st); [|intros []].
  destruct (negb (truthy (DataNft.dataMarshal this))); [intros []|].
  destruct (negb (DataNft.allPassed _)); [intros []|].
  unfold DataNft.configuredChainID.
  destruct (DataNft.networkConfiguration st) as [c|]; [|intros []].
  rewrite !appendStream_prefix, !appendFwdAllHeaders_prefix,
    !appendNestedIdx_prefix.
  destruct (DataNft.fwdHeaderKeys p) as [keys|];
    match goal with
    | |- context [DataNft.access _ _ _ ?u ?cfg []] =>
        destruct (access_run u cfg []) as [r ->];
        intros Hin;
        (assert (exists cf, req = mkRequest u (Some cf)) as [cf ->]
          by (destruct r; cbn in Hin; destruct Hin as [<-|[]]; eauto))
    end;
    exists c, (DataNft.marshalChainId (DataNft.chainID c));
    cbn [url]; rewrite ?append_assoc; eexists;
    (split; [reflexivity|]); (split; [apply marshalChainId_spec|]);
    reflexivity.
Qed.

Lemma nativeAuth_requests st this p req :
  In req (snd (run (viewDataViaMVXNativeAuth st this p))) ->
  exists c v rest,
    DataNft.networkConfiguration st = Some c
    /\ MarshalSpec.marshalParameter (DataNft.chainID c) v
    /\ url req =
         DataNft.dataMarshal this +:+ "/access?NFTId="
         +:+ DataNft.collection this +:+ "-"
         +:+ numberToPaddedHex (DataNft.nonce this)
         +:+ "&chainId=" +:+ v
         +:+ "&mvxNativeAuthEnable=1&mvxNativeAuthMaxExpirySeconds=" +:+ rest.
Proof.
  unfold viewDataViaMVXNativeAuth, DataNft.viewDataViaMVXNativeAuth. io_unfold.
  destruct (negb (DataNft.allPassed _)); [intros []|].
  destruct (DataNft.mvxNativeAuthOrigins p) as [origins|]; [|intros []].
  destruct (btoa _) as [b64|]; [|intros []].
  unfold DataNft.configuredChainID.
  destruct (DataNft.networkConfiguration st) as [c|]; [|intros []].
  rewrite !appendStream_prefix, !appendFwdAllHeaders_prefix,
    !appendNestedIdx_prefix.
  destruct (DataNft.na_fwdHeaderMapLookup p) as [lookup|];
    [destruct (0 <? size lookup)%nat;
     [destruct (DataNft.na_fwdHeaderKeys p) as [keys|]|]|];
    match goal with
    | |- context [DataNft.access _ _ _ ?u ?cfg []] =>
        destruct (access_run u cfg []) as [r ->];
        intros Hin;
        (assert (exists cf, req = mkRequest u (Some cf)) as [cf ->]
          by (destruct r; cbn in Hin; destruct Hin as [<-|[]]; eauto))
    end;
    exists c, (DataNft.marshalChainId (DataNft.chainID c));
    cbn [url]; rewrite ?append_assoc; eexists;
    (split; [reflexivity|]); (split; [apply marshalChainId_spec|]);
    reflexivity.
Qed.

Lemma access_eq url cfg log :
  DataNft.access classToString checkStatus net url cfg log
  = (match net (mkRequest url (Some cfg)) with
     | Return resp =>
         match checkStatus resp with
         | Return _ =>
             Return {| DataNft.data := Some (blob resp);
                       DataNft.vd_contentType := default "" (contentType resp);
                       DataNft.error := None |}
         | Throw e =>
             Throw (Error (MarshalSpec.marshalError
                             (DataNft.toString classToString e)
                             (text (blob resp))))
         end
     | Throw e => Throw e
     end, (log ++ [mkRequest url (Some cfg)])%list).
Proof.
  unfold DataNft.access. io_unfold.
  destruct (net _) as [resp|e]; [|reflexivity].
  destruct (checkStatus resp); reflexivity.
Qed.

(** The header set of the signature flow. *)
Lemma viewData_headers st this p req :
  In req (snd (run (viewData st this p))) ->
  exists hs,
    config req = Some {| method := "GET"; headers := hs |}
    /\ (forall keys lookup,
           DataNft.fwdHeaderKeys p = Some keys ->
           DataNft.fwdHeaderMapLookup p = Some lookup ->
           lookup <> ∅ -> hs = Some lookup)
    /\ (DataNft.fwdHeaderKeys p = None -> hs = None).
Proof.
  unfold viewData, DataNft.viewData. io_unfold.
  destruct (DataNft.ensureNetworkConfigSet st); [|intros []].
  destruct (negb (truthy (DataNft.dataMarshal this))); [intros []|].
  destruct (negb (DataNft.allPassed _)); [intros []|].
  destruct (DataNft.configuredChainID st) as [chain|]; [|intros []].
  destruct (DataNft.fwdHeaderKeys p) as [keys|];
    rewrite access_eq; cbn [fst snd app];
    match goal with
    | |- context [match ?m with Return _ => _ | Throw _ => _ end] =>
        destruct m; cbn [snd]
    end;
    intros [<-|[]]; cbn [config]; eexists; (split; [reflexivity|]);
    (split; [|congruence]); intros keys' lookup Hk Hl Hne;
    try discriminate; rewrite Hl; apply size_positive in Hne; rewrite Hne;
    now rewrite forwardAll_empty.
Qed.

(** The header set of the native-auth flow. *)
Lemma nativeAuth_headers st this p req lookup :
  In req (snd (run (viewDataViaMVXNativeAuth st this p))) ->
  DataNft.na_fwdHeaderMapLookup p = Some lookup ->
  lookup <> ∅ ->
  config req
  = Some {| method := "GET";
            headers :=
              Some (<["authorization" := prop lookup "authorization"]>
                      (match DataNft.na_fwdHeaderKeys p with
                       | Some _ => lookup
                       | None => ∅
                       end)) |}.
Proof.
  unfold viewDataViaMVXNativeAuth, DataNft.viewDataViaMVXNativeAuth. io_unfold.
  intros Hin Hl Hne. revert Hin. rewrite Hl.
  apply size_positive in Hne. rewrite Hne.
  destruct (negb (DataNft.allPassed _)); [intros []|].
  destruct (DataNft.mvxNativeAuthOrigins p) as [origins|]; [|intros []].
  destruct (btoa _) as [b64|]; [|intros []].
  destruct (DataNft.configuredChainID st) as [chain|]; [|intros []].
  destruct (DataNft.na_fwdHeaderKeys p) as [keys|];
    rewrite access_eq; cbn [fst snd app];
    match goal with
    | |- context [match ?m with Return _ => _ | Throw _ => _ end] =>
        destruct m; cbn [snd]
    end;
    intros [<-|[]]; cbn [config]; rewrite ?forwardOthers_authorization;
    reflexivity.
Qed.

(** A failing status of the marshal, in either flow, is returned as the
    failure record with the combined message. *)
Lemma viewData_marshal_failure st this p req resp e :
  In req (snd (run (viewData st this p))) ->
  net req = Return resp ->
  checkStatus resp = Throw e ->
  fst (run (viewData st this p))
  = Return (MarshalSpec.failure
              (MarshalSpec.marshalError (DataNft.toString classToString e)
                 (text (blob resp)))).
Proof.
  unfold viewData, DataNft.viewData. io_unfold.
  destruct (DataNft.ensureNetworkConfigSet st); [|intros []].
  destruct (negb (truthy (DataNft.dataMarshal this))); [intros []|].
  destruct (negb (DataNft.allPassed _)); [intros []|].
  destruct (DataNft.configuredChainID st) as [chain|]; [|intros []].
  destruct (DataNft.fwdHeaderKeys p) as [keys|];
    rewrite access_eq; cbn [fst snd app];
    match goal with
    | |- context [match net ?r with Return _ => _ | Throw _ => _ end] =>
        destruct (net r) as [resp'|e'] eqn:Hnet; cbn [snd fst];
        [destruct (checkStatus resp') as [|e''] eqn:Hcheck; cbn [snd fst]|]
    end;
    intros [<-|[]] Hnet' Hcheck';
    rewrite Hnet in Hnet'; inversion Hnet'; subst;
    rewrite Hcheck in Hcheck'; inversion Hcheck'; subst; reflexivity.
Qed.

Lemma nativeAuth_marshal_failure st this p req resp e :
  In req (snd (run (viewDataViaMVXNativeAuth st this p))) ->
  net req = Return resp ->
  checkStatus resp = Throw e ->
  fst (run (viewDataViaMVXNativeAuth st this p))
  = Return (MarshalSpec.failure
              (MarshalSpec.marshalError (DataNft.toString classToString e)
                 (text (blob resp)))).
Proof.
  unfold viewDataViaMVXNativeAuth, DataNft.viewDataViaMVXNativeAuth. io_unfold.
  destruct (negb (DataNft.allPassed _)); [intros []|].
  destruct (DataNft.mvxNativeAuthOrigins p) as [origins|]; [|intros []].
  destruct (btoa _) as [b64|]; [|intros []].
  destruct (DataNft.configuredChainID st) as [chain|]; [|intros []].
  destruct (DataNft.na_fwdHeaderMapLookup p) as [lookup|];
    [destruct (0 <? size lookup)%nat;
     [destruct (DataNft.na_fwdHeaderKeys p) as [keys|]|]|];
    rewrite access_eq; cbn [fst snd app];
    match goal with
    | |- context [match net ?r with Return _ => _ | Throw _ => _ end] =>
        destruct (net r) as [resp'|e'] eqn:Hnet; cbn [snd fst];
        [destruct (checkStatus resp') as [|e''] eqn:Hcheck; cbn [snd fst]|]
    end;
    intros [<-|[]] Hnet' Hcheck';
    rewrite Hnet in Hnet'; inversion Hnet'; subst;
    rewrite Hcheck in Hcheck'; inversion Hcheck'; subst; reflexivity.
Qed.

Lemma nativeAuth_validation_failure st this p :
  DataNft.allPassed (validate (MarshalSpec.nativeAuthParams p)) = false ->
  run (viewDataViaMVXNativeAuth st this p)
  = (Return (MarshalSpec.failure
               (MarshalSpec.validationError
                  (DataNft.validationMessages
                     (validate (MarshalSpec.nativeAuthParams p))))), []).
Proof.
  intros Hv.
  unfold viewDataViaMVXNativeAuth, DataNft.viewDataViaMVXNativeAuth. io_unfold.
  fold (MarshalSpec.nativeAuthParams p). now rewrite Hv.
Qed.

Ltac outcome_cases :=
  repeat match goal with
         | |- context [match net ?r with Return _ => _ | Throw _ => _ end] =>
             destruct (net r) as [?resp|?e]
         | |- context [match checkStatus ?r with Return _ => _ | Throw _ => _ end] =>
             destruct (checkStatus r) as [|?e]
         end;
  cbn; eexists; (split; [reflexivity|]); unfold MarshalSpec.failure; eauto.

Lemma nativeAuth_never_throws st this p :
  exists o, fst (run (viewDataViaMVXNativeAuth st this p)) = Return o
            /\ MarshalSpec.isOutcome o.
Proof.
  unfold MarshalSpec.isOutcome.
  unfold viewDataViaMVXNativeAuth, DataNft.viewDataViaMVXNativeAuth. io_unfold.
  destruct (negb (DataNft.allPassed _)); [outcome_cases|].
  destruct (DataNft.mvxNativeAuthOrigins p) as [origins|]; [|outcome_cases].
  destruct (btoa _) as [b64|]; [|outcome_cases].
  destruct (DataNft.configuredChainID st) as [chain|]; [|outcome_cases].
  destruct (DataNft.na_fwdHeaderMapLookup p) as [lookup|];
    [destruct (0 <? size lookup)%nat;
     [destruct (DataNft.na_fwdHeaderKeys p) as [keys|]|]|];
    rewrite access_eq; outcome_cases.
Qed.

Lemma viewData_validation_raises st this p :
  DataNft.ensureNetworkConfigSet st = Return tt ->
  truthy (DataNft.dataMarshal this) = true ->
  DataNft.allPassed (validate (MarshalSpec.viewDataParams p)) = false ->
  run (viewData st this p)
  = (Throw (Error (MarshalSpec.validationError
                     (DataNft.validationMessages
                        (validate (MarshalSpec.viewDataParams p))))), []).
Proof.
  intros Hcfg Hmarshal Hv.
  unfold viewData, DataNft.viewData. io_unfold.
  fold (MarshalSpec.viewDataParams p). now rewrite Hcfg, Hmarshal, Hv.
Qed.

Lemma viewData_after_validation st this p :
  DataNft.ensureNetworkConfigSet st = Return tt ->
  truthy (DataNft.dataMarshal this) = true ->
  DataNft.allPassed (validate (MarshalSpec.viewDataParams p)) = true ->
  exists o, fst (run (viewData st this p)) = Return o /\ MarshalSpec.isOutcome o.
Proof.
  intros Hcfg Hmarshal Hv. unfold MarshalSpec.isOutcome.
  unfold viewData, DataNft.viewData. io_unfold.
  fold (MarshalSpec.viewDataParams p). rewrite Hcfg, Hmarshal, Hv. cbn [negb].
  destruct (DataNft.configuredChainID st) as [chain|]; [|outcome_cases].
  destruct (DataNft.fwdHeaderKeys p) as [keys|];
    rewrite access_eq; outcome_cases.
Qed.

(** C3. Every request of [getMessageToSign], [viewData] and
    [viewDataViaMVXNativeAuth] carries the [chainId] parameter ["ED"] when
    the configured chain id is ["D"], and the configured chain id itself
    for every other value. *)
Theorem marshal_chain_id_parameter st this :
  (forall req,
      In req (snd (run (getMessageToSign st this))) ->
      exists c v,
        DataNft.networkConfiguration st = Some c
        /\ MarshalSpec.marshalParameter (DataNft.chainID c) v
        /\ url req = DataNft.dataMarshal this +:+ "/preaccess?chainId=" +:+ v)
  /\ (forall p req,
         In req (snd (run (viewData st this p))) ->
         exists c v rest,
           DataNft.networkConfiguration st = Some c
           /\ MarshalSpec.marshalParameter (DataNft.chainID c) v
           /\ url req =
                DataNft.dataMarshal this +:+ "/access?nonce="
                +:+ DataNft.template id (DataNft.signedMessage p)
                +:+ "&NFTId=" +:+ DataNft.collection this +:+ "-"
                +:+ numberToPaddedHex (DataNft.nonce this)
                +:+ "&signature="
                +:+ DataNft.sr_signature
                      (DataNft.extractSignature classToString addressHex
                         (DataNft.signableMessage p))
                +:+ "&chainId=" +:+ v +:+ "&accessRequesterAddr=" +:+ rest)
  /\ (forall p req,
         In req (snd (run (viewDataViaMVXNativeAuth st this p))) ->
         exists c v rest,
           DataNft.networkConfiguration st = Some c
           /\ MarshalSpec.marshalParameter (DataNft.chainID c) v
           /\ url req =
                DataNft.dataMarshal this +:+ "/access?NFTId="
                +:+ DataNft.collection this +:+ "-"
                +:+ numberToPaddedHex (DataNft.nonce this)
                +:+ "&chainId=" +:+ v
                +:+ "&mvxNativeAuthEnable=1&mvxNativeAuthMaxExpirySeconds="
                +:+ rest).
Proof.
  split; [|split].
  - intros req. apply getMessageToSign_requests.
  - intros p req. apply viewData_requests.
  - intros p req. apply nativeAuth_requests.
Qed.

(** C6. In the signature flow, when [fwdHeaderKeys] is set together with a
    non-empty header lookup map, whatever [fwdAllHeaders] is, the headers of
    the request are exactly the entries of the lookup map; when
    [fwdHeaderKeys] is absent the request has no headers, whatever
    [fwdAllHeaders] is. *)
Theorem viewData_forwards_exactly_the_lookup st this p req :
  In req (snd (run (viewData st this p))) ->
  exists hs,
    config req = Some {| method := "GET"; headers := hs |}
    /\ (forall keys lookup,
           DataNft.fwdHeaderKeys p = Some keys ->
           DataNft.fwdHeaderMapLookup p = Some lookup ->
           lookup <> ∅ -> hs = Some lookup)
    /\ (DataNft.fwdHeaderKeys p = None -> hs = None).
Proof. apply viewData_headers. Qed.

(** C7. In both flows, when the marshal answers a request with a failing
    status, the call returns the record with no data, an empty content type
    and the error made of the status failure and the body of the response
    read as text; nothing is raised. *)
Theorem marshal_failure_is_returned st this req resp e :
  net req = Return resp ->
  checkStatus resp = Throw e ->
  (forall p,
      In req (snd (run (viewData st this p))) ->
      fst (run (viewData st this p))
      = Return {| DataNft.data := None; DataNft.vd_contentType := "";
                  DataNft.error :=
                    Some (DataNft.toString classToString e
                          +:+ ". Detailed error trace follows : "
                          +:+ text (blob resp)) |})
  /\ (forall p,
         In req (snd (run (viewDataViaMVXNativeAuth st this p))) ->
         fst (run (viewDataViaMVXNativeAuth st this p))
         = Return {| DataNft.data := None; DataNft.vd_contentType := "";
                     DataNft.error :=
                       Some (DataNft.toString classToString e
                             +:+ ". Detailed error trace follows : "
                             +:+ text (blob resp)) |}).
Proof.
  intros Hnet Hcheck. split; intros p Hin.
  - apply (viewData_marshal_failure st this p req resp e Hin Hnet Hcheck).
  - apply (nativeAuth_marshal_failure st this p req resp e Hin Hnet Hcheck).
Qed.

(** C10. [viewDataViaMVXNativeAuth] never raises: it always returns an
    outcome record, and a validation failure is returned as the failure
    record, before any request.  [viewData] raises its validation failure
    as an exception, before any request; once validation has passed it
    always returns an outcome record. *)
Theorem native_auth_returns_where_viewData_raises st this :
  (forall p,
      exists o,
        fst (run (viewDataViaMVXNativeAuth st this p)) = Return o
        /\ MarshalSpec.isOutcome o)
  /\ (forall p,
         DataNft.allPassed (validate (MarshalSpec.nativeAuthParams p)) = false ->
         run (viewDataViaMVXNativeAuth st this p)
         = (Return {| DataNft.data := None; DataNft.vd_contentType := "";
                      DataNft.error :=
                        Some ("params have validation issues = "
                              +:+ DataNft.validationMessages
                                    (validate (MarshalSpec.nativeAuthParams p))) |},
            []))
  /\ (forall p,
         DataNft.ensureNetworkConfigSet st = Return tt ->
         truthy (DataNft.dataMarshal this) = true ->
         DataNft.allPassed (validate (MarshalSpec.viewDataParams p)) = false ->
         run (viewData st this p)
         = (Throw (Error ("params have validation issues = "
                          +:+ DataNft.validationMessages
                                (validate (MarshalSpec.viewDataParams p)))),
            []))
  /\ (forall p,
         DataNft.ensureNetworkConfigSet st = Return tt ->
         truthy (DataNft.dataMarshal this) = true ->
         DataNft.allPassed (validate (MarshalSpec.viewDataParams p)) = true ->
         exists o,
           fst (run (viewData st this p)) = Return o
           /\ MarshalSpec.isOutcome o).
Proof.
  split; [|split; [|split]]; intros p.
  - apply nativeAuth_never_throws.
  - apply nativeAuth_validation_failure.
  - apply viewData_validation_raises.
  - apply viewData_after_validation.
Qed.

End MarshalFlows.

(** On the configured devnet, chain id ["D"], the preaccess request and the
    native-auth request carry [chainId=ED]. *)
Lemma marshal_chain_id_parameter_witness :
  (exists c v,
      DataNft.networkConfiguration Examples.devnet = Some c
      /\ MarshalSpec.marshalParameter (DataNft.chainID c) v
      /\ url Examples.preaccessRequest
         = DataNft.dataMarshal Examples.nft +:+ "/preaccess?chainId=" +:+ v)
  /\ (exists c v rest,
         DataNft.networkConfiguration Examples.devnet = Some c
         /\ MarshalSpec.marshalParameter (DataNft.chainID c) v
         /\ url Examples.nativeAuthRequest
            = DataNft.dataMarshal Examples.nft +:+ "/access?NFTId="
              +:+ DataNft.collection Examples.nft +:+ "-"
              +:+ Examples.numberToPaddedHex (DataNft.nonce Examples.nft)
              +:+ "&chainId=" +:+ v
              +:+ "&mvxNativeAuthEnable=1&mvxNativeAuthMaxExpirySeconds="
              +:+ rest).
Proof.
  pose proof (marshal_chain_id_parameter Examples.classMessage
                Examples.classToString Examples.acceptAll Examples.checkStatus
                Examples.numberToPaddedHex Examples.addressHex Examples.btoa
                Examples.json Examples.marshalUp Examples.devnet Examples.nft)
    as [Hpre [_ Hnative]].
  split.
  - apply (Hpre Examples.preaccessRequest). vm_compute. left. reflexivity.
  - apply (Hnative Examples.nativeAuthArgs Examples.nativeAuthRequest).
    vm_compute. left. reflexivity.
Defined.

(** A [viewData] call with [fwdHeaderKeys], [fwdAllHeaders] and a lookup map
    of two entries sends these two headers. *)
Lemma viewData_forwards_exactly_the_lookup_witness :
  exists hs,
    config Examples.viewDataRequest
    = Some {| method := "GET"; headers := hs |}
    /\ (forall keys lookup,
           DataNft.fwdHeaderKeys Examples.viewDataArgs = Some keys ->
           DataNft.fwdHeaderMapLookup Examples.viewDataArgs = Some lookup ->
           lookup <> ∅ -> hs = Some lookup)
    /\ (DataNft.fwdHeaderKeys Examples.viewDataArgs = None -> hs = None).
Proof.
  apply (viewData_forwards_exactly_the_lookup Examples.classMessage
           Examples.classToString Examples.acceptAll Examples.checkStatus
           Examples.numberToPaddedHex Examples.addressHex Examples.marshalUp
           Examples.devnet Examples.nft Examples.viewDataArgs
           Examples.viewDataRequest).
  vm_compute. left. reflexivity.
Defined.

(** A marshal that answers 403 with the body [access denied]. *)
Lemma marshal_failure_is_returned_witness :
  fst (run (Examples.viewData Examples.acceptAll Examples.marshalDenies
              Examples.viewDataArgs))
  = Return {| DataNft.data := None; DataNft.vd_contentType := "";
              DataNft.error :=
                Some ("Error: Fetch error with status code: 403"
                      +:+ ". Detailed error trace follows : "
                      +:+ "access denied") |}
  /\ fst (run (Examples.viewDataViaMVXNativeAuth Examples.acceptAll
                 Examples.marshalDenies Examples.nativeAuthArgs))
     = Return {| DataNft.data := None; DataNft.vd_contentType := "";
                 DataNft.error :=
                   Some ("Error: Fetch error with status code: 403"
                         +:+ ". Detailed error trace follows : "
                         +:+ "access denied") |}.
Proof.
  split.
  - apply (proj1 (marshal_failure_is_returned Examples.classMessage
                    Examples.classToString Examples.acceptAll
                    Examples.checkStatus Examples.numberToPaddedHex
                    Examples.addressHex Examples.btoa Examples.marshalDenies
                    Examples.devnet Examples.nft Examples.viewDataRequest
                    Examples.forbidden (ErrFetch 403 "Forbidden")
                    eq_refl eq_refl) Examples.viewDataArgs).
    vm_compute. left. reflexivity.
  - apply (proj2 (marshal_failure_is_returned Examples.classMessage
                    Examples.classToString Examples.acceptAll
                    Examples.checkStatus Examples.numberToPaddedHex
                    Examples.addressHex Examples.btoa Examples.marshalDenies
                    Examples.devnet Examples.nft Examples.nativeAuthRequest
                    Examples.forbidden (ErrFetch 403 "Forbidden")
                    eq_refl eq_refl) Examples.nativeAuthArgs).
    vm_compute. left. reflexivity.
Defined.

(** Under the modelled gate: a native-auth call without a bearer entry
    returns the failure record, a [viewData] call without its mandatory
    fields raises, and a complete [viewData] call returns. *)
Lemma native_auth_returns_where_viewData_raises_witness :
  run (Examples.viewDataViaMVXNativeAuth
         Validation.validateSpecificParamsViewData Examples.marshalUp
         Examples.cookieOnlyArgs)
  = (Return {| DataNft.data := None; DataNft.vd_contentType := "";
               DataNft.error :=
                 Some ("params have validation issues = "
                       +:+ "fwdHeaderMapLookup must hold an authorization bearer entry") |},
     [])
  /\ run (Examples.viewData Validation.validateSpecificParamsViewData
            Examples.marshalUp Examples.unsignedArgs)
     = (Throw (Error ("params have validation issues = "
                      +:+ "signedMessage is mandatory,signableMessage is mandatory")),
        [])
  /\ (exists o,
         fst (run (Examples.viewData Validation.validateSpecificParamsViewData
                     Examples.marshalUp Examples.viewDataArgs)) = Return o
         /\ MarshalSpec.isOutcome o).
Proof.
  pose proof (native_auth_returns_where_viewData_raises Examples.classMessage
                Examples.classToString
                Validation.validateSpecificParamsViewData Examples.checkStatus
                Examples.numberToPaddedHex Examples.addressHex Examples.btoa
                Examples.marshalUp Examples.devnet Examples.nft)
    as [_ [Hnative [Hraise Hreturn]]].
  split; [|split].
  - apply (Hnative Examples.cookieOnlyArgs). vm_compute. reflexivity.
  - apply (Hraise Examples.unsignedArgs); vm_compute; reflexivity.
  - apply (Hreturn Examples.viewDataArgs); vm_compute; reflexivity.
Defined.

(** The modelled gate rejects a parameter object that must hold a bearer
    entry and does not. *)
Lemma gate_rejects_missing_bearer params :
  Validation.lacksBearer params = true ->
  DataNft.allPassed (Validation.validateSpecificParamsViewData params) = false.
Proof.
  intros H. unfold Validation.validateSpecificParamsViewData. rewrite H.
  cbn [DataNft.allPassed].
  destruct (map _ _); reflexivity.
Qed.


(** C5. In the native-auth flow, a request made with a non-empty header
    lookup map carries the [authorization] entry of the map; every other
    entry of the map is a header of the request exactly when
    [fwdHeaderKeys] is supplied; and with [fwdHeaderKeys] supplied the
    headers are the entries of the map, the [authorization] entry once.
    Under the validation gate, an input whose header lookup map holds no
    bearer [authorization] entry is returned as a validation failure and no
    request is made. *)
Theorem native_auth_forwards_authorization :
  (forall classMessage classToString validate checkStatus numberToPaddedHex
          btoa net st this p req lookup,
      In req (snd (run (DataNft.viewDataViaMVXNativeAuth classMessage
                          classToString validate checkStatus
                          numberToPaddedHex btoa net st this p))) ->
      DataNft.na_fwdHeaderMapLookup p = Some lookup ->
      lookup <> ∅ ->
      exists hs : gmap string JsVal,
        config req = Some {| method := "GET"; headers := Some hs |}
        /\ hs !! "authorization" = Some (prop lookup "authorization")
        /\ (forall k,
               k <> "authorization" ->
               hs !! k = match DataNft.na_fwdHeaderKeys p with
                         | Some _ => lookup !! k
                         | None => None
                         end)
        /\ (forall keys v,
               DataNft.na_fwdHeaderKeys p = Some keys ->
               lookup !! "authorization" = Some v ->
               hs = lookup))
  /\ (forall classMessage classToString checkStatus numberToPaddedHex btoa net
             st this p,
         match DataNft.na_fwdHeaderMapLookup p with
         | Some lookup => Validation.hasBearerAuthorization lookup = false
         | None => True
         end ->
         exists messages,
           run (DataNft.viewDataViaMVXNativeAuth classMessage classToString
                  Validation.validateSpecificParamsViewData checkStatus
                  numberToPaddedHex btoa net st this p)
           = (Return {| DataNft.data := None; DataNft.vd_contentType := "";
                        DataNft.error :=
                          Some ("params have validation issues = "
                                +:+ messages) |}, [])).
Proof.
  split.
  - intros classMessage classToString validate checkStatus numberToPaddedHex
      btoa net st this p req lookup Hin Hl Hne.
    rewrite (nativeAuth_headers classMessage classToString validate checkStatus
               numberToPaddedHex btoa net st this p req lookup Hin Hl Hne).
    eexists. split; [reflexivity|]. split; [apply lookup_insert_eq|]. split.
    + intros k Hk. rewrite lookup_insert_ne by congruence.
      destruct (DataNft.na_fwdHeaderKeys p); [reflexivity | apply lookup_empty].
    + intros keys v -> Hv. apply insert_id.
      now rewrite (prop_lookup _ _ _ Hv).
  - intros classMessage classToString checkStatus numberToPaddedHex btoa net
      st this p Hlacks.
    eexists.
    apply (nativeAuth_validation_failure classMessage classToString
             Validation.validateSpecificParamsViewData checkStatus
             numberToPaddedHex btoa net st this p).
    apply gate_rejects_missing_bearer.
    unfold Validation.lacksBearer. cbn.
    destruct (DataNft.na_fwdHeaderMapLookup p); [now rewrite Hlacks | reflexivity].
Qed.

(** A native-auth call with the entries [authorization] and [cookie] and
    with [fwdHeaderKeys] sends both; one with a cookie only is refused by
    the gate. *)
Lemma native_auth_forwards_authorization_witness :
  (exists hs : gmap string JsVal,
      config Examples.nativeAuthRequest
      = Some {| method := "GET"; headers := Some hs |}
      /\ hs !! "authorization" = Some (prop Examples.lookup "authorization")
      /\ (forall k,
             k <> "authorization" ->
             hs !! k = match DataNft.na_fwdHeaderKeys Examples.nativeAuthArgs with
                       | Some _ => Examples.lookup !! k
                       | None => None
                       end)
      /\ (forall keys v,
             DataNft.na_fwdHeaderKeys Examples.nativeAuthArgs = Some keys ->
             Examples.lookup !! "authorization" = Some v ->
             hs = Examples.lookup))
  /\ (exists messages,
         run (Examples.viewDataViaMVXNativeAuth
                Validation.validateSpecificParamsViewData Examples.marshalUp
                Examples.cookieOnlyArgs)
         = (Return {| DataNft.data := None; DataNft.vd_contentType := "";
                      DataNft.error :=
                        Some ("params have validation issues = " +:+ messages) |},
            [])).
Proof.
  split.
  - apply (proj1 native_auth_forwards_authorization Examples.classMessage
             Examples.classToString Examples.acceptAll Examples.checkStatus
             Examples.numberToPaddedHex Examples.btoa Examples.marshalUp
             Examples.devnet Examples.nft Examples.nativeAuthArgs
             Examples.nativeAuthRequest Examples.lookup).
    + vm_compute. left. reflexivity.
    + reflexivity.
    + apply size_positive. vm_compute. reflexivity.
  - apply (proj2 native_auth_forwards_authorization Examples.classMessage
             Examples.classToString Examples.checkStatus
             Examples.numberToPaddedHex Examples.btoa Examples.marshalUp
             Examples.devnet Examples.nft Examples.cookieOnlyArgs).
    vm_compute. reflexivity.
Defined.

(** ** Direct calls *)

(** C8 (amended). Every direct call builds a transaction of value 0 to the
    contract of its client, and its gas limit is the constant of the method,
    10,000,000 or 12,000,000, plus, for [whitelist] and [delist], the gas
    the caller passes; for every other method the gas limit is the constant
    alone. *)
Theorem direct_call_value_receiver_gas :
  forall (c : DirectCalls.Clients) (senderAddress : Address)
         (call : DirectCalls.DirectCall),
    let tx := DirectCalls.transaction c senderAddress call in
    value tx = Some (BnNum 0)
    /\ receiver tx = DirectCalls.contractAddress c call
    /\ gasLimit tx
       = DirectCalls.baseGas (DirectCalls.operation call)
         + DirectCalls.addedGas call
    /\ (DirectCalls.baseGas (DirectCalls.operation call) = 10000000
        \/ DirectCalls.baseGas (DirectCalls.operation call) = 12000000)
    /\ (DirectCalls.operation call <> "whitelist" ->
        DirectCalls.operation call <> "delist" ->
        DirectCalls.addedGas call = 0).
Proof.
  intros c senderAddress call tx. subst tx.
  destruct call; cbn; repeat split; auto; try congruence.
Qed.

(** C8 as stated fails: [whitelist] called with 5 more units of gas has a
    gas limit of 10,000,005, which is neither constant and differs from the
    gas limit of [whitelist] called with none. *)
Lemma whitelist_gas_depends_on_input :
  let c := {| DirectCalls.market := Examples.market;
              DirectCalls.nftMinter := Examples.minter;
              DirectCalls.sftMinter := Examples.minter |} in
  let tx := DirectCalls.transaction c Examples.alice
              (DirectCalls.Whitelist ["erd1bob"] (Some 5)) in
  let tx0 := DirectCalls.transaction c Examples.alice
               (DirectCalls.Whitelist ["erd1bob"] None) in
  gasLimit tx = 10000005
  /\ gasLimit tx <> 10000000 /\ gasLimit tx <> 12000000
  /\ gasLimit tx <> gasLimit tx0.
Proof. cbn. repeat split; discriminate. Qed.

(** ** Contract queries *)

Ltac query_cases :=
  repeat match goal with
         | a : (_ * _)%type |- _ => destruct a
         end.




(** * Further properties *)

(** ** Contract queries *)

(** X1. A view method adds nothing to a failure of its collaborators: when
    the network provider throws, or the results parser throws on the
    response, the method throws that same error, for each of the twelve
    view methods. *)
Theorem query_errors_propagate :
  forall (itheumTokenIdentifier : string -> string) (RawOfferOut : Type)
         (parseOffer : RawOfferOut -> Offer) (QueryResponse : Type)
         (queryContract : Query -> Exc QueryResponse)
         (parseQueryResponse :
            forall T, QueryResponse -> Endpoint RawOfferOut T -> Exc (Parsed T))
         (numericalValueOfUndefined : Exc Z)
         (market : DataNftMarket.t) (minter : Minter.t)
         (m : Views.Method) (a : Views.Args m) (e : Exception),
    let sent :=
      queryContract (Views.query itheumTokenIdentifier RawOfferOut market
                       minter m a) in
    let result :=
      Views.invoke itheumTokenIdentifier RawOfferOut parseOffer QueryResponse
        queryContract parseQueryResponse numericalValueOfUndefined market
        minter m a in
    (sent = Throw e -> result = Throw e)
    /\ (forall response,
           sent = Return response ->
           parseQueryResponse _ response (Views.endpoint m) = Throw e ->
           result = Throw e).
Proof.
  intros itheumTokenIdentifier RawOfferOut parseOffer QueryResponse
    queryContract parseQueryResponse numericalValueOfUndefined market minter
    m a e sent result.
  subst sent result.
  destruct m; cbn in a |- *; query_cases; unfold Views.query; cbn;
    unfold DataNftMarket.viewAddressListedOffers,
      DataNftMarket.viewAddressPagedOffers,
      DataNftMarket.viewAddressTotalOffers,
      DataNftMarket.viewAddressCancelledOffers, DataNftMarket.viewPagedOffers,
      DataNftMarket.viewOffers, DataNftMarket.viewRequirements,
      DataNftMarket.viewNumberOfOffers, DataNftMarket.viewLastValidOfferId,
      DataNftMarket.viewContractPauseState,
      DataNftMinter.viewMinterRequirements,
      DataNftMinter.viewContractPauseState, roundTrip; cbn;
    (split; [intros ->; reflexivity
            | intros response -> Hparse; cbn; rewrite Hparse; reflexivity]).
Qed.

(** A chain that cannot be reached. *)
Lemma query_errors_propagate_witness :
  Views.invoke Examples.itheumTokenIdentifier unit QueryExamples.parseOffer
    ReturnCode (fun _ => Throw (Error "Network Error")) QueryExamples.parse
    (Throw (TypeError "not a number")) Examples.market Examples.minter
    Views.viewRequirements tt
  = Throw (Error "Network Error").
Proof.
  apply (proj1 (query_errors_propagate Examples.itheumTokenIdentifier unit
                  QueryExamples.parseOffer ReturnCode
                  (fun _ => Throw (Error "Network Error")) QueryExamples.parse
                  (Throw (TypeError "not a number")) Examples.market
                  Examples.minter Views.viewRequirements tt
                  (Error "Network Error"))).
  reflexivity.
Defined.

(** X2. [viewOffers] and [viewRequirements] keep the values they do not
    turn into numbers exactly: offer tuples decoded to the same offers have
    the same owners, token identifiers, token nonces and amounts, and
    structs decoded to the same marketplace requirements have the same
    accepted tokens, accepted payments and maximum payment fees. *)
Theorem decoders_keep_tokens_and_amounts :
  (forall l1 l2 : list (Z * RawOffer),
      map toOffer l1 = map toOffer l2 ->
      map (fun entry => (owner (snd entry), offered_token (snd entry),
                         wanted_token (snd entry))) l1
      = map (fun entry => (owner (snd entry), offered_token (snd entry),
                           wanted_token (snd entry))) l2)
  /\ (forall r1 r2 : RawRequirements,
         toMarketplaceRequirements r1 = toMarketplaceRequirements r2 ->
         accepted_tokens r1 = accepted_tokens r2
         /\ accepted_payments r1 = accepted_payments r2
         /\ maximum_payment_fees r1 = maximum_payment_fees r2).
Proof.
  assert (Hpretty : forall x y : Z, Text.ofNumber x = Text.ofNumber y -> x = y).
  { intros x y H. unfold Text.ofNumber in H. now apply (inj pretty) in H. }
  assert (Hmap : forall l1 l2 : list Z,
             map (fun v => Text.ofNumber v) l1 = map (fun v => Text.ofNumber v) l2 ->
             l1 = l2).
  { induction l1 as [|x l1 IH]; intros [|y l2] H; try discriminate;
      [reflexivity|].
    cbn in H. injection H as Hx Hl. f_equal; auto. }
  split.
  - induction l1 as [|[i1 o1] l1 IH]; intros [|[i2 o2] l2] H;
      try discriminate; [reflexivity|].
    destruct o1 as [[own1] [t1 n1 a1] [t1' n1' a1'] q1].
    destruct o2 as [[own2] [t2 n2 a2] [t2' n2' a2'] q2].
    cbn in H. injection H. intros Htail; intros.
    repeat match goal with
           | E : Text.ofNumber _ = Text.ofNumber _ |- _ => apply Hpretty in E
           end.
    subst. cbn. f_equal. now apply IH.
  - intros [a1 b1 c1 d1 e1 f1 g1] [a2 b2 c2 d2 e2 f2 g2] H.
    unfold toMarketplaceRequirements in H. cbn in H.
    injection H. intros. subst.
    match goal with E : map _ _ = map _ _ |- _ => apply Hmap in E end.
    now subst.
Qed.

(** ** Payloads *)

Section WrappedCallsFamily.

Variable dataNftTokenIdentifier : string -> string.
Variable market : DataNftMarket.t.
Variable dataNftMinter nftMinter : Minter.t.

Let transaction :=
  WrappedCalls.transaction dataNftTokenIdentifier market dataNftMinter nftMinter.

(** X3. [addOffer], [burn] and [updateAttributes] send the token holder a
    transaction to itself: value 0, sender and receiver both the sender
    address, gas 12,000,000, and an [ESDTNFTTransfer] payload that starts
    with the token identifier and its nonce and carries the address of the
    target contract as fourth argument and the name of the contract's
    endpoint as fifth. *)
Theorem wrapped_calls_go_to_the_sender :
  forall (senderAddress : Address) (call : WrappedCalls.WrappedCall),
    let tx := transaction senderAddress call in
    value tx = Some (BnNum 0)
    /\ receiver tx = senderAddress
    /\ sender tx = senderAddress
    /\ gasLimit tx = 12000000
    /\ callFunction (data tx) = Some (mkContractFunction "ESDTNFTTransfer")
    /\ callArgs (data tx) !! 0%nat
       = Some (TokenIdentifierValue
                 (WrappedCalls.token dataNftTokenIdentifier dataNftMinter call))
    /\ callArgs (data tx) !! 1%nat
       = Some (U64Value (WrappedCalls.tokenNonce call))
    /\ callArgs (data tx) !! 3%nat
       = Some (AddressValue
                 (WrappedCalls.target market dataNftMinter nftMinter call))
    /\ callArgs (data tx) !! 4%nat
       = Some (StringValue (WrappedCalls.endpointName call)).
Proof.
  intros senderAddress call tx. subst tx.
  destruct call; cbn; repeat split; reflexivity.
Qed.

End WrappedCallsFamily.

(** X4. The three ways to accept an offer address the marketplace contract
    with 12,000,000 gas.  Paying in EGLD and paying nothing build the same
    [acceptOffer(offerId, amount)] payload and differ in the value only,
    the price against 0; paying in a token wraps that same call in an
    [ESDTTransfer] of the price, with value 0, and the token is the ITHEUM
    token of the environment when none is given. *)
Theorem accept_offer_variants :
  forall (itheumTokenIdentifier : string -> string) (this : DataNftMarket.t)
         (senderAddress : Address) (offerId amount : Z) (price : string)
         (paymentToken : option string),
    let esdt := DataNftMarket.acceptOfferWithESDT itheumTokenIdentifier this
                  senderAddress offerId amount price paymentToken in
    let egld := DataNftMarket.acceptOfferWithEGLD this senderAddress offerId
                  amount price in
    let free := DataNftMarket.acceptOfferWithNoPayment this senderAddress
                  offerId amount in
    data egld = call "acceptOffer" [U64Value offerId; BigUIntValue (BnNum amount)]
    /\ data free = data egld
    /\ value egld = Some (BnStr price)
    /\ value free = Some (BnNum 0)
    /\ value esdt = Some (BnNum 0)
    /\ data esdt
       = call "ESDTTransfer"
           ([TokenIdentifierValue
               (default (itheumTokenIdentifier (DataNftMarket.env this))
                        paymentToken);
             BigUIntValue (BnStr price); StringValue "acceptOffer"]
            ++ callArgs (data egld))%list
    /\ Forall (fun tx => receiver tx = DataNftMarket.getContractAddress this
                         /\ sender tx = senderAddress
                         /\ gasLimit tx = 12000000)
              [esdt; egld; free].
Proof.
  intros. subst esdt egld free. cbn.
  repeat split; try reflexivity. repeat constructor.
Qed.

(** X5. [initializeContract] of the NFT minter always deposits
    50,000,000,000,000,000 with 10,000,000 gas.  When the mint tax is
    required and the options are given, its arguments are the four of the
    short form followed by the tax token and the tax amount; when the tax
    is required and the options are missing, it still builds the short
    form, with the flag set and no tax token. *)
Theorem initializeContract_two_forms :
  forall (this : Minter.t) (senderAddress : Address)
         (collectionName tokenTicker : string) (mintLimit : Z)
         (requireMintTax : bool) (options : option NftMinter.InitOptions),
    let tx := NftMinter.initializeContract this senderAddress collectionName
                tokenTicker mintLimit requireMintTax options in
    let short := [StringValue collectionName; StringValue tokenTicker;
                  BigUIntValue (BnNum mintLimit); BooleanValue requireMintTax] in
    value tx = Some (BnNum 50000000000000000)
    /\ gasLimit tx = 10000000
    /\ receiver tx = getAddress (Minter.contract this)
    /\ callFunction (data tx) = Some (mkContractFunction "initializeContract")
    /\ (forall o, requireMintTax = true -> options = Some o ->
                  callArgs (data tx)
                  = (short
                     ++ [TokenIdentifierValue (NftMinter.taxTokenIdentifier o);
                         BigUIntValue (BnNum (NftMinter.taxTokenAmount o))])%list)
    /\ (requireMintTax = false \/ options = None -> callArgs (data tx) = short).
Proof.
  intros. subst tx short.
  destruct requireMintTax, options as [o|]; cbn; repeat split; try reflexivity;
    try (intros ? ? ?; congruence); try (intros o' _ [= ->]; reflexivity);
    intros [?|?]; congruence.
Qed.

(** ** Minting *)

Section MintFailures.

Variable itheumTokenIdentifier : string -> string.
Variable validateSpecificParamsMint :
  Minter.MintValidationParams -> Minter.MintValidationResult.
Variable checkUrlIsUp : string -> list Z -> Exc unit.
Variable checkTraitsUrl : string -> Exc unit.
Variable File : Type.
Variable advertiseSft : string -> string -> string -> Exc Minter.Advertised.
Variable advertiseDataNft : string -> string -> Exc Minter.Advertised.
Variable createFileFromUrl :
  string -> string -> string -> string -> string -> Exc (File * File).
Variable storeToIpfs : string -> File -> File -> Exc Minter.Stored.

Let sftMint :=
  SftMinter.mint itheumTokenIdentifier validateSpecificParamsMint checkUrlIsUp
    checkTraitsUrl File advertiseSft createFileFromUrl storeToIpfs.
Let dataNftMint :=
  DataNftMinter.mint itheumTokenIdentifier validateSpecificParamsMint
    checkUrlIsUp checkTraitsUrl File advertiseDataNft createFileFromUrl
    storeToIpfs.

(** X6. When the parameter validation of [mint] fails, [mint] throws at
    once, whatever the URL checks, the marshal and the storage would
    answer: the SFT minter throws a plain [Error] whose message is
    [Params have validation issues = ] followed by the messages, the first
    minter class throws [ErrParamValidation] with the messages alone. *)
Theorem mint_validation_failure_is_raised_first :
  forall this senderAddress tokenName dataMarshalUrl dataStreamUrl
         dataPreviewUrl royalties supply datasetTitle datasetDescription
         antiSpamTax options,
    let v := validateSpecificParamsMint
               (MintChecks.validationParams senderAddress tokenName royalties
                  supply datasetTitle datasetDescription antiSpamTax) in
    Minter.allPassed v = false ->
    sftMint this senderAddress tokenName dataMarshalUrl dataStreamUrl
      dataPreviewUrl royalties supply datasetTitle datasetDescription
      antiSpamTax options
    = Throw (Error ("Params have validation issues = "
                    +:+ Minter.validationMessages v))
    /\ dataNftMint this senderAddress tokenName dataMarshalUrl dataStreamUrl
         dataPreviewUrl royalties supply datasetTitle datasetDescription
         antiSpamTax options
       = Throw (ErrParamValidation (Minter.validationMessages v)).
Proof.
  intros this senderAddress tokenName dataMarshalUrl dataStreamUrl
    dataPreviewUrl royalties supply datasetTitle datasetDescription
    antiSpamTax options v Hv.
  subst v. unfold sftMint, dataNftMint, SftMinter.mint, DataNftMinter.mint,
    SftMinter.mintAssets, DataNftMinter.mintAssets.
  fold (MintChecks.validationParams senderAddress tokenName royalties supply
          datasetTitle datasetDescription antiSpamTax).
  rewrite Hv. split; reflexivity.
Qed.

Ltac mint_steps :=
  unfold sftMint, dataNftMint, SftMinter.mint, DataNftMinter.mint,
    SftMinter.mintAssets, DataNftMinter.mintAssets;
  repeat match goal with
         | |- context [negb (Minter.allPassed ?v)] =>
             destruct (Minter.allPassed v); cbn
         | |- context [checkUrlIsUp ?u ?c] =>
             destruct (checkUrlIsUp u c) as [[]|]; cbn
         | |- context [advertiseSft ?a ?b ?c] =>
             destruct (advertiseSft a b c); cbn
         | |- context [advertiseDataNft ?a ?b] =>
             destruct (advertiseDataNft a b); cbn
         end.

(** X7. A [mint] with neither an image URL nor a storage token, and a
    [mint] with an image URL and no traits URL, never return a
    transaction, in either minter class; an empty text counts as absent.
    Once validation, the URL checks and the advertising of the stream have
    passed, what they throw is the error that names the missing argument:
    [ErrArgumentNotSet] in the SFT minter, [ErrBadType] in the first
    minter class. *)
Theorem mint_needs_its_media_arguments :
  forall this senderAddress tokenName dataMarshalUrl dataStreamUrl
         dataPreviewUrl royalties supply datasetTitle datasetDescription
         antiSpamTax options,
    let o := Minter.orEmpty options in
    let sft :=
      sftMint this senderAddress tokenName dataMarshalUrl dataStreamUrl
        dataPreviewUrl royalties supply datasetTitle datasetDescription
        antiSpamTax options in
    let dataNft :=
      dataNftMint this senderAddress tokenName dataMarshalUrl dataStreamUrl
        dataPreviewUrl royalties supply datasetTitle datasetDescription
        antiSpamTax options in
    let passed :=
      MintChecks.passed validateSpecificParamsMint checkUrlIsUp senderAddress
        tokenName royalties supply datasetTitle datasetDescription antiSpamTax
        dataStreamUrl dataPreviewUrl dataMarshalUrl in
    (MintChecks.noStorageToken o \/ MintChecks.noTraits o ->
     (forall tx, sft <> Return tx) /\ (forall tx, dataNft <> Return tx))
    /\ (forall adv,
           passed ->
           advertiseSft dataStreamUrl dataMarshalUrl (bech32 senderAddress)
           = Return adv ->
           (MintChecks.noStorageToken o ->
            sft = Throw (ErrArgumentNotSet "nftStorageToken"
                           "NFT Storage token is required when not using custom image and traits"))
           /\ (MintChecks.noTraits o ->
               sft = Throw (ErrArgumentNotSet "traitsUrl"
                              "Traits URL is required when using custom image")))
    /\ (forall adv,
           passed ->
           advertiseDataNft dataStreamUrl dataMarshalUrl = Return adv ->
           (MintChecks.noStorageToken o ->
            dataNft = Throw (ErrBadType "nftStorageToken" "string"
                               (Minter.nftStorageToken o)
                               "NFT Storage token is required when not using custom image and traits"))
           /\ (MintChecks.noTraits o ->
               dataNft = Throw (ErrBadType "traitsUrl" "string"
                                  (Minter.traitsUrl o)
                                  "Traits URL is required when using custom image"))).
Proof.
  intros this senderAddress tokenName dataMarshalUrl dataStreamUrl
    dataPreviewUrl royalties supply datasetTitle datasetDescription
    antiSpamTax options o sft dataNft passed.
  subst sft dataNft passed.
  unfold MintChecks.passed, MintChecks.noStorageToken, MintChecks.noTraits,
    MintChecks.urlsUp.
  split; [|split].
  - intros [[Hi Ht]|[Hi Ht]]; split; intros tx; mint_steps;
      fold o; rewrite ?Hi, ?Ht; cbn; discriminate.
  - intros adv (Hv & H1 & H2 & H3) Hadv.
    split; intros [Hi Ht];
      unfold sftMint, SftMinter.mint, SftMinter.mintAssets;
      fold (MintChecks.validationParams senderAddress tokenName royalties
              supply datasetTitle datasetDescription antiSpamTax);
      rewrite Hv; cbn; rewrite H1; cbn; rewrite H2; cbn; rewrite H3; cbn;
      rewrite Hadv; cbn; fold o; rewrite Hi, Ht; reflexivity.
  - intros adv (Hv & H1 & H2 & H3) Hadv.
    split; intros [Hi Ht];
      unfold dataNftMint, DataNftMinter.mint, DataNftMinter.mintAssets;
      fold (MintChecks.validationParams senderAddress tokenName royalties
              supply datasetTitle datasetDescription antiSpamTax);
      rewrite Hv; cbn; rewrite H1; cbn; rewrite H2; cbn; rewrite H3; cbn;
      rewrite Hadv; cbn; fold o; rewrite Hi, Ht; reflexivity.
Qed.

End MintFailures.

(** A mint with royalties of 60 under a gate that accepts 50 at most. *)
Lemma mint_validation_failure_is_raised_first_witness :
  SftMinter.mint Examples.itheumTokenIdentifier MintChecks.royaltiesGate
    Examples.urlIsUp Examples.traitsOk unit Examples.advertise3
    Examples.fileFromUrl Examples.store Examples.minter Examples.alice "TOKEN"
    "https://marshal.example" "https://stream.example"
    "https://preview.example" 60 5 "A data set" "Its description" 0
    Examples.customImage
  = Throw (Error ("Params have validation issues = " +:+ "royalties above 50"))
  /\ DataNftMinter.mint Examples.itheumTokenIdentifier MintChecks.royaltiesGate
       Examples.urlIsUp Examples.traitsOk unit Examples.advertise2
       Examples.fileFromUrl Examples.store Examples.minter Examples.alice
       "TOKEN" "https://marshal.example" "https://stream.example"
       "https://preview.example" 60 5 "A data set" "Its description" 0
       Examples.customImage
     = Throw (ErrParamValidation "royalties above 50").
Proof.
  apply (mint_validation_failure_is_raised_first Examples.itheumTokenIdentifier
           MintChecks.royaltiesGate Examples.urlIsUp Examples.traitsOk unit
           Examples.advertise3 Examples.advertise2 Examples.fileFromUrl
           Examples.store Examples.minter Examples.alice "TOKEN"
           "https://marshal.example" "https://stream.example"
           "https://preview.example" 60 5 "A data set" "Its description" 0
           Examples.customImage).
  reflexivity.
Defined.

(** A mint with an image and no traits, and one with no options at all. *)
Lemma mint_needs_its_media_arguments_witness :
  SftMinter.mint Examples.itheumTokenIdentifier Examples.validMint
    Examples.urlIsUp Examples.traitsOk unit Examples.advertise3
    Examples.fileFromUrl Examples.store Examples.minter Examples.alice "TOKEN"
    "https://marshal.example" "https://stream.example"
    "https://preview.example" 10 5 "A data set" "Its description" 0
    MintChecks.imageOnly
  = Throw (ErrArgumentNotSet "traitsUrl"
             "Traits URL is required when using custom image")
  /\ DataNftMinter.mint Examples.itheumTokenIdentifier Examples.validMint
       Examples.urlIsUp Examples.traitsOk unit Examples.advertise2
       Examples.fileFromUrl Examples.store Examples.minter Examples.alice
       "TOKEN" "https://marshal.example" "https://stream.example"
       "https://preview.example" 10 5 "A data set" "Its description" 0 None
     = Throw (ErrBadType "nftStorageToken" "string" None
                "NFT Storage token is required when not using custom image and traits").
Proof.
  split.
  - pose proof (mint_needs_its_media_arguments Examples.itheumTokenIdentifier
                  Examples.validMint Examples.urlIsUp Examples.traitsOk unit
                  Examples.advertise3 Examples.advertise2 Examples.fileFromUrl
                  Examples.store Examples.minter Examples.alice "TOKEN"
                  "https://marshal.example" "https://stream.example"
                  "https://preview.example" 10 5 "A data set"
                  "Its description" 0 MintChecks.imageOnly)
      as (_ & Hsft & _).
    apply (Hsft _ (conj eq_refl (conj eq_refl (conj eq_refl eq_refl))) eq_refl).
    split; reflexivity.
  - pose proof (mint_needs_its_media_arguments Examples.itheumTokenIdentifier
                  Examples.validMint Examples.urlIsUp Examples.traitsOk unit
                  Examples.advertise3 Examples.advertise2 Examples.fileFromUrl
                  Examples.store Examples.minter Examples.alice "TOKEN"
                  "https://marshal.example" "https://stream.example"
                  "https://preview.example" 10 5 "A data set"
                  "Its description" 0 None)
      as (_ & _ & Hdata).
    apply (Hdata _ (conj eq_refl (conj eq_refl (conj eq_refl eq_refl))) eq_refl).
    split; reflexivity.
Defined.

Section MintCustomImage.

Variable itheumTokenIdentifier : string -> string.
Variable validateSpecificParamsMint :
  Minter.MintValidationParams -> Minter.MintValidationResult.
Variable checkUrlIsUp : string -> list Z -> Exc unit.
Variable checkTraitsUrl : string -> Exc unit.
Variable advertiseSft : string -> string -> string -> Exc Minter.Advertised.
Variable advertiseDataNft : string -> string -> Exc Minter.Advertised.
(** Two image and storage services. *)
Variable File File' : Type.
Variable createFileFromUrl :
  string -> string -> string -> string -> string -> Exc (File * File).
Variable createFileFromUrl' :
  string -> string -> string -> string -> string -> Exc (File' * File').
Variable storeToIpfs : string -> File -> File -> Exc Minter.Stored.
Variable storeToIpfs' : string -> File' -> File' -> Exc Minter.Stored.

(** X8. A [mint] with a custom image and its traits does not use the image
    service nor the storage service: its result is the same whatever they
    would answer, in either minter class.  When validation, the URL
    checks, the advertising of the stream and the check of the traits URL
    pass, it returns the transaction whose image and metadata arguments
    are the two URLs as given and whose stream argument is the encrypted
    stream the marshal returned. *)
Theorem mint_with_custom_image_skips_storage :
  forall this senderAddress tokenName dataMarshalUrl dataStreamUrl
         dataPreviewUrl royalties supply datasetTitle datasetDescription
         antiSpamTax options image traits,
    Minter.imageUrl (Minter.orEmpty options) = Some image ->
    Minter.traitsUrl (Minter.orEmpty options) = Some traits ->
    truthy image = true ->
    truthy traits = true ->
    let sft :=
      SftMinter.mint itheumTokenIdentifier validateSpecificParamsMint
        checkUrlIsUp checkTraitsUrl File advertiseSft createFileFromUrl
        storeToIpfs this senderAddress tokenName dataMarshalUrl dataStreamUrl
        dataPreviewUrl royalties supply datasetTitle datasetDescription
        antiSpamTax options in
    let dataNft :=
      DataNftMinter.mint itheumTokenIdentifier validateSpecificParamsMint
        checkUrlIsUp checkTraitsUrl File advertiseDataNft createFileFromUrl
        storeToIpfs this senderAddress tokenName dataMarshalUrl dataStreamUrl
        dataPreviewUrl royalties supply datasetTitle datasetDescription
        antiSpamTax options in
    let minted adv :=
      Return (MintSpec.expectedTransaction itheumTokenIdentifier this
                senderAddress antiSpamTax options
                (MintSpec.mintArguments tokenName image traits dataMarshalUrl
                   (Minter.dataNftStreamUrlEncrypted adv) dataPreviewUrl
                   royalties supply datasetTitle datasetDescription)) in
    let passed :=
      MintChecks.passed validateSpecificParamsMint checkUrlIsUp senderAddress
        tokenName royalties supply datasetTitle datasetDescription antiSpamTax
        dataStreamUrl dataPreviewUrl dataMarshalUrl
      /\ checkTraitsUrl traits = Return tt in
    sft = SftMinter.mint itheumTokenIdentifier validateSpecificParamsMint
            checkUrlIsUp checkTraitsUrl File' advertiseSft createFileFromUrl'
            storeToIpfs' this senderAddress tokenName dataMarshalUrl
            dataStreamUrl dataPreviewUrl royalties supply datasetTitle
            datasetDescription antiSpamTax options
    /\ dataNft
       = DataNftMinter.mint itheumTokenIdentifier validateSpecificParamsMint
           checkUrlIsUp checkTraitsUrl File' advertiseDataNft
           createFileFromUrl' storeToIpfs' this senderAddress tokenName
           dataMarshalUrl dataStreamUrl dataPreviewUrl royalties supply
           datasetTitle datasetDescription antiSpamTax options
    /\ (forall adv,
           passed ->
           advertiseSft dataStreamUrl dataMarshalUrl (bech32 senderAddress)
           = Return adv ->
           sft = minted adv)
    /\ (forall adv,
           passed ->
           advertiseDataNft dataStreamUrl dataMarshalUrl = Return adv ->
           dataNft = minted adv).
Proof.
  intros this senderAddress tokenName dataMarshalUrl dataStreamUrl
    dataPreviewUrl royalties supply datasetTitle datasetDescription
    antiSpamTax options image traits Hi Ht Hti Htt sft dataNft minted passed.
  subst sft dataNft minted passed.
  assert (Htok : default (itheumTokenIdentifier (Minter.env this))
                   (Minter.antiSpamTokenIdentifier (Minter.orEmpty options))
                 = MintSpec.taxToken itheumTokenIdentifier this options).
  { destruct options as [[? ? ? [tok|]]|]; reflexivity. }
  unfold SftMinter.mint, DataNftMinter.mint, SftMinter.mintAssets,
    DataNftMinter.mintAssets, MintChecks.passed, MintChecks.urlsUp.
  rewrite Hi, Ht. cbn [truthy_opt default]. rewrite Hti, Htt. cbn [negb].
  split; [reflexivity|]. split; [reflexivity|].
  fold (MintChecks.validationParams senderAddress tokenName royalties supply
          datasetTitle datasetDescription antiSpamTax).
  split; intros adv ((Hv & H1 & H2 & H3) & Hc) Hadv;
    rewrite Hv; cbn; rewrite H1; cbn; rewrite H2; cbn; rewrite H3; cbn;
    rewrite Hadv; cbn; rewrite Hc; cbn; rewrite Htok;
    unfold MintSpec.expectedTransaction;
    destruct (0 <? antiSpamTax)%Z; reflexivity.
Qed.

End MintCustomImage.

(** The example mint with its custom image, with a storage service that
    answers and with one that is down. *)
Lemma mint_with_custom_image_skips_storage_witness :
  Examples.sftMint 5
  = SftMinter.mint Examples.itheumTokenIdentifier Examples.validMint
      Examples.urlIsUp Examples.traitsOk unit Examples.advertise3
      (fun _ _ _ _ _ => Throw (Error "image service down"))
      (fun _ _ _ => Throw (Error "storage down")) Examples.minter
      Examples.alice "TOKEN" "https://marshal.example"
      "https://stream.example" "https://preview.example" 10 5 "A data set"
      "Its description" 5 Examples.customImage.
Proof.
  exact (proj1 (mint_with_custom_image_skips_storage Examples.itheumTokenIdentifier
           Examples.validMint Examples.urlIsUp Examples.traitsOk
           Examples.advertise3 Examples.advertise2 unit unit
           Examples.fileFromUrl
           (fun _ _ _ _ _ => Throw (Error "image service down"))
           Examples.store (fun _ _ _ => Throw (Error "storage down"))
           Examples.minter Examples.alice "TOKEN" "https://marshal.example"
           "https://stream.example" "https://preview.example" 10 5
           "A data set" "Its description" 5 Examples.customImage
           "https://img.example/a.png" "https://img.example/a.json"
           eq_refl eq_refl eq_refl eq_refl)).
Defined.

(** ** Data Marshal flows *)

Lemma append_empty (a : string) : a +:+ "" = a.
Proof.
  induction a as [|x a IH]; [reflexivity|].
  change (String x (a +:+ "") = String x a). now rewrite IH.
Qed.

Lemma ensure_configured st :
  AccessSpec.configured st <-> DataNft.ensureNetworkConfigSet st = Return tt.
Proof.
  unfold AccessSpec.configured, DataNft.ensureNetworkConfigSet.
  destruct (truthy_opt (DataNft.env st)),
    (truthy_opt (DataNft.apiConfiguration st)); cbn; intuition congruence.
Qed.

Lemma ensure_not_configured st :
  ~ AccessSpec.configured st ->
  DataNft.ensureNetworkConfigSet st = Throw (ErrNetworkConfig None).
Proof.
  unfold AccessSpec.configured, DataNft.ensureNetworkConfigSet.
  destruct (truthy_opt (DataNft.env st)),
    (truthy_opt (DataNft.apiConfiguration st)); cbn; intuition congruence.
Qed.

Section MarshalEdges.

Variable classMessage classToString : Exception -> string.
Variable validate : DataNft.ValidationParams -> DataNft.ValidationResult.
Variable checkStatus : Response -> Exc unit.
Variable numberToPaddedHex : Z -> string.
Variable addressHex : Address -> string.
Variable btoa : string -> Exc string.
Variable json : Response -> Exc (gmap string JsVal).
Variable net : Request -> Exc Response.

Let getMessageToSign := DataNft.getMessageToSign checkStatus json net.
Let viewData :=
  DataNft.viewData classMessage classToString validate checkStatus
    numberToPaddedHex addressHex net.
Let viewDataViaMVXNativeAuth :=
  DataNft.viewDataViaMVXNativeAuth classMessage classToString validate
    checkStatus numberToPaddedHex btoa net.

(** X9. [getMessageToSign] and [viewData] fail fast: when the network
    configuration is not set they throw [ErrNetworkConfig], and when it is
    set and the token has no marshal URL they throw
    [ErrAttributeNotSet('dataMarshal')]; in both cases no request is made
    and, in [viewData], the parameters are not even validated. *)
Theorem marshal_flows_fail_fast :
  forall st this p,
    (~ AccessSpec.configured st ->
     run (getMessageToSign st this) = (Throw (ErrNetworkConfig None), [])
     /\ run (viewData st this p) = (Throw (ErrNetworkConfig None), []))
    /\ (AccessSpec.configured st ->
        DataNft.dataMarshal this = "" ->
        run (getMessageToSign st this)
        = (Throw (ErrAttributeNotSet "dataMarshal"), [])
        /\ run (viewData st this p)
           = (Throw (ErrAttributeNotSet "dataMarshal"), [])).
Proof.
  intros st this p. split.
  - intros H. apply ensure_not_configured in H.
    unfold getMessageToSign, viewData, DataNft.getMessageToSign,
      DataNft.viewData. io_unfold. rewrite H. split; reflexivity.
  - intros H Hm. apply ensure_configured in H.
    unfold getMessageToSign, viewData, DataNft.getMessageToSign,
      DataNft.viewData. io_unfold. rewrite H, Hm. split; reflexivity.
Qed.

(** X10. [viewDataViaMVXNativeAuth] has neither guard.  For a token with
    no marshal URL it still makes its request, to the relative URL that
    starts with [/access?NFTId=]; and when the network configuration
    object is missing it makes no request and returns the failure record
    with the message of the [TypeError]. *)
Theorem native_auth_has_no_guards :
  forall st this p origins b64,
    DataNft.allPassed (validate (MarshalSpec.nativeAuthParams p)) = true ->
    DataNft.mvxNativeAuthOrigins p = Some origins ->
    btoa (Text.removeSpaces (Text.trim (Text.join origins))) = Return b64 ->
    (forall c,
        DataNft.networkConfiguration st = Some c ->
        DataNft.dataMarshal this = "" ->
        exists req rest,
          snd (run (viewDataViaMVXNativeAuth st this p)) = [req]
          /\ url req = "/access?NFTId=" +:+ rest)
    /\ (DataNft.networkConfiguration st = None ->
        run (viewDataViaMVXNativeAuth st this p)
        = (Return (MarshalSpec.failure
                     "Cannot read properties of undefined (reading 'chainID')"),
           [])).
Proof.
  intros st this p origins b64 Hv Ho Hb.
  unfold viewDataViaMVXNativeAuth, DataNft.viewDataViaMVXNativeAuth.
  io_unfold. fold (MarshalSpec.nativeAuthParams p). rewrite Hv, Ho. cbn [negb].
  rewrite Hb. unfold DataNft.configuredChainID. split.
  - intros c -> ->.
    destruct (DataNft.na_fwdHeaderMapLookup p) as [lookup|];
      [destruct (0 <? size lookup)%nat;
       [destruct (DataNft.na_fwdHeaderKeys p) as [keys|]|]|];
      rewrite (access_eq classToString checkStatus net); cbn [fst snd app];
      rewrite !appendStream_prefix, !appendFwdAllHeaders_prefix,
        !appendNestedIdx_prefix, ?append_assoc;
      match goal with
      | |- context [match ?m with Return _ => _ | Throw _ => _ end] =>
          destruct m; cbn [snd]
      end;
      eexists; eexists; (split; [reflexivity|]); reflexivity.
  - intros ->. reflexivity.
Qed.

Ltac flow_cases :=
  unfold getMessageToSign, viewData, viewDataViaMVXNativeAuth,
    DataNft.getMessageToSign, DataNft.viewData,
    DataNft.viewDataViaMVXNativeAuth;
  io_unfold;
  repeat match goal with
         | |- context [DataNft.ensureNetworkConfigSet ?st] =>
             destruct (DataNft.ensureNetworkConfigSet st); cbn [fst snd]
         | |- context [negb ?b] => destruct b; cbn [negb fst snd]
         | |- context [DataNft.mvxNativeAuthOrigins ?p] =>
             destruct (DataNft.mvxNativeAuthOrigins p); cbn [fst snd]
         | |- context [btoa ?s] => destruct (btoa s); cbn [fst snd]
         | |- context [DataNft.configuredChainID ?st] =>
             destruct (DataNft.configuredChainID st); cbn [fst snd]
         | |- context [DataNft.na_fwdHeaderMapLookup ?p] =>
             destruct (DataNft.na_fwdHeaderMapLookup p); cbn [fst snd]
         | |- context [(0 <? size ?l)%nat] =>
             destruct (0 <? size l)%nat; cbn [fst snd]
         | |- context [DataNft.na_fwdHeaderKeys ?p] =>
             destruct (DataNft.na_fwdHeaderKeys p); cbn [fst snd]
         | |- context [DataNft.fwdHeaderKeys ?p] =>
             destruct (DataNft.fwdHeaderKeys p); cbn [fst snd]
         | |- context [DataNft.access _ _ _ _ _ _] =>
             rewrite (access_eq classToString checkStatus net); cbn [fst snd app]
         | |- context [net ?r] => destruct (net r); cbn [fst snd]
         | |- context [checkStatus ?r] => destruct (checkStatus r); cbn [fst snd]
         | |- context [json ?r] => destruct (json r); cbn [fst snd]
         end.

(** X11. Each call of [getMessageToSign], [viewData] and
    [viewDataViaMVXNativeAuth] makes at most one request. *)
Theorem marshal_flows_make_at_most_one_request :
  forall st this,
    (length (snd (run (getMessageToSign st this))) <= 1)%nat
    /\ (forall p, (length (snd (run (viewData st this p))) <= 1)%nat)
    /\ (forall p,
           (length (snd (run (viewDataViaMVXNativeAuth st this p))) <= 1)%nat).
Proof.
  intros st this. split; [|split]; try intros p; flow_cases; cbn; lia.
Qed.

(** What a flow returns, by the answer to its request. *)
Let outcomeOf (req : Request) : Exc DataNft.ViewDataReturnType :=
  match net req with
  | Return resp =>
      match checkStatus resp with
      | Return _ =>
          Return {| DataNft.data := Some (blob resp);
                    DataNft.vd_contentType := default "" (contentType resp);
                    DataNft.error := None |}
      | Throw e =>
          Return (MarshalSpec.failure
                    (MarshalSpec.marshalError
                       (DataNft.toString classToString e) (text (blob resp))))
      end
  | Throw e => Return (MarshalSpec.failure (DataNft.message classMessage e))
  end.

Ltac by_answer :=
  rewrite (access_eq classToString checkStatus net); cbn [fst snd app];
  unfold outcomeOf;
  match goal with
  | |- context [match net ?r with Return _ => _ | Throw _ => _ end] =>
      destruct (net r) as [?resp|?e] eqn:?; cbn [snd fst]
  end;
  try match goal with
      | |- context [match checkStatus ?r with Return _ => _ | Throw _ => _ end] =>
          destruct (checkStatus r) as [|?e] eqn:?; cbn [snd fst]
      end;
  intros [<-|[]];
  repeat match goal with
         | H : net _ = _ |- _ => rewrite H; clear H
         | H : checkStatus _ = _ |- _ => rewrite H; clear H
         end;
  reflexivity.

Lemma viewData_outcome st this p req :
  In req (snd (run (viewData st this p))) ->
  fst (run (viewData st this p)) = outcomeOf req.
Proof.
  unfold viewData, DataNft.viewData. io_unfold.
  destruct (DataNft.ensureNetworkConfigSet st); [|intros []].
  destruct (negb (truthy (DataNft.dataMarshal this))); [intros []|].
  destruct (negb (DataNft.allPassed _)); [intros []|].
  destruct (DataNft.configuredChainID st) as [chain|]; [|intros []].
  destruct (DataNft.fwdHeaderKeys p) as [keys|]; by_answer.
Qed.

Lemma nativeAuth_outcome st this p req :
  In req (snd (run (viewDataViaMVXNativeAuth st this p))) ->
  fst (run (viewDataViaMVXNativeAuth st this p)) = outcomeOf req.
Proof.
  unfold viewDataViaMVXNativeAuth, DataNft.viewDataViaMVXNativeAuth. io_unfold.
  destruct (negb (DataNft.allPassed _)); [intros []|].
  destruct (DataNft.mvxNativeAuthOrigins p) as [origins|]; [|intros []].
  destruct (btoa _) as [b64|]; [|intros []].
  destruct (DataNft.configuredChainID st) as [chain|]; [|intros []].
  destruct (DataNft.na_fwdHeaderMapLookup p) as [lookup|];
    [destruct (0 <? size lookup)%nat;
     [destruct (DataNft.na_fwdHeaderKeys p) as [keys|]|]|]; by_answer.
Qed.

(** X12. In both access flows the answer to the one request decides the
    outcome.  When the marshal answers with a passing status, the call
    returns the body as data, with the [content-type] header of the
    response, or the empty text when there is none, and no error.  When
    the request itself fails, the call returns the failure record with the
    message of that error alone; nothing is raised. *)
Theorem access_outcome_by_answer :
  forall st this req,
    let returned :=
      fun o =>
        (forall p, In req (snd (run (viewData st this p))) ->
                   fst (run (viewData st this p)) = Return o)
        /\ (forall p,
               In req (snd (run (viewDataViaMVXNativeAuth st this p))) ->
               fst (run (viewDataViaMVXNativeAuth st this p)) = Return o) in
    (forall resp,
        net req = Return resp ->
        checkStatus resp = Return tt ->
        returned {| DataNft.data := Some (blob resp);
                    DataNft.vd_contentType := default "" (contentType resp);
                    DataNft.error := None |})
    /\ (forall e,
           net req = Throw e ->
           returned {| DataNft.data := None; DataNft.vd_contentType := "";
                       DataNft.error := Some (DataNft.message classMessage e) |}).
Proof.
  intros st this req returned. subst returned. cbv beta.
  split.
  - intros resp Hnet Hcheck. split; intros p Hin;
      [rewrite (viewData_outcome st this p req Hin)
      |rewrite (nativeAuth_outcome st this p req Hin)];
      unfold outcomeOf; rewrite Hnet, Hcheck; reflexivity.
  - intros e Hnet. split; intros p Hin;
      [rewrite (viewData_outcome st this p req Hin)
      |rewrite (nativeAuth_outcome st this p req Hin)];
      unfold outcomeOf; rewrite Hnet; reflexivity.
Qed.

Lemma append_flags stream fwdAll nested u :
  DataNft.appendNestedIdx nested
    (DataNft.appendFwdAllHeaders fwdAll (DataNft.appendStream stream u))
  = u +:+ AccessSpec.flags stream fwdAll nested.
Proof.
  unfold AccessSpec.flags.
  destruct stream as [[]|], fwdAll as [[]|], nested as [n|]; cbn;
    rewrite ?append_assoc, ?append_empty; reflexivity.
Qed.

(** X13. The URL of the request of [viewData] is the marshal URL followed
    by [/access] and the parameters nonce, NFTId, signature, chainId and
    accessRequesterAddr, then the optional flags in the fixed order
    streamInLine, fwdAllHeaders, nestedIdxToStream, fwdHeaderKeys.  A
    [stream] or [fwdAllHeaders] set to [false] adds nothing, as if left
    out, and [fwdHeaderKeys] is appended whether or not a header lookup
    map comes with it. *)
Theorem viewData_request_url :
  forall st this p req,
    In req (snd (run (viewData st this p))) ->
    exists c,
      DataNft.networkConfiguration st = Some c
      /\ url req
         = AccessSpec.viewDataUrl (DataNft.dataMarshal this)
             (DataNft.template id (DataNft.signedMessage p))
             (DataNft.collection this)
             (numberToPaddedHex (DataNft.nonce this))
             (DataNft.sr_signature
                (DataNft.extractSignature classToString addressHex
                   (DataNft.signableMessage p)))
             (DataNft.marshalChainId (DataNft.chainID c))
             (DataNft.sr_addrInHex
                (DataNft.extractSignature classToString addressHex
                   (DataNft.signableMessage p)))
             p.
Proof.
  intros st this p req.
  unfold viewData, DataNft.viewData. io_unfold.
  destruct (DataNft.ensureNetworkConfigSet st); [|intros []].
  destruct (negb (truthy (DataNft.dataMarshal this))); [intros []|].
  destruct (negb (DataNft.allPassed _)); [intros []|].
  unfold DataNft.configuredChainID.
  destruct (DataNft.networkConfiguration st) as [c|]; [|intros []].
  rewrite append_flags. unfold AccessSpec.viewDataUrl, AccessSpec.keysFlag.
  destruct (DataNft.fwdHeaderKeys p) as [keys|];
    match goal with
    | |- context [DataNft.access _ _ _ ?u ?cfg []] =>
        destruct (access_run classToString checkStatus net u cfg [])
          as [r ->];
        intros Hin;
        (assert (exists cf, req = mkRequest u (Some cf)) as [cf ->]
          by (destruct r; cbn in Hin; destruct Hin as [<-|[]]; eauto))
    end;
    exists c; (split; [reflexivity|]); cbn [url];
    rewrite ?append_assoc, ?append_empty; reflexivity.
Qed.

Lemma extract_unsigned m :
  AccessSpec.unsigned m ->
  DataNft.sr_signature (DataNft.extractSignature classToString addressHex m) = ""
  /\ DataNft.sr_addrInHex (DataNft.extractSignature classToString addressHex m)
     = "".
Proof.
  destruct m as [[[[h|[h|e]|]|] [a|]]|]; cbn; intros H; try contradiction;
    split; reflexivity.
Qed.

(** X14. [viewData] does not stop when it cannot read the signature.  With
    the configuration set, a marshal URL and validation passed, a call
    whose signable message is missing, lacks its signature or its address,
    or whose signature throws when read, still makes its one request, with
    empty [signature] and [accessRequesterAddr] parameters. *)
Theorem unsigned_viewData_is_still_sent :
  forall st this p c,
    AccessSpec.configured st ->
    truthy (DataNft.dataMarshal this) = true ->
    DataNft.allPassed (validate (MarshalSpec.viewDataParams p)) = true ->
    DataNft.networkConfiguration st = Some c ->
    AccessSpec.unsigned (DataNft.signableMessage p) ->
    exists config,
      snd (run (viewData st this p))
      = [{| url := AccessSpec.viewDataUrl (DataNft.dataMarshal this)
                     (DataNft.template id (DataNft.signedMessage p))
                     (DataNft.collection this)
                     (numberToPaddedHex (DataNft.nonce this)) ""
                     (DataNft.marshalChainId (DataNft.chainID c)) "" p;
            config := config |}].
Proof.
  intros st this p c Hcfg Hm Hv Hc Hu.
  apply ensure_configured in Hcfg. apply extract_unsigned in Hu as [Hs Ha].
  unfold viewData, DataNft.viewData. io_unfold.
  fold (MarshalSpec.viewDataParams p).
  rewrite Hcfg, Hm, Hv. cbn [negb]. unfold DataNft.configuredChainID.
  rewrite Hc, Hs, Ha. rewrite append_flags.
  unfold AccessSpec.viewDataUrl, AccessSpec.keysFlag.
  destruct (DataNft.fwdHeaderKeys p) as [keys|];
    match goal with
    | |- context [DataNft.access _ _ _ ?u ?cfg []] =>
        destruct (access_run classToString checkStatus net u cfg [])
          as [r ->]
    end;
    eexists; destruct r; cbn [snd app]; rewrite ?append_assoc, ?append_empty;
    reflexivity.
Qed.

(** X15. With the configuration set and a marshal URL, [getMessageToSign]
    makes the one request to [/preaccess].  On a passing status it returns
    the [nonce] field of the JSON body, which is [undefined] when the body
    has none; on a failing status it raises the error of the status check,
    where the access flows return it, and it raises as well when the body
    cannot be read as JSON. *)
Theorem getMessageToSign_returns_the_nonce :
  forall st this c,
    AccessSpec.configured st ->
    truthy (DataNft.dataMarshal this) = true ->
    DataNft.networkConfiguration st = Some c ->
    let req :=
      {| url := DataNft.dataMarshal this +:+ "/preaccess?chainId="
                +:+ DataNft.marshalChainId (DataNft.chainID c);
         config := None |} in
    forall resp,
      net req = Return resp ->
      (forall data,
          checkStatus resp = Return tt ->
          json resp = Return data ->
          run (getMessageToSign st this)
          = (Return (prop data "nonce"), [req]))
      /\ (forall e,
             checkStatus resp = Throw e ->
             run (getMessageToSign st this) = (Throw e, [req]))
      /\ (forall e,
             checkStatus resp = Return tt ->
             json resp = Throw e ->
             run (getMessageToSign st this) = (Throw e, [req])).
Proof.
  intros st this c Hcfg Hm Hc req resp Hnet. subst req.
  apply ensure_configured in Hcfg.
  unfold getMessageToSign, DataNft.getMessageToSign. io_unfold.
  rewrite Hcfg, Hm. cbn [negb]. unfold DataNft.configuredChainID. rewrite Hc.
  rewrite Hnet. split; [|split].
  - intros data Hs Hj. rewrite Hs, Hj. reflexivity.
  - intros e Hs. rewrite Hs. reflexivity.
  - intros e Hs Hj. rewrite Hs, Hj. reflexivity.
Qed.

End MarshalEdges.
(** A native-auth call for a token with no marshal URL goes to a relative
    URL, and one made before the network configuration is set returns the
    failure record. *)
Lemma native_auth_has_no_guards_witness :
  (exists req rest,
      snd (run (DataNft.viewDataViaMVXNativeAuth Examples.classMessage
                  Examples.classToString Examples.acceptAll
                  Examples.checkStatus Examples.numberToPaddedHex
                  Examples.btoa Examples.marshalUp Examples.devnet
                  AccessExamples.noMarshal Examples.nativeAuthArgs)) = [req]
      /\ url req = "/access?NFTId=" +:+ rest)
  /\ run (DataNft.viewDataViaMVXNativeAuth Examples.classMessage
            Examples.classToString Examples.acceptAll Examples.checkStatus
            Examples.numberToPaddedHex Examples.btoa Examples.marshalUp
            AccessExamples.unset Examples.nft Examples.nativeAuthArgs)
     = (Return (MarshalSpec.failure
                  "Cannot read properties of undefined (reading 'chainID')"),
        []).
Proof.
  split.
  - apply (proj1 (native_auth_has_no_guards Examples.classMessage
                    Examples.classToString Examples.acceptAll
                    Examples.checkStatus Examples.numberToPaddedHex
                    Examples.btoa Examples.marshalUp Examples.devnet
                    AccessExamples.noMarshal Examples.nativeAuthArgs
                    ["http://localhost:3000"] "b64" eq_refl eq_refl eq_refl)
             AccessExamples.devnetConfig);
      reflexivity.
  - apply (proj2 (native_auth_has_no_guards Examples.classMessage
                    Examples.classToString Examples.acceptAll
                    Examples.checkStatus Examples.numberToPaddedHex
                    Examples.btoa Examples.marshalUp AccessExamples.unset
                    Examples.nft Examples.nativeAuthArgs
                    ["http://localhost:3000"] "b64" eq_refl eq_refl eq_refl)).
    reflexivity.
Defined.

(** The request of the example call has the URL of the example request. *)
Lemma viewData_request_url_witness :
  exists c,
    DataNft.networkConfiguration Examples.devnet = Some c
    /\ url Examples.viewDataRequest
       = AccessSpec.viewDataUrl "https://marshal.example/v1" "nonce-1"
           "DATANFTFT-e0b917" "05" "c0ffee"
           (DataNft.marshalChainId (DataNft.chainID c)) "a1b2"
           Examples.viewDataArgs.
Proof.
  apply (viewData_request_url Examples.classMessage Examples.classToString
           Examples.acceptAll Examples.checkStatus Examples.numberToPaddedHex
           Examples.addressHex Examples.marshalUp Examples.devnet Examples.nft
           Examples.viewDataArgs Examples.viewDataRequest).
  vm_compute. left. reflexivity.
Defined.

(** A call with an address and no signature: the request goes out with
    both parameters empty, no [streamInLine] and the nested index. *)
Lemma unsigned_viewData_is_still_sent_witness :
  exists config,
    snd (run (Examples.viewData Examples.acceptAll Examples.marshalUp
                AccessExamples.noSignatureArgs))
    = [{| url := "https://marshal.example/v1/access?nonce=nonce-1"
                 +:+ "&NFTId=DATANFTFT-e0b917-05&signature=&chainId=ED"
                 +:+ "&accessRequesterAddr=&nestedIdxToStream=2";
          config := config |}].
Proof.
  destruct (unsigned_viewData_is_still_sent Examples.classMessage
              Examples.classToString Examples.acceptAll Examples.checkStatus
              Examples.numberToPaddedHex Examples.addressHex Examples.marshalUp
              Examples.devnet Examples.nft AccessExamples.noSignatureArgs
              AccessExamples.devnetConfig (conj eq_refl eq_refl) eq_refl
              eq_refl eq_refl I) as [config H].
  exists config. exact H.
Defined.

(** On the devnet the example marshal answers the preaccess request with
    the nonce ["nonce-1"]; a marshal that answers 403 makes the call
    raise. *)
Lemma getMessageToSign_returns_the_nonce_witness :
  run (Examples.getMessageToSign Examples.marshalUp)
  = (Return (JStr "nonce-1"), [Examples.preaccessRequest])
  /\ run (Examples.getMessageToSign Examples.marshalDenies)
     = (Throw (ErrFetch 403 "Forbidden"), [Examples.preaccessRequest]).
Proof.
  split.
  - exact (proj1 (getMessageToSign_returns_the_nonce Examples.checkStatus
                    Examples.json Examples.marshalUp Examples.devnet
                    Examples.nft AccessExamples.devnetConfig
                    (conj eq_refl eq_refl) eq_refl eq_refl AccessExamples.up
                    eq_refl)
             {[ "nonce" := JStr "nonce-1" ]} eq_refl eq_refl).
  - exact (proj1 (proj2 (getMessageToSign_returns_the_nonce
                           Examples.checkStatus Examples.json
                           Examples.marshalDenies Examples.devnet Examples.nft
                           AccessExamples.devnetConfig (conj eq_refl eq_refl)
                           eq_refl eq_refl Examples.forbidden eq_refl))
             (ErrFetch 403 "Forbidden") eq_refl).
Defined.
(** ** The private methods of the first minter class *)

Lemma split_lacks sep s :
  TraitsSpec.lacks sep s = true -> MinterPrivate.split sep s = [s].
Proof.
  induction s as [|c s IH]; cbn; [reflexivity|].
  destruct (Ascii.eqb c sep); cbn; [discriminate|].
  intros H. rewrite (IH H). reflexivity.
Qed.

Lemma split_at sep a b :
  TraitsSpec.lacks sep a = true ->
  MinterPrivate.split sep (a +:+ String sep b) = a :: MinterPrivate.split sep b.
Proof.
  induction a as [|c a IH].
  - intros _. change ("" +:+ String sep b) with (String sep b). cbn.
    rewrite Ascii.eqb_refl. reflexivity.
  - change (String c a +:+ String sep b) with (String c (a +:+ String sep b)).
    cbn. destruct (Ascii.eqb c sep); cbn; [discriminate|].
    intros H. rewrite (IH H). reflexivity.
Qed.

Lemma lacks_app sep a b :
  TraitsSpec.lacks sep (a +:+ b)
  = TraitsSpec.lacks sep a && TraitsSpec.lacks sep b.
Proof.
  induction a as [|c a IH]; [reflexivity|].
  change (String c a +:+ b) with (String c (a +:+ b)). cbn.
  rewrite IH. now rewrite andb_assoc.
Qed.

Lemma join_cons a b l :
  Text.join (a :: b :: l) = a +:+ String "," (Text.join (b :: l)).
Proof. reflexivity. Qed.

Lemma split_join l :
  forallb (TraitsSpec.lacks ",") l = true ->
  MinterPrivate.split "," (Text.join l) = match l with [] => [""] | _ => l end.
Proof.
  induction l as [|a l IH]; [reflexivity|].
  cbn [forallb]. intros [Ha Hl]%andb_prop.
  destruct l as [|b l].
  - now apply split_lacks.
  - rewrite join_cons, (split_at _ _ _ Ha), (IH Hl). reflexivity.
Qed.

Section PrivateMethods.

Variable classMessage : Exception -> string.
Variable checkStatus : Response -> Exc unit.
Variable trim : string -> string.
Variable post : MinterPrivate.PostRequest -> Exc Response.
Variable jsonGenerated : Response -> Exc (option MinterPrivate.Generated).
Variable fetchArt : string -> Exc MinterPrivate.ArtResponse.
Variable storeDirectory : string -> list MinterPrivate.File -> Exc string.

Let toTrait := MinterPrivate.toTrait trim.
Let toTraits := MinterPrivate.toTraits trim.
Let createIpfsMetadata := MinterPrivate.createIpfsMetadata trim.
Let dataNFTDataStreamAdvertise :=
  MinterPrivate.dataNFTDataStreamAdvertise checkStatus post jsonGenerated.

Variable itheumTokenIdentifier : string -> string.
Variable validateSpecificParamsMint :
  Minter.MintValidationParams -> Minter.MintValidationResult.
Variable checkUrlIsUp : string -> list Z -> Exc unit.
Variable checkTraitsUrl : string -> Exc unit.

Let mint :=
  MinterPrivate.mint classMessage checkStatus trim post jsonGenerated fetchArt
    storeDirectory itheumTokenIdentifier validateSpecificParamsMint
    checkUrlIsUp checkTraitsUrl.

Lemma wellFormed_segments pairs :
  TraitsSpec.wellFormed trim pairs = true ->
  forallb (TraitsSpec.lacks ",") (map TraitsSpec.segment pairs) = true
  /\ List.filter (fun element => negb (String.eqb (trim element) ""))
       (map TraitsSpec.segment pairs) = map TraitsSpec.segment pairs
  /\ toTraits (map TraitsSpec.segment pairs)
     = Return (map (TraitsSpec.traitOf trim) pairs).
Proof.
  induction pairs as [|[k v] pairs IH]; [intros _; repeat split|].
  cbn [TraitsSpec.wellFormed forallb fst snd].
  intros [[[[[Hk Hk']%andb_prop Hv]%andb_prop Hv']%andb_prop Hb]%andb_prop
            Hrest]%andb_prop.
  destruct (IH Hrest) as (IH1 & IH2 & IH3). clear IH.
  cbn [map forallb List.filter]. unfold TraitsSpec.blank in Hb.
  rewrite Hb, IH1, IH2. split; [|split; [reflexivity|]].
  - unfold TraitsSpec.segment. cbn [fst snd].
    rewrite !lacks_app, Hk', Hv'. reflexivity.
  - unfold toTraits in *. cbn [MinterPrivate.toTraits]. rewrite IH3.
    unfold MinterPrivate.toTrait, TraitsSpec.segment. cbn [fst snd].
    change (":" +:+ v) with (String ":" v).
    rewrite (split_at _ _ _ Hk), (split_lacks _ _ Hv). reflexivity.
Qed.

(** X16. [createIpfsMetadata] reads a traits text [k1:v1,k2:v2,...] whose
    keys and values hold no colon and no comma: the metadata has the
    description [title : description] and one attribute per trait, in
    order and trimmed, followed by the attributes [Data Preview URL] and
    [Creator].  An empty traits text gives these two attributes alone. *)
Theorem createIpfsMetadata_reads_the_traits :
  forall pairs datasetTitle datasetDescription dataNFTStreamPreviewUrl address,
    trim "" = "" ->
    TraitsSpec.wellFormed trim pairs = true ->
    createIpfsMetadata (Text.join (map TraitsSpec.segment pairs)) datasetTitle
      datasetDescription dataNFTStreamPreviewUrl address
    = Return (TraitsSpec.metadata datasetTitle datasetDescription
                (map (TraitsSpec.traitOf trim) pairs)
                dataNFTStreamPreviewUrl address).
Proof.
  intros pairs title description preview address Hempty Hwf.
  destruct (wellFormed_segments pairs Hwf) as (Hcomma & Hfilter & Htraits).
  unfold createIpfsMetadata, MinterPrivate.createIpfsMetadata.
  rewrite (split_join _ Hcomma).
  destruct pairs as [|kv pairs].
  - cbn. rewrite Hempty. reflexivity.
  - change (match map TraitsSpec.segment (kv :: pairs) with
            | [] => [""]
            | _ => map TraitsSpec.segment (kv :: pairs)
            end) with (map TraitsSpec.segment (kv :: pairs)).
    rewrite Hfilter. fold toTraits. rewrite Htraits. reflexivity.
Qed.

Lemma bad_trait_raises pairs bad :
  TraitsSpec.wellFormed trim pairs = true ->
  TraitsSpec.lacks ":" bad = true ->
  TraitsSpec.lacks "," bad = true ->
  TraitsSpec.blank trim bad = false ->
  let attributes := (map TraitsSpec.segment pairs ++ [bad])%list in
  MinterPrivate.split "," (Text.join attributes) = attributes
  /\ List.filter (fun element => negb (String.eqb (trim element) ""))
       attributes = attributes
  /\ toTraits attributes
     = Throw (TypeError "Cannot read properties of undefined (reading 'trim')").
Proof.
  intros Hwf Hcolon Hcomma Hblank attributes.
  destruct (wellFormed_segments pairs Hwf) as (Hc & Hf & Ht).
  subst attributes. split; [|split].
  - rewrite split_join.
    + destruct (map TraitsSpec.segment pairs); reflexivity.
    + rewrite forallb_app, Hc. cbn. now rewrite Hcomma.
  - rewrite List.filter_app, Hf. cbn. unfold TraitsSpec.blank in Hblank.
    now rewrite Hblank.
  - clear Hc Hf. revert Ht. generalize (map (TraitsSpec.traitOf trim) pairs).
    unfold toTraits.
    induction (map TraitsSpec.segment pairs) as [|a l IH]; intros traits.
    + intros _. cbn. unfold MinterPrivate.toTrait.
      rewrite (split_lacks _ _ Hcolon). reflexivity.
    + cbn [app MinterPrivate.toTraits].
      destruct (MinterPrivate.toTrait trim a) as [t|e]; cbn; [|discriminate].
      destruct (MinterPrivate.toTraits trim l) as [ts|e] eqn:Hl; cbn;
        [|discriminate].
      intros _. rewrite (IH ts eq_refl). reflexivity.
Qed.

(** X17. Two edges of [createIpfsMetadata].  Of a trait [key:value:rest]
    only the key and the text between the first two colons are kept: what
    follows the second colon is dropped.  And a trait with no colon, after
    any number of good ones, makes the call throw the [TypeError] of
    reading [trim] of [undefined]. *)
Theorem createIpfsMetadata_edges :
  forall datasetTitle datasetDescription dataNFTStreamPreviewUrl address,
    (forall key value rest,
        let trait := key +:+ ":" +:+ value +:+ ":" +:+ rest in
        TraitsSpec.lacks ":" key = true ->
        TraitsSpec.lacks ":" value = true ->
        TraitsSpec.lacks "," trait = true ->
        TraitsSpec.blank trim trait = false ->
        createIpfsMetadata trait datasetTitle datasetDescription
          dataNFTStreamPreviewUrl address
        = Return (TraitsSpec.metadata datasetTitle datasetDescription
                    [TraitsSpec.traitOf trim (key, value)]
                    dataNFTStreamPreviewUrl address))
    /\ (forall pairs bad,
           TraitsSpec.wellFormed trim pairs = true ->
           TraitsSpec.lacks ":" bad = true ->
           TraitsSpec.lacks "," bad = true ->
           TraitsSpec.blank trim bad = false ->
           createIpfsMetadata
             (Text.join (map TraitsSpec.segment pairs ++ [bad])%list)
             datasetTitle datasetDescription dataNFTStreamPreviewUrl address
           = Throw (TypeError
                      "Cannot read properties of undefined (reading 'trim')")).
Proof.
  intros title description preview address. split.
  - intros key value rest trait Hk Hv Hcomma Hblank.
    unfold createIpfsMetadata, MinterPrivate.createIpfsMetadata.
    rewrite (split_lacks _ _ Hcomma). cbn [List.filter].
    unfold TraitsSpec.blank in Hblank. rewrite Hblank. cbn [negb].
    cbn [MinterPrivate.toTraits]. unfold MinterPrivate.toTrait. subst trait.
    change (":" +:+ value +:+ ":" +:+ rest)
      with (String ":" (value +:+ String ":" rest)).
    rewrite (split_at _ _ _ Hk), (split_at _ _ _ Hv). reflexivity.
  - intros pairs bad Hwf Hcolon Hcomma Hblank.
    destruct (bad_trait_raises pairs bad Hwf Hcolon Hcomma Hblank)
      as (Hs & Hf & Ht).
    unfold createIpfsMetadata, MinterPrivate.createIpfsMetadata.
    rewrite Hs, Hf. fold toTraits. rewrite Ht. reflexivity.
Qed.

(** X18. [dataNFTDataStreamAdvertise] posts the stream URL to [/generate]
    of the marshal and reads the JSON body before it checks the status: a
    body that is no JSON raises its own error whatever the status, a
    failing status raises whatever the body holds, and with a passing
    status the call returns the hash and the encrypted URL when the body
    has both, non-empty, and throws [ErrFailedOperation] otherwise. *)
Theorem advertise_reads_the_body_before_the_status :
  forall dataNFTStreamUrl dataMarshalUrl,
    let request := TraitsSpec.generateRequest dataNFTStreamUrl dataMarshalUrl in
    let result := dataNFTDataStreamAdvertise dataNFTStreamUrl dataMarshalUrl in
    (forall e, post request = Throw e -> result = Throw e)
    /\ (forall res,
           post request = Return res ->
           (forall e, jsonGenerated res = Throw e -> result = Throw e)
           /\ (forall data e,
                  jsonGenerated res = Return data ->
                  checkStatus res = Throw e -> result = Throw e)
           /\ (forall data,
                  jsonGenerated res = Return data ->
                  checkStatus res = Return tt ->
                  (forall encrypted hash,
                      TraitsSpec.usable data encrypted hash ->
                      result
                      = Return {| Minter.dataNftHash := hash;
                                  Minter.dataNftStreamUrlEncrypted :=
                                    encrypted |})
                  /\ (TraitsSpec.unusable data ->
                      result
                      = Throw (ErrFailedOperation "dataNFTDataStreamAdvertise"
                                 "Invalid response from Data Marshal")))).
Proof.
  intros streamUrl marshalUrl request result. subst request result.
  unfold dataNFTDataStreamAdvertise, MinterPrivate.dataNFTDataStreamAdvertise.
  fold (TraitsSpec.generateRequest streamUrl marshalUrl).
  split; [intros e ->; reflexivity|].
  intros res ->. cbn. split; [intros e ->; reflexivity|].
  split; [intros data e -> ->; reflexivity|].
  intros data -> ->. cbn. split.
  - intros encrypted hash (-> & -> & ->). reflexivity.
  - destruct data as [[[encrypted|] [hash|]]|]; cbn; try reflexivity.
    intros [->| ->]; [reflexivity|].
    now rewrite andb_false_r.
Qed.

Lemma art_url_truthy a b : truthy (a +:+ "/v1/generateNFTArt?hash=" +:+ b) = true.
Proof. destruct a; reflexivity. Qed.

(** X19. A mint with no image of its own and a storage token, end to end:
    when validation and the URL checks pass and the marshal's answer is
    usable, the image is fetched from [/v1/generateNFTArt?hash=] of the
    image service with the hash the marshal gave, image and metadata are
    stored as one directory, image first, and the transaction carries the
    two [ipfs.io] URLs under the one content address and the encrypted
    stream URL.  When the storage service fails instead, [mint] throws
    [ErrFailedOperation] with the message of that failure. *)
Theorem mint_stores_the_generated_media :
  forall this senderAddress tokenName dataMarshalUrl dataStreamUrl
         dataPreviewUrl royalties supply datasetTitle datasetDescription
         antiSpamTax options token res data encrypted hash art traits,
    MintChecks.passed validateSpecificParamsMint checkUrlIsUp senderAddress
      tokenName royalties supply datasetTitle datasetDescription antiSpamTax
      dataStreamUrl dataPreviewUrl dataMarshalUrl ->
    truthy_opt (Minter.imageUrl (Minter.orEmpty options)) = false ->
    Minter.nftStorageToken (Minter.orEmpty options) = Some token ->
    truthy token = true ->
    post (TraitsSpec.generateRequest dataStreamUrl dataMarshalUrl)
    = Return res ->
    jsonGenerated res = Return data ->
    checkStatus res = Return tt ->
    TraitsSpec.usable data encrypted hash ->
    fetchArt (Minter.imageServiceUrl this +:+ "/v1/generateNFTArt?hash="
              +:+ hash) = Return art ->
    createIpfsMetadata
      (DataNftFactory.orElse (MinterPrivate.nftTraits art) "") datasetTitle
      datasetDescription dataPreviewUrl (bech32 senderAddress)
    = Return traits ->
    let stored :=
      storeDirectory token
        (TraitsSpec.directory (MinterPrivate.art_blob art) traits) in
    let result :=
      mint this senderAddress tokenName dataMarshalUrl dataStreamUrl
        dataPreviewUrl royalties supply datasetTitle datasetDescription
        antiSpamTax options in
    (forall cid,
        stored = Return cid ->
        result
        = Return (MintSpec.expectedTransaction itheumTokenIdentifier this
                    senderAddress antiSpamTax options
                    (MintSpec.mintArguments tokenName
                       (TraitsSpec.ipfsUrl cid "image.png")
                       (TraitsSpec.ipfsUrl cid "metadata.json")
                       dataMarshalUrl encrypted dataPreviewUrl royalties
                       supply datasetTitle datasetDescription)))
    /\ (forall e,
           stored = Throw e ->
           result = Throw (ErrFailedOperation "storeToIpfs"
                             (DataNft.message classMessage e))).
Proof.
  intros this senderAddress tokenName dataMarshalUrl dataStreamUrl
    dataPreviewUrl royalties supply datasetTitle datasetDescription
    antiSpamTax options token res data encrypted hash art traits
    (Hv & H1 & H2 & H3) Himage Htoken Htruthy Hpost Hjson Hstatus
    (-> & Henc & Hhash) Hart Htraits stored result.
  assert (Htok : default (itheumTokenIdentifier (Minter.env this))
                   (Minter.antiSpamTokenIdentifier (Minter.orEmpty options))
                 = MintSpec.taxToken itheumTokenIdentifier this options).
  { destruct options as [[? ? ? [tok|]]|]; reflexivity. }
  assert (Hassets :
      forall r,
        stored = r ->
        result
        = (match r with
           | Return cid =>
               Return (MintSpec.expectedTransaction itheumTokenIdentifier this
                         senderAddress antiSpamTax options
                         (MintSpec.mintArguments tokenName
                            (TraitsSpec.ipfsUrl cid "image.png")
                            (TraitsSpec.ipfsUrl cid "metadata.json")
                            dataMarshalUrl encrypted dataPreviewUrl royalties
                            supply datasetTitle datasetDescription))
           | Throw e =>
               Throw (ErrFailedOperation "storeToIpfs"
                        (DataNft.message classMessage e))
           end)).
  { intros r Hr. subst stored result.
    unfold mint, MinterPrivate.mint, DataNftMinter.mint,
      DataNftMinter.mintAssets.
    fold (MintChecks.validationParams senderAddress tokenName royalties
            supply datasetTitle datasetDescription antiSpamTax).
    rewrite Hv. cbn [negb]. rewrite H1. cbn. rewrite H2. cbn. rewrite H3. cbn.
    unfold MinterPrivate.dataNFTDataStreamAdvertise.
    fold (TraitsSpec.generateRequest dataStreamUrl dataMarshalUrl).
    rewrite Hpost. cbn. rewrite Hjson. cbn. rewrite Hstatus. cbn.
    rewrite Henc, Hhash. cbn. rewrite Himage, Htoken. cbn [negb truthy_opt].
    rewrite Htruthy. cbn [negb].
    unfold MinterPrivate.createFileFromUrl. rewrite art_url_truthy, Hart. cbn.
    fold createIpfsMetadata. rewrite Htraits. cbn.
    unfold MinterPrivate.storeToIpfs.
    fold (TraitsSpec.directory (MinterPrivate.art_blob art) traits).
    rewrite Hr. destruct r as [cid|e]; cbn; [|reflexivity].
    rewrite Htok. unfold MintSpec.expectedTransaction.
    destruct (0 <? antiSpamTax)%Z; reflexivity. }
  split.
  - intros cid H. exact (Hassets _ H).
  - intros e H. exact (Hassets _ H).
Qed.

End PrivateMethods.
(** The traits text [Background:Blue, Shape : Circle] gives two trimmed
    attributes and the two fixed ones. *)
Lemma createIpfsMetadata_reads_the_traits_witness :
  MinterPrivate.createIpfsMetadata Text.trim "Background:Blue, Shape : Circle"
    "A data set" "Its description" "https://preview.example" "erd1alice"
  = Return MintExamples.traits.
Proof.
  exact (createIpfsMetadata_reads_the_traits Text.trim MintExamples.pairs
           "A data set" "Its description" "https://preview.example"
           "erd1alice" eq_refl eq_refl).
Defined.

(** A traits text with a URL as value keeps the scheme only, and one with
    a trait that has no colon throws. *)
Lemma createIpfsMetadata_edges_witness :
  MinterPrivate.createIpfsMetadata Text.trim "Source:https://a.example" "T"
    "D" "P" "erd1alice"
  = Return (TraitsSpec.metadata "T" "D"
              [{| MinterPrivate.trait_type := "Source";
                  MinterPrivate.trait_value := "https" |}] "P" "erd1alice")
  /\ MinterPrivate.createIpfsMetadata Text.trim "Background:Blue,Circle" "T"
       "D" "P" "erd1alice"
     = Throw (TypeError "Cannot read properties of undefined (reading 'trim')").
Proof.
  split.
  - exact (proj1 (createIpfsMetadata_edges Text.trim "T" "D" "P" "erd1alice")
             "Source" "https" "//a.example" eq_refl eq_refl eq_refl eq_refl).
  - exact (proj2 (createIpfsMetadata_edges Text.trim "T" "D" "P" "erd1alice")
             [("Background", "Blue")] "Circle" eq_refl eq_refl eq_refl
             eq_refl).
Defined.

(** The example mint with no tax: the bare call with the two URLs under
    the content address [bafy123]. *)
Lemma mint_stores_the_generated_media_witness :
  MintExamples.mint 0
  = Return {| value := None;
              data :=
                call "mint"
                  (MintSpec.mintArguments "TOKEN"
                     "https://ipfs.io/ipfs/bafy123/image.png"
                     "https://ipfs.io/ipfs/bafy123/metadata.json"
                     "https://marshal.example" "encrypted"
                     "https://preview.example" 10 5 "A data set"
                     "Its description");
              sender := Examples.alice;
              receiver := getAddress (Minter.contract Examples.minter);
              gasLimit := 60000000;
              chainID := "D" |}.
Proof.
  exact (proj1 (mint_stores_the_generated_media Examples.classMessage
                  Examples.checkStatus Text.trim MintExamples.post
                  MintExamples.jsonGenerated MintExamples.fetchArt
                  MintExamples.storeDirectory Examples.itheumTokenIdentifier
                  Examples.validMint Examples.urlIsUp Examples.traitsOk
                  Examples.minter Examples.alice "TOKEN"
                  "https://marshal.example" "https://stream.example"
                  "https://preview.example" 10 5 "A data set"
                  "Its description" 0 (MintChecks.storageOnly "storage-token")
                  "storage-token" MintExamples.generated
                  (Some {| MinterPrivate.encryptedMessage := Some "encrypted";
                           MinterPrivate.messageHash := Some "hash" |})
                  "encrypted" "hash" MintExamples.art MintExamples.traits
                  (conj eq_refl (conj eq_refl (conj eq_refl eq_refl)))
                  eq_refl eq_refl eq_refl eq_refl eq_refl eq_refl
                  (conj eq_refl (conj eq_refl eq_refl)) eq_refl eq_refl)
           "bafy123" eq_refl).
Defined.
(** ** The factory methods of the DataNft class *)

Section FactoryMethods.

Variable EnvironmentsEnum : gmap string string.
Variable networkConfiguration : gmap string DataNft.Config.
Variable apiConfiguration : gmap string string.
Variable dataNftTokenIdentifier : string -> string.
Variable classMessage : Exception -> string.
Variable checkStatus : Response -> Exc unit.
Variable createNftIdentifier : string -> Z -> string.
Variable NftType : Type.
Variable parseDataNft : NftType -> Exc DataNft.t.
Variable jsonNft : Response -> Exc NftType.
Variable jsonNfts : Response -> Exc (list NftType).
Variable net : Request -> Exc Response.
Variable jsonPayload : Response -> Exc (DataNftFactory.Payload NftType).
Variable json : Response -> Exc (gmap string JsVal).

Let setNetworkConfig :=
  DataNftFactory.setNetworkConfig EnvironmentsEnum networkConfiguration
    apiConfiguration.
Let createFromApi :=
  DataNftFactory.createFromApi dataNftTokenIdentifier checkStatus
    createNftIdentifier NftType parseDataNft jsonNft net.
Let createManyFromApi :=
  DataNftFactory.createManyFromApi dataNftTokenIdentifier checkStatus
    createNftIdentifier NftType parseDataNft jsonNfts net.
Let createFromApiResponseOrBulk :=
  DataNftFactory.createFromApiResponseOrBulk classMessage NftType parseDataNft.
Let ownedByAddress :=
  DataNftFactory.ownedByAddress dataNftTokenIdentifier classMessage checkStatus
    NftType parseDataNft net jsonPayload.
Let parseEach := DataNftFactory.parseEach NftType parseDataNft.
Let parsedAll := FactorySpec.parsedAll NftType parseDataNft.
Let firstFailure := FactorySpec.firstFailure NftType parseDataNft.

Lemma parseEach_all data dataNfts :
  parsedAll data dataNfts <-> parseEach data = Return dataNfts.
Proof.
  unfold parsedAll, FactorySpec.parsedAll, parseEach. split.
  - induction 1 as [|nft dataNft data dataNfts H _ IH]; [reflexivity|].
    cbn. rewrite H. cbn. rewrite IH. reflexivity.
  - revert dataNfts. induction data as [|nft data IH]; intros dataNfts; cbn.
    + intros [= <-]. constructor.
    + destruct (parseDataNft nft) as [dataNft|e] eqn:H; cbn; [|discriminate].
      destruct (DataNftFactory.parseEach NftType parseDataNft data)
        as [rest|e]; cbn; [|discriminate].
      intros [= <-]. constructor; [exact H|]. now apply IH.
Qed.

Lemma parseEach_first data e :
  firstFailure data e -> parseEach data = Throw e.
Proof.
  intros (good & parsed & nft & rest & -> & Hgood & Hnft).
  unfold parseEach. induction Hgood as [|a b good parsed H _ IH]; cbn.
  - rewrite Hnft. reflexivity.
  - rewrite H. cbn. rewrite IH. reflexivity.
Qed.

Lemma parse_cases data :
  (exists dataNfts, parsedAll data dataNfts) \/ (exists e, firstFailure data e).
Proof.
  induction data as [|nft data IH].
  - left. exists []. constructor.
  - destruct (parseDataNft nft) as [dataNft|e] eqn:H.
    + destruct IH as [[dataNfts IH]|[e (good & parsed & bad & rest & -> & Hg & Hb)]].
      * left. exists (dataNft :: dataNfts). now constructor.
      * right. exists e, (nft :: good), (dataNft :: parsed), bad, rest.
        split; [reflexivity|]. split; [now constructor|exact Hb].
    + right. exists e, [], [], nft, data.
      split; [reflexivity|]. split; [constructor|exact H].
Qed.

Lemma orElse_tokenOf fallback token :
  DataNftFactory.orElse (DataNftFactory.ref_tokenIdentifier token) fallback
  = FactorySpec.tokenOf fallback token.
Proof.
  unfold DataNftFactory.orElse, FactorySpec.tokenOf.
  destruct (DataNftFactory.ref_tokenIdentifier token) as [[|c s]|]; reflexivity.
Qed.

Lemma configured_api st :
  AccessSpec.configured st ->
  exists api, DataNft.apiConfiguration st = Some api.
Proof.
  intros [_ H]. destruct (DataNft.apiConfiguration st) as [api|]; [eauto|].
  discriminate.
Qed.

(** X20. The three static methods that call the API fail fast: before
    [setNetworkConfig] each throws [ErrNetworkConfig] and makes no
    request. *)
Theorem api_calls_need_the_configuration :
  forall st,
    ~ AccessSpec.configured st ->
    (forall token,
        run (createFromApi st token) = (Throw (ErrNetworkConfig None), []))
    /\ (forall tokens,
           run (createManyFromApi st tokens)
           = (Throw (ErrNetworkConfig None), []))
    /\ (forall address identifier,
           run (ownedByAddress st address identifier)
           = (Throw (ErrNetworkConfig None), [])).
Proof.
  intros st H. apply ensure_not_configured in H.
  unfold createFromApi, createManyFromApi, ownedByAddress,
    DataNftFactory.createFromApi, DataNftFactory.createManyFromApi,
    DataNftFactory.ownedByAddress.
  io_unfold. rewrite H. repeat split.
Qed.

(** X21. [createManyFromApi] makes one request whatever the number of
    tokens, an empty list included: to [/nfts?identifiers=] with the
    identifiers joined by commas, a token with no identifier of its own,
    or an empty one, taking the environment's.  With a passing status the
    result follows the records of the answer, not the tokens asked for: it
    is their parsed objects, in the order of the answer, or
    [ErrDataNftCreate('Response could not be parsed')] when a record does
    not parse. *)
Theorem createManyFromApi_follows_the_answer :
  forall st tokens api,
    AccessSpec.configured st ->
    DataNft.apiConfiguration st = Some api ->
    let fallback := DataNftFactory.defaultTokenIdentifier dataNftTokenIdentifier st in
    let request :=
      FactorySpec.get
        (FactorySpec.nftsUrl api
           (map (fun token =>
                   createNftIdentifier (FactorySpec.tokenOf fallback token)
                     (DataNftFactory.ref_nonce token))
                tokens)) in
    let result := run (createManyFromApi st tokens) in
    snd result = [request]
    /\ (forall e, net request = Throw e -> fst result = Throw e)
    /\ (forall response data,
           net request = Return response ->
           checkStatus response = Return tt ->
           jsonNfts response = Return data ->
           (forall dataNfts,
               parsedAll data dataNfts ->
               fst result = Return (DataNftFactory.Built dataNfts))
           /\ (forall e,
                  firstFailure data e ->
                  fst result
                  = Return (DataNftFactory.ErrDataNftCreate
                              "Response could not be parsed"))).
Proof.
  intros st tokens api Hcfg Hapi fallback request result.
  apply ensure_configured in Hcfg.
  assert (Hids :
    map (fun token =>
           createNftIdentifier
             (DataNftFactory.orElse (DataNftFactory.ref_tokenIdentifier token)
                fallback)
             (DataNftFactory.ref_nonce token)) tokens
    = map (fun token =>
             createNftIdentifier (FactorySpec.tokenOf fallback token)
               (DataNftFactory.ref_nonce token)) tokens).
  { apply map_ext. intros token. now rewrite orElse_tokenOf. }
  subst result request.
  unfold createManyFromApi, DataNftFactory.createManyFromApi. io_unfold.
  rewrite Hcfg, Hapi. cbn [DataNft.template id app]. fold fallback.
  rewrite Hids. unfold FactorySpec.get, FactorySpec.nftsUrl.
  rewrite <- !append_assoc.
  destruct (net _) as [response|e] eqn:Hnet.
  - split; [|split].
    + destruct (checkStatus response); [|reflexivity].
      destruct (jsonNfts response) as [data|]; [|reflexivity].
      destruct (DataNftFactory.parseEach _ _ data); reflexivity.
    + intros e [=].
    + intros response' data [= <-] -> ->. split.
      * intros dataNfts H%parseEach_all. unfold parseEach in H. now rewrite H.
      * intros e H%parseEach_first. unfold parseEach in H. now rewrite H.
  - split; [reflexivity|]. split; [intros e' [= <-]; reflexivity|].
    intros response data [=].
Qed.

Lemma createFromApi_log st token api :
  AccessSpec.configured st ->
  DataNft.apiConfiguration st = Some api ->
  snd (run (createFromApi st token))
  = [FactorySpec.get
       (FactorySpec.nftUrl api
          (createNftIdentifier
             (FactorySpec.tokenOf
                (DataNftFactory.defaultTokenIdentifier dataNftTokenIdentifier
                   st) token)
             (DataNftFactory.ref_nonce token)))].
Proof.
  intros Hcfg Hapi. apply ensure_configured in Hcfg.
  unfold createFromApi, DataNftFactory.createFromApi. io_unfold.
  rewrite Hcfg, Hapi. cbn [DataNft.template id app].
  rewrite orElse_tokenOf. unfold FactorySpec.get, FactorySpec.nftUrl.
  rewrite <- !append_assoc.
  destruct (net _) as [response|e]; [|reflexivity].
  destruct (checkStatus response); [|reflexivity].
  destruct (jsonNft response) as [data|]; [|reflexivity].
  destruct (parseDataNft data); reflexivity.
Qed.

(** X22. [createFromApi] makes one request, to [/nfts/] and the
    identifier of the token, whose collection is the token's own or, when
    it has none or an empty one, the environment's.  It returns the object
    parsed from the answer; when the answer does not parse it throws
    [ErrDataNftCreate('Response could not be parsed')] whatever the cause
    was, and a failing status is raised as it is. *)
Theorem createFromApi_request_and_result :
  forall st token api,
    AccessSpec.configured st ->
    DataNft.apiConfiguration st = Some api ->
    let fallback :=
      DataNftFactory.defaultTokenIdentifier dataNftTokenIdentifier st in
    let request :=
      FactorySpec.get
        (FactorySpec.nftUrl api
           (createNftIdentifier (FactorySpec.tokenOf fallback token)
              (DataNftFactory.ref_nonce token))) in
    let result := run (createFromApi st token) in
    snd result = [request]
    /\ (forall response e,
           net request = Return response ->
           checkStatus response = Throw e -> fst result = Throw e)
    /\ (forall response data,
           net request = Return response ->
           checkStatus response = Return tt ->
           jsonNft response = Return data ->
           (forall dataNft,
               parseDataNft data = Return dataNft ->
               fst result = Return (DataNftFactory.Built dataNft))
           /\ (forall e,
                  parseDataNft data = Throw e ->
                  fst result
                  = Return (DataNftFactory.ErrDataNftCreate
                              "Response could not be parsed"))).
Proof.
  intros st token api Hcfg Hapi fallback request result.
  apply ensure_configured in Hcfg. subst result request.
  unfold createFromApi, DataNftFactory.createFromApi. io_unfold.
  rewrite Hcfg, Hapi. cbn [DataNft.template id app]. fold fallback.
  rewrite orElse_tokenOf. unfold FactorySpec.get, FactorySpec.nftUrl.
  rewrite <- !append_assoc.
  destruct (net _) as [response|e] eqn:Hnet.
  - split; [|split].
    + destruct (checkStatus response); [|reflexivity].
      destruct (jsonNft response) as [data|]; [|reflexivity].
      destruct (parseDataNft data); reflexivity.
    + intros response' e [= <-] ->. reflexivity.
    + intros response' data [= <-] -> ->. split.
      * intros dataNft ->. reflexivity.
      * intros e ->. reflexivity.
  - split; [reflexivity|]. split; [intros response e' [=]|].
    intros response data [=].
Qed.

(** X23. [createFromApiResponseOrBulk] treats a single record as the list
    of that one record.  When every record parses it returns their
    objects, as many and in the same order; otherwise it throws
    [ErrDataNftCreate] whose message ends with the message of the first
    record's failure, and returns none of the objects parsed before. *)
Theorem bulk_parsing_reports_the_first_failure :
  (forall nft,
      createFromApiResponseOrBulk (DataNftFactory.One NftType nft)
      = createFromApiResponseOrBulk (DataNftFactory.Many NftType [nft]))
  /\ (forall data dataNfts,
         parsedAll data dataNfts ->
         createFromApiResponseOrBulk (DataNftFactory.Many NftType data)
         = DataNftFactory.Built dataNfts
         /\ length dataNfts = length data)
  /\ (forall data e,
         firstFailure data e ->
         createFromApiResponseOrBulk (DataNftFactory.Many NftType data)
         = DataNftFactory.ErrDataNftCreate
             ("Payload could not be parsed: "
              +:+ DataNft.message classMessage e)).
Proof.
  split; [reflexivity|]. split.
  - intros data dataNfts H. split.
    + apply parseEach_all in H.
      unfold createFromApiResponseOrBulk,
        DataNftFactory.createFromApiResponseOrBulk.
      fold parseEach. now rewrite H.
    + symmetry. exact (Forall2_length _ _ _ H).
  - intros data e H%parseEach_first.
    unfold createFromApiResponseOrBulk,
      DataNftFactory.createFromApiResponseOrBulk.
    fold parseEach. now rewrite H.
Qed.

(** X24. [ownedByAddress] makes one request, to [/accounts/] and the
    address, for up to 10000 tokens of the collection given, or of the
    environment's collection when none is given; an empty collection text
    is sent as it is.  With a passing status the result is that of
    [createFromApiResponseOrBulk] on the answer, and a failing status is
    raised. *)
Theorem ownedByAddress_request_and_result :
  forall st address identifier api,
    AccessSpec.configured st ->
    DataNft.apiConfiguration st = Some api ->
    let collection :=
      match identifier with
      | Some collection => collection
      | None => DataNftFactory.defaultTokenIdentifier dataNftTokenIdentifier st
      end in
    let request :=
      FactorySpec.get (FactorySpec.ownedUrl api address collection) in
    let result := run (ownedByAddress st address identifier) in
    snd result = [request]
    /\ (forall response e,
           net request = Return response ->
           checkStatus response = Throw e -> fst result = Throw e)
    /\ (forall response payload,
           net request = Return response ->
           checkStatus response = Return tt ->
           jsonPayload response = Return payload ->
           fst result = Return (createFromApiResponseOrBulk payload)).
Proof.
  intros st address identifier api Hcfg Hapi collection request result.
  apply ensure_configured in Hcfg. subst result request.
  unfold ownedByAddress, DataNftFactory.ownedByAddress. io_unfold.
  rewrite Hcfg, Hapi. cbn [DataNft.template id app].
  replace (default (DataNftFactory.defaultTokenIdentifier
                      dataNftTokenIdentifier st) identifier)
    with collection by (destruct identifier; reflexivity).
  unfold FactorySpec.get, FactorySpec.ownedUrl. rewrite <- !append_assoc.
  destruct (net _) as [response|e] eqn:Hnet.
  - split; [|split].
    + destruct (checkStatus response); [|reflexivity].
      destruct (jsonPayload response); reflexivity.
    + intros response' e [= <-] ->. reflexivity.
    + intros response' payload [= <-] -> ->. reflexivity.
  - split; [reflexivity|]. split; [intros response e' [=]|].
    intros response payload [=].
Qed.

(** X25. [setNetworkConfig] throws [ErrNetworkConfig], with its message,
    for a name that is neither a key of the environments enum nor a
    property name every object inherits.  Its test is [env in
    EnvironmentsEnum], so an inherited name such as [toString] passes: the
    call returns, and what it stores from a table that has no such key is
    no configuration.  For a name the enum and the two tables hold, it
    writes the environment's entries: the chain id read afterwards is the
    environment's, and when the name and its API URL are not empty the
    guard of the other methods passes, [createFromApi] goes to that API
    with the environment's collection as the default, and
    [getMessageToSign] sends the environment's chain id. *)
Theorem setNetworkConfig_enables_the_calls :
  forall env,
    (JsObject.has EnvironmentsEnum env = false ->
     setNetworkConfig env
     = Throw (ErrNetworkConfig
                (Some ("Invalid environment: " +:+ env
                       +:+ ", Expected: 'devnet' | 'mainnet' | 'testnet'"))))
    /\ (JsObject.inherited env = true ->
        exists written,
          setNetworkConfig env = Return written
          /\ (networkConfiguration !! env = None
               \/ apiConfiguration !! env = None ->
              Typed.statics written = None))
    /\ (forall network api,
           JsObject.has EnvironmentsEnum env = true ->
           networkConfiguration !! env = Some network ->
           apiConfiguration !! env = Some api ->
           exists written st',
             setNetworkConfig env = Return written
             /\ Typed.statics written = Some st'
             /\ DataNft.configuredChainID st'
                = Return (DataNft.chainID network)
             /\ (truthy env = true ->
                 truthy api = true ->
                 AccessSpec.configured st'
                 /\ (forall token,
                        snd (run (createFromApi st' token))
                        = [FactorySpec.get
                             (FactorySpec.nftUrl api
                                (createNftIdentifier
                                   (FactorySpec.tokenOf
                                      (dataNftTokenIdentifier env) token)
                                   (DataNftFactory.ref_nonce token)))])
                 /\ (forall this,
                        truthy (DataNft.dataMarshal this) = true ->
                        snd (run (DataNft.getMessageToSign checkStatus json
                                    net st' this))
                        = [FactorySpec.get
                             (DataNft.dataMarshal this
                              +:+ "/preaccess?chainId="
                              +:+ DataNft.marshalChainId
                                    (DataNft.chainID network))]))).
Proof.
  intros env. unfold setNetworkConfig, DataNftFactory.setNetworkConfig.
  split; [intros ->; reflexivity|]. split.
  - intros Hin.
    assert (Hhas : JsObject.has EnvironmentsEnum env = true)
      by (unfold JsObject.has; destruct (EnvironmentsEnum !! env);
          [reflexivity|exact Hin]).
    rewrite Hhas. cbn [negb]. eexists. split; [reflexivity|].
    unfold Typed.statics, JsObject.get.
    cbn [DataNftFactory.w_networkConfiguration
           DataNftFactory.w_apiConfiguration].
    intros [H|H]; rewrite H, Hin; [reflexivity|].
    destruct (networkConfiguration !! env); reflexivity.
  - intros network api -> Hnetwork Hapi. cbn [negb].
    unfold JsObject.get. rewrite Hnetwork, Hapi.
    exists {| DataNftFactory.w_env := env;
              DataNftFactory.w_networkConfiguration := JsObject.Own network;
              DataNftFactory.w_apiConfiguration := JsObject.Own api |},
           {| DataNft.networkConfiguration := Some network;
              DataNft.apiConfiguration := Some api;
              DataNft.env := Some env |}.
    split; [reflexivity|]. split; [reflexivity|]. split; [reflexivity|].
    intros Henv Hurl.
    assert (Hcfg : AccessSpec.configured
                     {| DataNft.networkConfiguration := Some network;
                        DataNft.apiConfiguration := Some api;
                        DataNft.env := Some env |})
      by (split; assumption).
    split; [exact Hcfg|]. split.
    + intros token.
      exact (createFromApi_log _ token _ Hcfg eq_refl).
    + intros this Hm. apply ensure_configured in Hcfg.
      unfold DataNft.getMessageToSign. io_unfold. rewrite Hcfg, Hm.
      cbn [negb DataNft.configuredChainID DataNft.networkConfiguration].
      destruct (net _) as [response|e]; [|reflexivity].
      destruct (checkStatus response); [|reflexivity].
      destruct (json response); reflexivity.
Qed.

End FactoryMethods.
(** Before [setNetworkConfig] a bulk request throws and nothing is
    sent. *)
Lemma api_calls_need_the_configuration_witness :
  run (DataNftFactory.createManyFromApi FactoryExamples.dataNftTokenIdentifier
         Examples.checkStatus FactoryExamples.createNftIdentifier string
         FactoryExamples.parseDataNft FactoryExamples.jsonNfts
         Examples.marshalUp AccessExamples.unset FactoryExamples.tokens)
  = (Throw (ErrNetworkConfig None), []).
Proof.
  refine (proj1 (proj2 (api_calls_need_the_configuration
                          FactoryExamples.dataNftTokenIdentifier
                          FactoryExamples.classMessage Examples.checkStatus
                          FactoryExamples.createNftIdentifier string
                          FactoryExamples.parseDataNft FactoryExamples.jsonNft
                          FactoryExamples.jsonNfts Examples.marshalUp
                          FactoryExamples.jsonPayload AccessExamples.unset _))
            FactoryExamples.tokens).
  intros [H _]. discriminate H.
Defined.

(** Three tokens, the first two with no collection of their own, are asked
    for in one request, and the three records of the answer come back. *)
Lemma createManyFromApi_follows_the_answer_witness :
  run (DataNftFactory.createManyFromApi FactoryExamples.dataNftTokenIdentifier
         Examples.checkStatus FactoryExamples.createNftIdentifier string
         FactoryExamples.parseDataNft FactoryExamples.jsonNfts
         Examples.marshalUp Examples.devnet FactoryExamples.tokens)
  = (Return (DataNftFactory.Built
               [FactoryExamples.named "a"; FactoryExamples.named "b";
                FactoryExamples.named "c"]),
     [FactorySpec.get
        ("https://devnet-api.example/nfts?identifiers="
         +:+ "DATANFTFT-e0b917-5,DATANFTFT-e0b917-7,OTHER-123456-9"
         +:+ "&withSupply=true")]).
Proof.
  pose proof (createManyFromApi_follows_the_answer
                FactoryExamples.dataNftTokenIdentifier Examples.checkStatus
                FactoryExamples.createNftIdentifier string
                FactoryExamples.parseDataNft FactoryExamples.jsonNfts
                Examples.marshalUp Examples.devnet FactoryExamples.tokens
                "https://devnet-api.example" (conj eq_refl eq_refl) eq_refl)
    as (Hlog & _ & Hres).
  destruct (Hres AccessExamples.up ["a"; "b"; "c"] eq_refl eq_refl eq_refl)
    as [Hbuilt _].
  specialize (Hbuilt [FactoryExamples.named "a"; FactoryExamples.named "b";
                      FactoryExamples.named "c"]).
  rewrite (surjective_pairing (run _)).
  rewrite Hlog, Hbuilt; [reflexivity|].
  repeat constructor.
Defined.

(** The token of nonce 5 with no collection of its own. *)
Lemma createFromApi_request_and_result_witness :
  run (DataNftFactory.createFromApi FactoryExamples.dataNftTokenIdentifier
         Examples.checkStatus FactoryExamples.createNftIdentifier string
         FactoryExamples.parseDataNft FactoryExamples.jsonNft
         Examples.marshalUp Examples.devnet
         {| DataNftFactory.ref_nonce := 5;
            DataNftFactory.ref_tokenIdentifier := None |})
  = (Return (DataNftFactory.Built (FactoryExamples.named "DATANFTFT-e0b917-05")),
     [FactorySpec.get "https://devnet-api.example/nfts/DATANFTFT-e0b917-5"]).
Proof.
  pose proof (createFromApi_request_and_result
                FactoryExamples.dataNftTokenIdentifier Examples.checkStatus
                FactoryExamples.createNftIdentifier string
                FactoryExamples.parseDataNft FactoryExamples.jsonNft
                Examples.marshalUp Examples.devnet
                {| DataNftFactory.ref_nonce := 5;
                   DataNftFactory.ref_tokenIdentifier := None |}
                "https://devnet-api.example" (conj eq_refl eq_refl) eq_refl)
    as (Hlog & _ & Hres).
  destruct (Hres AccessExamples.up "DATANFTFT-e0b917-05" eq_refl eq_refl
              eq_refl) as [Hbuilt _].
  rewrite (surjective_pairing (run _)).
  rewrite Hlog, (Hbuilt _ eq_refl). reflexivity.
Defined.

(** An answer of three records, the second of which does not parse. *)
Lemma bulk_parsing_reports_the_first_failure_witness :
  DataNftFactory.createFromApiResponseOrBulk FactoryExamples.classMessage
    string FactoryExamples.parseDataNft
    (DataNftFactory.Many string ["a"; "broken"; "c"])
  = DataNftFactory.ErrDataNftCreate
      "Payload could not be parsed: Attribute attributes is not set".
Proof.
  apply (proj2 (proj2 (bulk_parsing_reports_the_first_failure
                         FactoryExamples.classMessage string
                         FactoryExamples.parseDataNft))
           ["a"; "broken"; "c"] (ErrAttributeNotSet "attributes")).
  exists ["a"], [FactoryExamples.named "a"], "broken", ["c"].
  split; [reflexivity|]. split; [|reflexivity].
  repeat constructor.
Defined.

(** The tokens of an address, with the default collection of the devnet;
    the answer holds a record that does not parse. *)
Lemma ownedByAddress_request_and_result_witness :
  run (DataNftFactory.ownedByAddress FactoryExamples.dataNftTokenIdentifier
         FactoryExamples.classMessage Examples.checkStatus string
         FactoryExamples.parseDataNft Examples.marshalUp
         FactoryExamples.jsonPayload Examples.devnet "erd1alice" None)
  = (Return (DataNftFactory.ErrDataNftCreate
               "Payload could not be parsed: Attribute attributes is not set"),
     [FactorySpec.get
        ("https://devnet-api.example/accounts/erd1alice"
         +:+ "/nfts?size=10000&collections=DATANFTFT-e0b917&withSupply=true")]).
Proof.
  pose proof (ownedByAddress_request_and_result
                FactoryExamples.dataNftTokenIdentifier
                FactoryExamples.classMessage Examples.checkStatus string
                FactoryExamples.parseDataNft Examples.marshalUp
                FactoryExamples.jsonPayload Examples.devnet "erd1alice" None
                "https://devnet-api.example" (conj eq_refl eq_refl) eq_refl)
    as (Hlog & _ & Hres).
  rewrite (surjective_pairing (run _)).
  rewrite Hlog, (Hres AccessExamples.up _ eq_refl eq_refl eq_refl).
  reflexivity.
Defined.

(** [setNetworkConfig('devnet')] configures the devnet, a name that is no
    environment is rejected, and [toString] is let through. *)
Lemma setNetworkConfig_enables_the_calls_witness :
  (exists written st',
      DataNftFactory.setNetworkConfig FactoryExamples.EnvironmentsEnum
        FactoryExamples.networkConfiguration FactoryExamples.apiConfiguration
        "devnet"
      = Return written
      /\ Typed.statics written = Some st'
      /\ DataNft.configuredChainID st' = Return "D"
      /\ AccessSpec.configured st')
  /\ DataNftFactory.setNetworkConfig FactoryExamples.EnvironmentsEnum
       FactoryExamples.networkConfiguration FactoryExamples.apiConfiguration
       "local"
     = Throw (ErrNetworkConfig
                (Some "Invalid environment: local, Expected: 'devnet' | 'mainnet' | 'testnet'"))
  /\ (exists written,
         DataNftFactory.setNetworkConfig FactoryExamples.EnvironmentsEnum
           FactoryExamples.networkConfiguration
           FactoryExamples.apiConfiguration "toString"
         = Return written
         /\ Typed.statics written = None).
Proof.
  pose proof (fun env =>
                setNetworkConfig_enables_the_calls
                  FactoryExamples.EnvironmentsEnum
                  FactoryExamples.networkConfiguration
                  FactoryExamples.apiConfiguration
                  FactoryExamples.dataNftTokenIdentifier Examples.checkStatus
                  FactoryExamples.createNftIdentifier string
                  FactoryExamples.parseDataNft FactoryExamples.jsonNft
                  Examples.marshalUp Examples.json env) as H.
  split; [|split].
  - destruct (proj2 (proj2 (H "devnet"))
                {| DataNft.chainID := "D";
                   DataNft.networkProvider := "https://devnet-api.example" |}
                "https://devnet-api.example" eq_refl eq_refl eq_refl)
      as (written & st' & Hset & Hst & Hchain & Hrest).
    exists written, st'. split; [exact Hset|]. split; [exact Hst|].
    split; [exact Hchain|]. exact (proj1 (Hrest eq_refl eq_refl)).
  - exact (proj1 (H "local") eq_refl).
  - destruct (proj1 (proj2 (H "toString")) eq_refl) as (written & Hset & Hst).
    exists written. split; [exact Hset|]. apply Hst. left. reflexivity.
Defined.
(** ** The URL of the native-auth flow *)

Section NativeAuthUrl.

Variable classMessage classToString : Exception -> string.
Variable validate : DataNft.ValidationParams -> DataNft.ValidationResult.
Variable checkStatus : Response -> Exc unit.
Variable numberToPaddedHex : Z -> string.
Variable btoa : string -> Exc string.
Variable net : Request -> Exc Response.

Let viewDataViaMVXNativeAuth :=
  DataNft.viewDataViaMVXNativeAuth classMessage classToString validate
    checkStatus numberToPaddedHex btoa net.

(** X26. The URL of the request of [viewDataViaMVXNativeAuth] is the
    marshal URL followed by [/access] and the parameters NFTId, chainId,
    mvxNativeAuthEnable=1, mvxNativeAuthMaxExpirySeconds and
    mvxNativeAuthOrigins, the last being the encoding of the origins
    joined by commas, trimmed and with every space taken out; then the
    optional flags as in [viewData].  Unlike [viewData], the flow names
    [fwdHeaderKeys] in the URL only when the header lookup map has an
    entry. *)
Theorem nativeAuth_request_url :
  forall st this p req,
    In req (snd (run (viewDataViaMVXNativeAuth st this p))) ->
    exists c origins encoded,
      DataNft.networkConfiguration st = Some c
      /\ DataNft.mvxNativeAuthOrigins p = Some origins
      /\ btoa (NativeAuthSpec.originsText origins) = Return encoded
      /\ url req
         = NativeAuthSpec.nativeAuthUrl (DataNft.dataMarshal this)
             (DataNft.collection this)
             (numberToPaddedHex (DataNft.nonce this))
             (DataNft.marshalChainId (DataNft.chainID c)) encoded p.
Proof.
  intros st this p req.
  unfold viewDataViaMVXNativeAuth, DataNft.viewDataViaMVXNativeAuth. io_unfold.
  destruct (negb (DataNft.allPassed _)); [intros []|].
  destruct (DataNft.mvxNativeAuthOrigins p) as [origins|]; [|intros []].
  fold (NativeAuthSpec.originsText origins).
  destruct (btoa _) as [encoded|] eqn:Hb; [|intros []].
  unfold DataNft.configuredChainID.
  destruct (DataNft.networkConfiguration st) as [c|]; [|intros []].
  rewrite append_flags.
  unfold NativeAuthSpec.nativeAuthUrl, NativeAuthSpec.sentKeys,
    AccessSpec.keysFlag.
  destruct (DataNft.na_fwdHeaderMapLookup p) as [lookup|];
    [destruct (0 <? size lookup)%nat eqn:Hsize;
     [apply size_positive in Hsize;
      destruct (DataNft.na_fwdHeaderKeys p) as [keys|]
     |assert (lookup = ∅)
        by (destruct (decide (lookup = ∅)) as [|Hne]; [assumption|];
            apply size_positive in Hne; congruence)]|];
    try destruct (decide (lookup = ∅)); try contradiction;
    match goal with
    | |- context [DataNft.access _ _ _ ?u ?cfg []] =>
        destruct (access_run classToString checkStatus net u cfg [])
          as [r ->];
        intros Hin;
        (assert (exists cf, req = mkRequest u (Some cf)) as [cf ->]
          by (destruct r; cbn in Hin; destruct Hin as [<-|[]]; eauto))
    end;
    exists c, origins, encoded;
    (split; [reflexivity|]); (split; [reflexivity|]);
    (split; [exact Hb|]); cbn [url];
    rewrite ?append_assoc, ?append_empty; reflexivity.
Qed.

End NativeAuthUrl.

(** The request of the example call has the URL of the example request. *)
Lemma nativeAuth_request_url_witness :
  exists c origins encoded,
    DataNft.networkConfiguration Examples.devnet = Some c
    /\ DataNft.mvxNativeAuthOrigins Examples.nativeAuthArgs = Some origins
    /\ Examples.btoa (NativeAuthSpec.originsText origins) = Return encoded
    /\ url Examples.nativeAuthRequest
       = NativeAuthSpec.nativeAuthUrl "https://marshal.example/v1"
           "DATANFTFT-e0b917" "05"
           (DataNft.marshalChainId (DataNft.chainID c)) encoded
           Examples.nativeAuthArgs.
Proof.
  apply (nativeAuth_request_url Examples.classMessage Examples.classToString
           Examples.acceptAll Examples.checkStatus Examples.numberToPaddedHex
           Examples.btoa Examples.marshalUp Examples.devnet Examples.nft
           Examples.nativeAuthArgs Examples.nativeAuthRequest).
  vm_compute. left. reflexivity.
Defined.
(** ** The constructors *)

Section Constructed.

Variable EnvironmentsEnum : gmap string string.
Variable networkConfiguration : gmap string DataNft.Config.
Variable marketPlaceContractAddress : gmap string string.
Variable minterContractAddress : gmap string string.
Variable imageService : gmap string string.
Variable newAddress : JsObject.Property string -> Exc Address.
Variable dataNftTokenIdentifier : string -> string.

Let newDataNftMarket :=
  Construction.newDataNftMarket EnvironmentsEnum networkConfiguration
    marketPlaceContractAddress newAddress.
Let newDataNftMinter :=
  Construction.newDataNftMinter EnvironmentsEnum networkConfiguration
    minterContractAddress imageService newAddress.

(** X27. The constructors of [DataNftMarket] and [DataNftMinter] throw
    [ErrNetworkConfig] for a name that is neither a key of the
    environments enum nor a property name every object inherits.  For a
    name that passes the test [env in EnvironmentsEnum] and that the tables
    hold, they build clients of that environment: the provider has the
    timeout given, or 10000 when none is, a purchase built by the market
    goes to the address made of the marketplace entry, with the
    environment's chain id, and a [burn] built by the minter with no token
    identifier burns the environment's Data NFT collection and names the
    address made of the minter entry.  An inherited name such as
    [toString], which the tables do not hold, passes the test as well:
    the constructors then do what making an address of the inherited
    member does, and when that returns, the object has no chain id. *)
Theorem constructed_clients_use_their_environment :
  forall env timeout,
    let invalid :=
      ErrNetworkConfig
        (Some ("Invalid environment: " +:+ env
               +:+ ", Expected: 'devnet' | 'mainnet' | 'testnet'")) in
    let milliseconds := match timeout with Some t => t | None => 10000 end in
    (JsObject.has EnvironmentsEnum env = false ->
     newDataNftMarket env timeout = Throw invalid
     /\ newDataNftMinter env timeout = Throw invalid)
    /\ (forall network marketEntry minterEntry image marketAddress
               minterAddress,
           JsObject.has EnvironmentsEnum env = true ->
           networkConfiguration !! env = Some network ->
           marketPlaceContractAddress !! env = Some marketEntry ->
           minterContractAddress !! env = Some minterEntry ->
           imageService !! env = Some image ->
           newAddress (JsObject.Own marketEntry) = Return marketAddress ->
           newAddress (JsObject.Own minterEntry) = Return minterAddress ->
           exists marketFields minterFields market minter,
             newDataNftMarket env timeout = Return marketFields
             /\ newDataNftMinter env timeout = Return minterFields
             /\ Typed.market marketFields = Some market
             /\ Typed.minter minterFields = Some minter
             /\ Construction.provider_timeout
                  (Construction.market_networkProvider marketFields)
                = milliseconds
             /\ Construction.provider_timeout
                  (Construction.minter_networkProvider minterFields)
                = milliseconds
             /\ (forall senderAddress offerId amount price,
                    let tx :=
                      DataNftMarket.acceptOfferWithEGLD market senderAddress
                        offerId amount price in
                    receiver tx = marketAddress
                    /\ chainID tx = DataNft.chainID network)
             /\ (forall senderAddress dataNftNonce quantityToBurn,
                    let tx :=
                      DataNftMinter.burn dataNftTokenIdentifier minter
                        senderAddress dataNftNonce quantityToBurn None in
                    data tx
                    = call "ESDTNFTTransfer"
                        [TokenIdentifierValue (dataNftTokenIdentifier env);
                         U64Value dataNftNonce;
                         BigUIntValue (BnNum quantityToBurn);
                         AddressValue minterAddress;
                         StringValue "burn"]
                    /\ chainID tx = DataNft.chainID network))
    /\ (JsObject.inherited env = true ->
        networkConfiguration !! env = None ->
        marketPlaceContractAddress !! env = None ->
        minterContractAddress !! env = None ->
        (forall e,
            newAddress (JsObject.Inherited env) = Throw e ->
            newDataNftMarket env timeout = Throw e
            /\ newDataNftMinter env timeout = Throw e)
        /\ (forall address,
               newAddress (JsObject.Inherited env) = Return address ->
               exists marketFields minterFields,
                 newDataNftMarket env timeout = Return marketFields
                 /\ newDataNftMinter env timeout = Return minterFields
                 /\ Construction.market_chainID marketFields = None
                 /\ Construction.minter_chainID minterFields = None
                 /\ Typed.market marketFields = None
                 /\ Typed.minter minterFields = None)).
Proof.
  intros env timeout invalid milliseconds.
  unfold newDataNftMarket, newDataNftMinter, Construction.newDataNftMarket,
    Construction.newDataNftMinter.
  split; [intros ->; split; reflexivity|]. split.
  - intros network marketEntry minterEntry image marketAddress minterAddress
      -> Hnetwork Hmarket Hminter Himage HmarketAddress HminterAddress.
    unfold JsObject.get. rewrite Hnetwork, Hmarket, Hminter, Himage. cbn.
    rewrite HmarketAddress, HminterAddress. cbn.
    do 4 eexists. split; [reflexivity|]. split; [reflexivity|].
    split; [reflexivity|]. split; [reflexivity|].
    split; [destruct timeout; reflexivity|].
    split; [destruct timeout; reflexivity|].
    split; intros; split; reflexivity.
  - intros Hin Hnetwork Hmarket Hminter.
    assert (Hhas : JsObject.has EnvironmentsEnum env = true)
      by (unfold JsObject.has; destruct (EnvironmentsEnum !! env);
          [reflexivity|exact Hin]).
    rewrite Hhas. unfold JsObject.get.
    rewrite Hnetwork, Hmarket, Hminter, Hin. cbn.
    split.
    + intros e ->. split; reflexivity.
    + intros address ->. cbn. do 2 eexists. repeat split.
Qed.

End Constructed.

(** The devnet clients, a name that is no environment, and [toString]
    with an address library that makes no address of a function. *)
Lemma constructed_clients_use_their_environment_witness :
  (exists marketFields market,
      Construction.newDataNftMarket FactoryExamples.EnvironmentsEnum
        FactoryExamples.networkConfiguration
        FactoryExamples.marketPlaceContractAddress FactoryExamples.newAddress
        "devnet" None
      = Return marketFields
      /\ Typed.market marketFields = Some market
      /\ Construction.provider_timeout
           (Construction.market_networkProvider marketFields) = 10000
      /\ receiver (DataNftMarket.acceptOfferWithEGLD market Examples.alice 1 1
                     "1000")
         = mkAddress "erd1qqqqqqqqqqqqqpgqmarket")
  /\ Construction.newDataNftMarket FactoryExamples.EnvironmentsEnum
       FactoryExamples.networkConfiguration
       FactoryExamples.marketPlaceContractAddress FactoryExamples.newAddress
       "local" None
     = Throw (ErrNetworkConfig
                (Some "Invalid environment: local, Expected: 'devnet' | 'mainnet' | 'testnet'"))
  /\ Construction.newDataNftMarket FactoryExamples.EnvironmentsEnum
       FactoryExamples.networkConfiguration
       FactoryExamples.marketPlaceContractAddress FactoryExamples.newAddress
       "toString" None
     = Throw (Error "ErrAddressCannotCreate").
Proof.
  pose proof (fun env =>
                constructed_clients_use_their_environment
                  FactoryExamples.EnvironmentsEnum
                  FactoryExamples.networkConfiguration
                  FactoryExamples.marketPlaceContractAddress
                  FactoryExamples.minterContractAddress
                  FactoryExamples.imageService FactoryExamples.newAddress
                  FactoryExamples.dataNftTokenIdentifier env None) as H.
  split; [|split].
  - destruct (proj1 (proj2 (H "devnet"))
                {| DataNft.chainID := "D";
                   DataNft.networkProvider := "https://devnet-api.example" |}
                "erd1qqqqqqqqqqqqqpgqmarket" "erd1qqqqqqqqqqqqqpgqminter"
                "https://image.example"
                (mkAddress "erd1qqqqqqqqqqqqqpgqmarket")
                (mkAddress "erd1qqqqqqqqqqqqqpgqminter")
                eq_refl eq_refl eq_refl eq_refl eq_refl eq_refl eq_refl)
      as (marketFields & minterFields & market & minter & Hmarket & _
          & Hclient & _ & Htimeout & _ & Hpurchase & _).
    exists marketFields, market. split; [exact Hmarket|].
    split; [exact Hclient|]. split; [exact Htimeout|].
    exact (proj1 (Hpurchase Examples.alice 1 1 "1000")).
  - exact (proj1 (proj1 (H "local") eq_refl)).
  - exact (proj1 (proj1 (proj2 (proj2 (H "toString")) eq_refl eq_refl eq_refl
                          eq_refl)
                    (Error "ErrAddressCannotCreate") eq_refl)).
Defined.
(** ** Numbers *)

Lemma roundToDouble_small m :
  (0 <= m < 2 ^ 53)%Z -> roundToDouble m = m.
Proof.
  intros [H0 H]. unfold roundToDouble.
  destruct (Z.eq_dec m 0) as [->|Hm]; [reflexivity|].
  assert (Z.log2 m < 53)%Z by (apply Z.log2_lt_pow2; lia).
  destruct (Z.leb_spec (Z.log2 m + 1) 53); [reflexivity|lia].
Qed.

(** The parts of a number of more than 53 bits, and where it is rounded
    to. *)
Lemma roundToDouble_large m :
  (2 ^ 53 <= m)%Z ->
  exists s q r q' : Z,
    (1 <= s)%Z /\ m = (q * 2 ^ s + r)%Z /\ (0 <= r < 2 ^ s)%Z
    /\ (2 ^ 52 <= q < 2 ^ 53)%Z
    /\ roundToDouble m = (q' * 2 ^ s)%Z
    /\ ((q' = q /\ (2 * r <= 2 ^ s)%Z /\ ((2 * r = 2 ^ s)%Z -> Z.even q = true))
        \/ (q' = (q + 1)%Z /\ (2 ^ s <= 2 * r)%Z
            /\ ((2 * r = 2 ^ s)%Z -> Z.even (q + 1) = true))).
Proof.
  intros Hm.
  assert (Hpos : (0 < m)%Z) by (pose proof (Z.pow_pos_nonneg 2 53); lia).
  destruct (Z.log2_spec m Hpos) as [Hlo Hhi].
  assert (Hlog : (53 <= Z.log2 m)%Z).
  { apply Z.log2_le_pow2; lia. }
  set (s := (Z.log2 m - 52)%Z).
  assert (Hs : (1 <= s)%Z) by (subst s; lia).
  assert (Hp : (0 < 2 ^ s)%Z) by (apply Z.pow_pos_nonneg; lia).
  assert (Hlo' : (2 ^ 52 * 2 ^ s <= m)%Z).
  { rewrite <- Z.pow_add_r by lia. replace (52 + s)%Z with (Z.log2 m) by (subst s; lia).
    exact Hlo. }
  assert (Hhi' : (m < 2 ^ 53 * 2 ^ s)%Z).
  { rewrite <- Z.pow_add_r by lia.
    replace (53 + s)%Z with (Z.succ (Z.log2 m)) by (subst s; lia). exact Hhi. }
  assert (Hhalf : (2 ^ s = 2 * 2 ^ (s - 1))%Z).
  { replace s with (Z.succ (s - 1)) at 1 by lia. apply Z.pow_succ_r. lia. }
  pose proof (Z.div_mod m (2 ^ s) ltac:(lia)) as Hdm.
  pose proof (Z.mod_pos_bound m (2 ^ s) Hp) as Hr.
  set (q := (m / 2 ^ s)%Z) in *. set (r := (m mod 2 ^ s)%Z) in *.
  assert (Hq : (2 ^ 52 <= q < 2 ^ 53)%Z).
  { split.
    - apply Z.div_le_lower_bound; lia.
    - apply Z.div_lt_upper_bound; lia. }
  unfold roundToDouble.
  replace (Z.log2 m + 1 - 53)%Z with s by (subst s; lia).
  destruct (Z.leb_spec (Z.log2 m + 1) 53); [lia|].
  rewrite Z.shiftr_div_pow2, Z.land_ones, !Z.shiftl_mul_pow2 by lia.
  fold q r. rewrite Z.mul_1_l.
  exists s, q, r.
  destruct ((2 ^ (s - 1) <? r)%Z || ((r =? 2 ^ (s - 1))%Z && Z.odd q)) eqn:Hup.
  - exists (q + 1)%Z. repeat split; try lia.
    right. apply orb_true_iff in Hup as [Hup|Hup].
    + apply Z.ltb_lt in Hup. repeat split; try lia.
    + apply andb_true_iff in Hup as [Heq Hodd]. apply Z.eqb_eq in Heq.
      repeat split; try lia. intros _.
      rewrite Z.even_add, <- Z.negb_odd, Hodd. reflexivity.
  - exists q. repeat split; try lia.
    left. apply orb_false_iff in Hup as [Hlt Hup]. apply Z.ltb_ge in Hlt.
    repeat split; try lia. intros Htie.
    apply andb_false_iff in Hup as [Hne|Hodd].
    + apply Z.eqb_neq in Hne. lia.
    + rewrite <- Z.negb_odd, Hodd. reflexivity.
Qed.

Lemma representable_opp d :
  NumberSpec.representable d -> NumberSpec.representable (- d).
Proof.
  intros (k & e & He & Hk & ->). exists (- k)%Z, e.
  rewrite Z.abs_opp. split; [assumption|]. split; [assumption|]. lia.
Qed.

Lemma roundToDouble_nearest m :
  (0 <= m)%Z -> NumberSpec.nearest m (roundToDouble m).
Proof.
  intros H0. destruct (Z.lt_ge_cases m (2 ^ 53)) as [Hsmall|Hlarge].
  - rewrite roundToDouble_small by lia. split.
    + exists m, 0%Z. rewrite Z.abs_eq by lia. repeat split; lia.
    + intros d' _. rewrite Z.sub_diag. cbn. apply Z.abs_nonneg.
  - destruct (roundToDouble_large m Hlarge)
      as (s & q & r & q' & Hs & Hm & Hr & Hq & -> & Hround).
    assert (Hp : (0 < 2 ^ s)%Z) by (apply Z.pow_pos_nonneg; lia).
    set (P := (2 ^ s)%Z) in *.
    assert (Hd : (Z.abs (m - q' * P) <= r
                  /\ Z.abs (m - q' * P) <= P - r)%Z).
    { destruct Hround as [(-> & H & _)|(-> & H & _)]; split; lia. }
    split.
    + exists q', s. split; [lia|]. split; [|reflexivity].
      destruct Hround as [(-> & _)|(-> & _)]; lia.
    + intros d' (k & e & He & Hk & ->).
      destruct (Z.le_gt_cases s e) as [Hse|Hes].
      * assert (He' : (2 ^ e = 2 ^ (e - s) * P)%Z).
        { subst P. rewrite <- Z.pow_add_r by lia. f_equal. lia. }
        rewrite He', Z.mul_assoc. set (K := (k * 2 ^ (e - s))%Z).
        destruct (Z.le_gt_cases K q) as [HK|HK].
        -- assert (0 <= (q - K) * P)%Z by (apply Z.mul_nonneg_nonneg; lia).
           lia.
        -- assert (0 <= (K - q - 1) * P)%Z by (apply Z.mul_nonneg_nonneg; lia).
           lia.
      * assert (Hpe : (0 < 2 ^ e)%Z) by (apply Z.pow_pos_nonneg; lia).
        assert (Hle : (2 * 2 ^ e <= P)%Z).
        { subst P. replace s with (Z.succ (s - 1)) by lia.
          rewrite Z.pow_succ_r by lia.
          pose proof (Z.pow_le_mono_r 2 e (s - 1)). lia. }
        assert (Hk' : (Z.abs (k * 2 ^ e) <= 2 ^ 53 * 2 ^ e)%Z).
        { rewrite Z.abs_mul, (Z.abs_eq (2 ^ e)) by lia.
          apply Z.mul_le_mono_nonneg_r; lia. }
        assert (Hq' : (2 ^ 52 * P <= q * P)%Z)
          by (apply Z.mul_le_mono_nonneg_r; lia).
        change (2 ^ 53)%Z with (2 * 2 ^ 52)%Z in Hk'.
        assert (2 * 2 ^ 52 * 2 ^ e <= 2 ^ 52 * P)%Z by lia.
        lia.
Qed.

Lemma toNumber_nonneg n : (0 <= n)%Z -> toNumber n = roundToDouble n.
Proof.
  intros H. unfold toNumber. destruct (Z.eq_dec n 0) as [->|Hn]; [reflexivity|].
  rewrite Z.sgn_pos, Z.abs_eq by lia. lia.
Qed.

Lemma toNumber_opp n : toNumber (- n) = (- toNumber n)%Z.
Proof. unfold toNumber. rewrite Z.sgn_opp, Z.abs_opp. lia. Qed.

(** [toNumber] is exact up to 2^53 and gives a nearest double
    everywhere. *)
Lemma toNumber_exact n : (Z.abs n <= 2 ^ 53)%Z -> toNumber n = n.
Proof.
  intros H.
  assert (Hnn : forall m, (0 <= m <= 2 ^ 53)%Z -> toNumber m = m).
  { intros m Hm. rewrite toNumber_nonneg by lia.
    destruct (Z.eq_dec m (2 ^ 53)) as [->|Hne]; [reflexivity|].
    apply roundToDouble_small. lia. }
  destruct (Z.le_gt_cases 0 n).
  - apply Hnn. lia.
  - replace n with (- - n)%Z by lia. rewrite toNumber_opp, Hnn; lia.
Qed.

Lemma toNumber_nearest n : NumberSpec.nearest n (toNumber n).
Proof.
  destruct (Z.le_gt_cases 0 n).
  - rewrite toNumber_nonneg by lia. now apply roundToDouble_nearest.
  - replace n with (- - n)%Z at 2 by lia. rewrite toNumber_opp.
    rewrite toNumber_nonneg by lia.
    destruct (roundToDouble_nearest (- n)%Z ltac:(lia)) as [Hrep Hmin].
    split; [now apply representable_opp|].
    intros d' Hd'. specialize (Hmin (- d')%Z (representable_opp _ Hd')).
    lia.
Qed.

Section Counters.

Variable itheumTokenIdentifier : string -> string.
Variable RawOfferOut : Type.
Variable parseOffer : RawOfferOut -> Offer.
Variable QueryResponse : Type.
Variable queryContract : Query -> Exc QueryResponse.
Variable parseQueryResponse :
  forall T, QueryResponse -> Endpoint RawOfferOut T -> Exc (Parsed T).
Variable numericalValueOfUndefined : Exc Z.
Variable market : DataNftMarket.t.
Variable minter : Minter.t.

Let query :=
  Views.query itheumTokenIdentifier RawOfferOut market minter.
Let invoke :=
  Views.invoke itheumTokenIdentifier RawOfferOut parseOffer QueryResponse
    queryContract parseQueryResponse numericalValueOfUndefined market minter.

(** X28. The three view methods that return a count hand back a
    JavaScript number: for a response that signals success and carries
    the count [n], below the magnitude that rounds to an infinity,
    [viewAddressTotalOffers], [viewNumberOfOffers] and
    [viewLastValidOfferId] return a double nearest to [n], which is [n]
    itself as long as [n] does not exceed 2^53 in magnitude. *)
Theorem counters_are_nearest_doubles :
  forall (m : Views.Method) (a : Views.Args m) (response : QueryResponse)
         (n : Z) (returnCode : ReturnCode),
    let answered (ep : Endpoint RawOfferOut Z) :=
      queryContract (query m a) = Return response
      /\ parseQueryResponse _ response ep
         = Return (mkParsed (Some n) returnCode)
      /\ isSuccess returnCode = true
      /\ (Z.abs n < 2 ^ 1024 - 2 ^ 970)%Z in
    let returned (result : Exc Z) :=
      exists d, result = Return d
                /\ NumberSpec.nearest n d
                /\ ((Z.abs n <= 2 ^ 53)%Z -> d = n) in
    match m return Views.Args m -> Prop with
    | Views.viewAddressTotalOffers =>
        fun a => answered ep_viewUserTotalOffers ->
                 returned (invoke Views.viewAddressTotalOffers a)
    | Views.viewNumberOfOffers =>
        fun a => answered ep_viewNumberOfOffers ->
                 returned (invoke Views.viewNumberOfOffers a)
    | Views.viewLastValidOfferId =>
        fun a => answered ep_getLastValidOfferId ->
                 returned (invoke Views.viewLastValidOfferId a)
    | _ => fun _ => True
    end a.
Proof.
  intros m a response n returnCode answered returned.
  subst answered returned query invoke.
  destruct m; try exact I; cbn in a |- *;
    intros (Hquery & Hparse & Hsuccess & _);
    unfold Views.query in Hquery; cbn in Hquery;
    unfold DataNftMarket.viewAddressTotalOffers,
      DataNftMarket.viewNumberOfOffers, DataNftMarket.viewLastValidOfferId,
      roundTrip;
    cbn; rewrite Hquery; cbn; rewrite Hparse; cbn; rewrite Hsuccess; cbn;
    (exists (toNumber n)); (split; [reflexivity|]);
    (split; [apply toNumber_nearest|apply toNumber_exact]).
Qed.

End Counters.

(** The offer id 2^53 + 1 is returned as 2^53, a nearest double. *)
Lemma counters_are_nearest_doubles_witness :
  exists d,
    QueryExamples.invoke QueryExamples.ok Views.viewLastValidOfferId tt
    = Return d
    /\ NumberSpec.nearest 9007199254740993 d
    /\ d = 9007199254740992%Z.
Proof.
  destruct (counters_are_nearest_doubles Examples.itheumTokenIdentifier unit
              QueryExamples.parseOffer ReturnCode
              (QueryExamples.chain QueryExamples.ok) QueryExamples.parse
              (Throw (TypeError "not a number")) Examples.market
              Examples.minter Views.viewLastValidOfferId tt QueryExamples.ok
              9007199254740993 QueryExamples.ok
              (conj eq_refl (conj eq_refl (conj eq_refl eq_refl))))
    as (d & Hd & Hnear & _).
  exists d. split; [exact Hd|]. split; [exact Hnear|].
  change (QueryExamples.invoke QueryExamples.ok Views.viewLastValidOfferId tt)
    with (Return (A := Z) 9007199254740992) in Hd.
  now injection Hd.
Defined.
